(** * The tuning/compile pipeline of tvm-gcs-dlacc

    A shallow embedding of [app/main.py], [app/helpers.py],
    [dlacc/utils.py], [dlacc/optimum.py] and [dlacc/ansor_engine.py].

    Python objects that the code mutates and shares (the config dictionary,
    the [Optimum] instance) live in an explicit store; exceptions are a sum
    type threaded through a state-and-error monad; every call into a
    collaborator outside the repository (cloud storage, pub/sub, TVM, the
    ONNX runtime, the file system) is recorded in a trace together with its
    outcome, which an oracle decides. *)

From Stdlib Require Import ZArith Lia Ascii.
From stdpp Require Import base gmap strings list pretty.

Set Warnings "-register-all,-clear-no-such-hyp".
Open Scope string_scope.
Open Scope Z_scope.
Open Scope list_scope.

(** ** Python values *)

(** What [json.load] can return, plus the integers and strings the
    pipeline writes into the report.  A float is kept abstractly by what
    the program can observe of it: the integer it is numerically equal to,
    if any, and its printed form. *)
Inductive value :=
| VNone
| VBool (b : bool)
| VInt (z : Z)
| VFloat (int_value : option Z) (repr : string)
| VStr (s : string)
| VList (l : list value)
| VDict (d : gmap string value).

(** [type(v).__name__] *)
Definition type_name (v : value) : string :=
  match v with
  | VNone => "NoneType"
  | VBool _ => "bool"
  | VInt _ => "int"
  | VFloat _ _ => "float"
  | VStr _ => "str"
  | VList _ => "list"
  | VDict _ => "dict"
  end.

(** [bool(v)] *)
Definition truthy (v : value) : bool :=
  match v with
  | VNone => false
  | VBool b => b
  | VInt z => negb (z =? 0)
  | VFloat (Some z) _ => negb (z =? 0)
  | VFloat None _ => true
  | VStr s => negb (String.eqb s "")
  | VList l => match l with [] => false | _ => true end
  | VDict d => negb (Nat.eqb (size d) 0)
  end.

(** [v == s] for a string literal [s] *)
Definition eq_str (v : value) (s : string) : bool :=
  match v with
  | VStr s' => String.eqb s' s
  | _ => false
  end.

(** [v == z] for an integer literal [z] ([True == 1] and [1.0 == 1] hold
    in Python) *)
Definition eq_int (v : value) (z : Z) : bool :=
  match v with
  | VInt z' => z' =? z
  | VBool b => (if b then 1 else 0) =? z
  | VFloat (Some z') _ => z' =? z
  | _ => false
  end.

(** ** Exceptions *)

Inductive exn :=
| KeyError (key : string)
| TypeError (msg : string)
| AttributeError (msg : string)
| UnboundLocalError (name : string)
| NotImplementedError
| External (msg : string).

(** [str(e)].  The keys this program looks up are plain identifiers, whose
    [repr] is the key between single quotes.  [raise NotImplementedError]
    carries no argument, so its message is empty.  The text for an unbound
    local is CPython's (up to 3.10). *)
Definition str_exn (e : exn) : string :=
  match e with
  | KeyError k => "'" +:+ k +:+ "'"
  | TypeError m => m
  | AttributeError m => m
  | UnboundLocalError x =>
      "local variable '" +:+ x +:+ "' referenced before assignment"
  | NotImplementedError => ""
  | External m => m
  end.

(** [v[key]] for a string key *)
Definition subscript (v : value) (key : string) : exn + value :=
  match v with
  | VDict d =>
      match d !! key with
      | Some x => inr x
      | None => inl (KeyError key)
      end
  | VList _ => inl (TypeError "list indices must be integers or slices, not str")
  | VStr _ => inl (TypeError "string indices must be integers")
  | _ => inl (TypeError ("'" +:+ type_name v +:+ "' object is not subscriptable"))
  end.

(** [v[key] = x] for a string key: the updated object, or the exception *)
Definition store_subscript (v : value) (key : string) (x : value) : exn + value :=
  match v with
  | VDict d => inr (VDict (<[key := x]> d))
  | VList _ => inl (TypeError "list indices must be integers or slices, not str")
  | _ => inl (TypeError ("'" +:+ type_name v +:+ "' object does not support item assignment"))
  end.

(** ** Strings and paths *)

(** [s.replace(old, new)] for one-character [old] and [new] *)
Fixpoint replace_char (old new : ascii) (s : string) : string :=
  match s with
  | EmptyString => EmptyString
  | String c s' =>
      String (if Ascii.eqb c old then new else c) (replace_char old new s')
  end.

(** Components of a string between slashes; [cur] is the component being
    read. *)
Fixpoint split_slash (cur : string) (s : string) : list string :=
  match s with
  | EmptyString => [cur]
  | String c s' =>
      if Ascii.eqb c "/"%char then cur :: split_slash "" s'
      else split_slash (cur +:+ String c "") s'
  end.

Fixpoint leading_slashes (s : string) : nat :=
  match s with
  | String c s' => if Ascii.eqb c "/"%char then S (leading_slashes s') else 0%nat
  | EmptyString => 0%nat
  end.

(** [pathlib.PurePosixPath]: a root and the components, empty and ["."]
    components dropped; exactly two leading slashes are kept as a root of
    their own. *)
Record Path := mkPath { root : string; parts : list string }.

Definition is_component (s : string) : bool :=
  negb (String.eqb s "") && negb (String.eqb s ".").

Definition parse_path (s : string) : Path :=
  let r := match leading_slashes s with
           | O => ""
           | 2%nat => "//"
           | _ => "/"
           end in
  mkPath r (filter (fun c => is_component c = true) (split_slash "" s)).

Fixpoint join_slash (l : list string) : string :=
  match l with
  | [] => ""
  | [x] => x
  | x :: l' => x +:+ "/" +:+ join_slash l'
  end.

(** [str(p)] *)
Definition path_str (p : Path) : string :=
  match root p, parts p with
  | "", [] => "."
  | r, l => r +:+ join_slash l
  end.

(** [p.name] *)
Definition path_name (p : Path) : string := List.last (parts p) "".

(** The name cut at its last dot: what is before it, and the rest from the
    dot on. *)
Fixpoint rsplit_dot (s : string) : option (string * string) :=
  match s with
  | EmptyString => None
  | String c s' =>
      match rsplit_dot s' with
      | Some (a, b) => Some (String c a, b)
      | None => if Ascii.eqb c "."%char then Some ("", String c s') else None
      end
  end.

(** [p.suffix] and [p.stem]: with [i = name.rfind('.')], the name is cut
    at [i] when [0 < i < len(name) - 1]. *)
Definition cut_name (name : string) : string * string :=
  match rsplit_dot name with
  | Some (a, b) =>
      if negb (String.eqb a "") && negb (String.eqb b ".") then (a, b)
      else (name, "")
  | None => (name, "")
  end.

Definition path_stem (p : Path) : string := fst (cut_name (path_name p)).
Definition path_suffix (p : Path) : string := snd (cut_name (path_name p)).

(** [p.parent] *)
Definition path_parent (p : Path) : Path :=
  mkPath (root p) (removelast (parts p)).

(** [Path(p, s)] *)
Definition path_join (p : Path) (s : string) : Path :=
  let q := parse_path s in
  if String.eqb (root q) "" then mkPath (root p) (parts p ++ parts q) else q.

Definition finished_name (p : Path) : string :=
  (path_stem p +:+ "_finished") +:+ path_suffix p.

Fixpoint no_slash (s : string) : bool :=
  match s with
  | EmptyString => true
  | String c s' => negb (Ascii.eqb c "/"%char) && no_slash s'
  end.

(** The path a finished record is renamed to. *)
Definition finished_path (p : Path) : Path :=
  path_join (path_parent p) (finished_name p).

(** ** app/helpers.py: bucket and blob names *)

Definition newline : ascii := "010"%char.

Fixpoint no_newline (s : string) : bool :=
  match s with
  | EmptyString => true
  | String c s' => negb (Ascii.eqb c newline) && no_newline s'
  end.

(** What follows the prefix [p] in [s], if [s] starts with it. *)
Fixpoint strip_prefix (p s : string) : option string :=
  match p, s with
  | EmptyString, _ => Some s
  | String a p', String b s' => if Ascii.eqb a b then strip_prefix p' s' else None
  | String _ _, EmptyString => None
  end.

(** The lazy group before the slash of the pattern: the characters up to
    the first slash, none of them a newline, and what follows that slash. *)
Fixpoint lazy_until_slash (s : string) : option (string * string) :=
  match s with
  | EmptyString => None
  | String c s' =>
      if Ascii.eqb c "/"%char then Some ("", s')
      else if Ascii.eqb c newline then None
      else match lazy_until_slash s' with
           | Some (a, b) => Some (String c a, b)
           | None => None
           end
  end.

(** The greedy group that ends the pattern: the characters up to the
    first newline. *)
Fixpoint greedy_line (s : string) : string :=
  match s with
  | EmptyString => ""
  | String c s' => if Ascii.eqb c newline then "" else String c (greedy_line s')
  end.

(** [get_bucket_object_name]: the pattern of [re.match] is the text
    [gs://], a lazy group, a slash and a greedy group; the two groups are
    returned.  A dot of the pattern matches any character but a newline,
    and the match need not reach the end of the URL.  The plain
    [Exception] that the function raises is carried by [External], with
    its message. *)
Definition get_bucket_object_name (url : string) : exn + (string * string) :=
  match strip_prefix "gs://" url with
  | Some rest =>
      match lazy_until_slash rest with
      | Some (bucket, after) => inr (bucket, greedy_line after)
      | None => inl (External "invalid url pattern")
      end
  | None => inl (External "invalid url pattern")
  end.

(** The blob a local file is uploaded to, line 74 of
    [upload_blobs_from_directory]; [os.sep] is ["/"]. *)
Definition remote_path (dest_blob_name local_file : string) : string :=
  dest_blob_name +:+ "/" +:+ join_slash (drop 2 (split_slash "" local_file)).

(** ** The world outside the repository *)

(** Calls that leave the repository's code.  Each constructor carries the
    arguments that the caller chooses.  Some stand for a short straight
    run of library calls that share one outcome: [tune] for the
    [TaskScheduler], its [TuningOptions] and [tuner.tune]; [relay_build] for
    the two context managers around [relay.build]; [write_file] for [open]
    and [fo.write]; [np_rand] and [astype] for the array of one entry of
    the dummy input and its conversion; [reference_run] for the
    [InferenceSession] and its timing on the dummy input; [to_csv] for the
    data frames and their export; [upload_blobs] for the [glob] and the loop over its
    files; [publish] for the client, the topic path, [publisher.publish]
    and [future.result].  [print], [self._print] and
    [traceback.print_exc] are not recorded.

    [convert2onnx] is imported by [app/main.py] from [dlacc.utils]; the
    [utils.py] at hand does not define it, so it is a call whose outcome
    the collaborators decide, as for a library. *)
Inductive Call :=
| mkdir (path : string)
| download_blob (bucket_name source_blob_name destination_file_name : string)
| json_load (json_path : string)
| convert2onnx (model_path : string) (model_type input_shape input_dtype : value)
| from_onnx (shape dtype : value)
| extract_tasks (target : value)
| tune (num_measure_trials verbose : value) (record_file : string)
| rename (src dst : string)
| relay_build (history : value) (target : value)
| export_library (path : string)
| write_file (path : string)
| tvm_device (target : string)
| create_module (device : string)
| benchmark
| np_rand (shape : value)
| astype (dtype : value)
| reference_run (model_path : string)
| to_csv (path : string)
| json_dump (file_path : string) (content : value)
| upload_blobs (directory_path dest_bucket_name dest_blob_name : string)
| publish (project_id topic_id data job_id job_status : string).

(** A call and how it ended: [None] when it returned, [Some e] when it
    raised [e]. *)
Definition Event : Type := Call * option exn.

Definition loc := positive.

(** [utils.JSONConfig] and [utils.JSONOutput]: each holds a reference to a
    dictionary in the store. *)
Record JSONConfig := mkJSONConfig { config_meta : loc }.
Record JSONOutput := mkJSONOutput { output_meta : loc }.

(** The model that [convert2onnx] hands back; the pipeline only passes it
    on. *)
Inductive ModelProto := OnnxModel.

(** [tvm.contrib.graph_executor.GraphModule], by its interface. *)
Class GraphModule (Mod ndarray : Type) := {
  set_input : gmap string ndarray → Mod → exn + Mod;
  run_module : Mod → exn + Mod;
  get_num_outputs : Mod → Z;
  get_output : Z → Mod → exn + ndarray
}.

(** A small module to run the wrapper on: it declares two outputs and
    answers index [i] with [i + 10]. *)
#[export] Instance toy_module : GraphModule (gmap string Z) Z := {|
  set_input := λ inputs m, inr (inputs ∪ m);
  run_module := λ m, inr m;
  get_num_outputs := λ _, 2;
  get_output := λ i _,
    if bool_decide (0 ≤ i < 2) then inr (i + 10)
    else inl (External "output index out of range")
|}.

Section Pipeline.

(** [dlacc.metadata], which is not part of the sources at hand:
    [output_prefix], [input_prefix] and [platformType.GOOGLESTORAGE]. *)
Variable output_prefix input_prefix : string.
Variable GOOGLESTORAGE : Z.

(** [str(v)] for a list or a dictionary. *)
Variable py_repr : value → string.

Context {Mod ndarray : Type} `{GM : GraphModule Mod ndarray}.

(** [str(v)] *)
Definition py_str (v : value) : string :=
  match v with
  | VStr s => s
  | VInt z => pretty z
  | VNone => "None"
  | VBool b => if b then "True" else "False"
  | VFloat _ r => r
  | _ => py_repr v
  end.

(** [ansor_engine.AnsorEngine]: the attributes the pipeline reads back.
    [log_file], [module] and [device] do not exist until a method assigns
    them. *)
Record AnsorEngine := mkAnsorEngine {
  network_name : string;
  target : value;
  input_shape : value;
  input_dtype : value;
  out_json : JSONOutput;
  log_file : option value;
  module : option Mod;
  device : option string
}.

(** [optimum.Optimum]; [ansor_engine] and [onnx_model] exist once [_run]
    has assigned them. *)
Record Optimum := mkOptimum {
  model_name : value;
  ansor_engine : option AnsorEngine;
  onnx_model : option ModelProto
}.

(** [optimum.GraphModuleWrapper] *)
Record GraphModuleWrapper := mkGraphModuleWrapper { wrapped : Mod }.

(** The state a job runs in: the store of dictionaries, the [Optimum]
    instance bound to the local variable [optimum] of [run] ([None] while
    the variable is unbound), and the calls made so far, oldest first. *)
Record World := mkWorld {
  heap : gmap loc value;
  optimum : option Optimum;
  trace : list Event
}.

Definition initial_world : World := mkWorld ∅ None [].

(** What the collaborators do: whether a call raises, given the calls made
    before it, what the config file holds, in which order it lists the
    entries of a dictionary, which the dictionaries of the model do not
    keep, and the module that [graph_executor.create] returns. *)
Record Oracle := mkOracle {
  raises : list Event → Call → option exn;
  config_json : value;
  item_order : gmap string value → list (string * value);
  compiled : Mod
}.

Variable O : Oracle.

(** ** The monad of the pipeline: state and exceptions *)

Definition M (A : Type) : Type := World → (exn + A) * World.

#[local] Instance M_ret : MRet M := λ A x w, (inr x, w).
#[local] Instance M_bind : MBind M := λ A B f m w,
  match m w with
  | (inr x, w') => f x w'
  | (inl e, w') => (inl e, w')
  end.

Definition raise {A} (e : exn) : M A := λ w, (inl e, w).

Definition lift {A} (r : exn + A) : M A := λ w, (r, w).

(** [try: body except Exception as e: handler e] *)
Definition try_except {A} (body : M A) (handler : exn → M A) : M A := λ w,
  match body w with
  | (inl e, w') => handler e w'
  | r => r
  end.

(** [if b: m] *)
Definition when (b : bool) (m : M unit) : M unit :=
  if b then m else mret tt.

(** A call to a collaborator: recorded with its outcome. *)
Definition call (c : Call) : M unit := λ w,
  let r := raises O (trace w) c in
  let w' := mkWorld (heap w) (optimum w) (trace w ++ [(c, r)]) in
  match r with
  | Some e => (inl e, w')
  | None => (inr tt, w')
  end.

Definition alloc (v : value) : M loc := λ w,
  let l := fresh (dom (heap w)) in
  (inr l, mkWorld (<[l := v]> (heap w)) (optimum w) (trace w)).

Definition read (l : loc) : M value := λ w,
  (inr (default VNone (heap w !! l)), w).

Definition write (l : loc) (v : value) : M unit := λ w,
  (inr tt, mkWorld (<[l := v]> (heap w)) (optimum w) (trace w)).

Definition get_optimum : M (option Optimum) := λ w, (inr (optimum w), w).

Definition set_optimum (o : Optimum) : M unit := λ w,
  (inr tt, mkWorld (heap w) (Some o) (trace w)).

(** ** dlacc/utils.py *)

(** [JSONConfig.load]: [open] and [json.load], then [self.meta] refers to
    the new dictionary. *)
Definition JSONConfig_load (json_path : string) : M JSONConfig :=
  call (json_load json_path);;
  l ← alloc (config_json O);
  mret (mkJSONConfig l).

(** [JSONConfig.__init__], which takes the path and nothing else. *)
Definition JSONConfig_init (json_path : string) : M JSONConfig :=
  JSONConfig_load json_path.

(** [JSONConfig(json_path, *more)]: the class called with a path and with
    further positional arguments.  [__init__] declares [self] and
    [json_path]; with any further argument the call raises [TypeError]
    before the body of [__init__] is entered, so before the file is
    opened.  The text is CPython's (3.10). *)
Definition JSONConfig_call (json_path : string) (more : list value) : M JSONConfig :=
  match more with
  | [] => JSONConfig_init json_path
  | _ =>
      raise (TypeError
               ("JSONConfig.__init__() takes 2 positional arguments but "
                  +:+ pretty (Z.of_nat (length more) + 2) +:+ " were given"))
  end.

Definition JSONConfig_getitem (self : JSONConfig) (key : string) : M value :=
  m ← read (config_meta self);
  lift (subscript m key).

(** [self.meta = json_config.meta]: the same dictionary, not a copy. *)
Definition JSONOutput_init (json_config : JSONConfig) : JSONOutput :=
  mkJSONOutput (config_meta json_config).

Definition JSONOutput_save (self : JSONOutput) (file_path : string) : M unit :=
  m ← read (output_meta self);
  call (json_dump file_path m).

Definition JSONOutput_getitem (self : JSONOutput) (key : string) : M value :=
  m ← read (output_meta self);
  lift (subscript m key).

Definition JSONOutput_setitem (self : JSONOutput) (key : string) (v : value) : M unit :=
  m ← read (output_meta self);
  m' ← lift (store_subscript m key v);
  write (output_meta self) m'.

(** ** app/helpers.py *)

Definition download_file_from_gcp
    (bucket_name blob_name dst_folder dst_name : string) : M string :=
  call (mkdir dst_folder);;
  let destination_file_name := dst_folder +:+ "/" +:+ dst_name in
  call (download_blob bucket_name blob_name destination_file_name);;
  mret destination_file_name.

Definition upload_blobs_from_directory
    (directory_path dest_bucket_name dest_blob_name : string) : M unit :=
  call (upload_blobs directory_path dest_bucket_name dest_blob_name).

Definition publish_message
    (project_id topic_id data_str : string) (job_id : Z) (job_status : string) : M unit :=
  call (publish project_id topic_id data_str (pretty job_id) job_status).

(** ** dlacc/ansor_engine.py *)

Definition set_log_file (self : AnsorEngine) (v : value) : AnsorEngine :=
  mkAnsorEngine (network_name self) (target self) (input_shape self)
    (input_dtype self) (out_json self) (Some v) (module self) (device self).

Definition set_device (self : AnsorEngine) (d : string) : AnsorEngine :=
  mkAnsorEngine (network_name self) (target self) (input_shape self)
    (input_dtype self) (out_json self) (log_file self) (module self) (Some d).

Definition set_module (self : AnsorEngine) (m : Mod) : AnsorEngine :=
  mkAnsorEngine (network_name self) (target self) (input_shape self)
    (input_dtype self) (out_json self) (log_file self) (Some m) (device self).

(** [self.name], raising [AttributeError] while the attribute is unset *)
Definition getattr {A} (cls name : string) (a : option A) : M A :=
  match a with
  | Some x => mret x
  | None =>
      raise (AttributeError
               ("'" +:+ cls +:+ "' object has no attribute '" +:+ name +:+ "'"))
  end.

(** [AnsorEngine.__init__]; only a [str] has [replace]. *)
Definition AnsorEngine_init (network_name : value) (traced_model : ModelProto)
    (target input_shape input_dtype : value) (out_json : JSONOutput) : M AnsorEngine :=
  name ← match network_name with
         | VStr s => mret (replace_char "/" "_" s)
         | v => raise (AttributeError
                         ("'" +:+ type_name v +:+ "' object has no attribute 'replace'"))
         end;
  call (from_onnx input_shape input_dtype);;
  mret (mkAnsorEngine name target input_shape input_dtype out_json None None None).

(** [AnsorEngine._save] *)
Definition AnsorEngine__save (output_path : string) : M unit :=
  call (export_library (output_path +:+ "/deploy_lib.tar"));;
  call (write_file (output_path +:+ "/deploy_graph.json"));;
  call (write_file (output_path +:+ "/deploy_param.params")).

(** [AnsorEngine.ansor_compile]; returns [self]. *)
Definition ansor_compile (self : AnsorEngine) (log_file_arg : value) : M AnsorEngine :=
  let output_path := output_prefix +:+ "/optimized_model" in
  let self := if truthy log_file_arg then set_log_file self log_file_arg else self in
  history ← getattr "AnsorEngine" "log_file" (log_file self);
  call (relay_build history (target self));;
  call (mkdir output_path);;
  AnsorEngine__save output_path;;
  call (tvm_device (py_str (target self)));;
  let self := set_device self (py_str (target self)) in
  call (create_module (py_str (target self)));;
  let self := set_module self (compiled O) in
  JSONOutput_setitem (out_json self) "status" (VInt 3);;
  mret self.

(** The record file of a fresh search, and its name once finished. *)
Definition tuning_log (self : AnsorEngine) : string :=
  output_prefix +:+ "/tuninglog_network_name=" +:+ network_name self
    +:+ "--target=" +:+ py_str (target self) +:+ ".json".

(** [AnsorEngine.ansor_run_tuning]; returns [self]. *)
Definition ansor_run_tuning (self : AnsorEngine)
    (num_measure_trials verbose : value) : M AnsorEngine :=
  let self := set_log_file self (VStr (tuning_log self)) in
  call (extract_tasks (target self));;
  call (tune num_measure_trials verbose (tuning_log self));;
  let p := parse_path (tuning_log self) in
  call (rename (path_str p) (path_str (path_join (path_parent p) (finished_name p))));;
  let self :=
    set_log_file self (VStr (path_str (path_parent p) +:+ "/" +:+ finished_name p)) in
  JSONOutput_setitem (out_json self) "status" (VInt 2);;
  ansor_compile self (default VNone (log_file self)).

(** [v.items()]: only a dictionary has the method; its entries come in
    the order of their insertion, that of the config file. *)
Definition items (v : value) : exn + list (string * value) :=
  match v with
  | VDict d => inr (item_order O d)
  | _ => inl (AttributeError
                ("'" +:+ type_name v +:+ "' object has no attribute 'items'"))
  end.

(** Whether [*v] can unpack [v] into positional arguments. *)
Definition iterable (v : value) : bool :=
  match v with
  | VStr _ | VList _ | VDict _ => true
  | _ => false
  end.

(** [for x in l: f x] *)
Fixpoint for_each {A} (f : A → M unit) (l : list A) : M unit :=
  match l with
  | [] => mret tt
  | x :: rest => f x;; for_each f rest
  end.

(** One entry of the dummy input of [evaluate]:
    [np.random.rand( *v).astype(self.input_dtype[k])].  The array is drawn
    first, for a [v] that can be unpacked; the type is then looked up under
    [k], and the array converted.  The text of the [TypeError] for a [v]
    that cannot be unpacked is CPython's (3.10). *)
Definition dummy_array (self : AnsorEngine) (kv : string * value) : M unit :=
  (if iterable kv.2 then call (np_rand kv.2)
   else raise (TypeError
                 ("RandomState.rand() argument after * must be an iterable, not "
                    +:+ type_name kv.2)));;
  dtype ← lift (subscript (input_dtype self) kv.1);
  call (astype dtype).

(** [AnsorEngine.evaluate]: the timed run of the module, the dummy input,
    one array for each entry of [self.input_shape], the timed run of the
    reference model, and the CSV. *)
Definition AnsorEngine_evaluate (self : AnsorEngine) : M unit :=
  _ ← getattr "AnsorEngine" "module" (module self);
  _ ← getattr "AnsorEngine" "device" (device self);
  call benchmark;;
  entries ← lift (items (input_shape self));
  for_each (dummy_array self) entries;;
  call (reference_run (input_prefix +:+ "/model.onnx"));;
  call (to_csv (output_prefix +:+ "/inference_time.csv")).

(** ** dlacc/optimum.py *)

(** The outputs [0 .. n-1] of the module under their synthesized names. *)
Fixpoint collect_outputs (m : Mod) (indices : list Z)
    (tvm_outputs : gmap string ndarray) : exn + gmap string ndarray :=
  match indices with
  | [] => inr tvm_outputs
  | i :: rest =>
      match get_output i m with
      | inl e => inl e
      | inr a => collect_outputs m rest (<["output_" +:+ pretty i := a]> tvm_outputs)
      end
  end.

(** [GraphModuleWrapper.__call__]: the result and the module afterwards. *)
Definition GraphModuleWrapper_call (self : GraphModuleWrapper)
    (inputs_dict : gmap string ndarray)
    : (exn + gmap string ndarray) * GraphModuleWrapper :=
  match set_input inputs_dict (wrapped self) with
  | inl e => (inl e, self)
  | inr m1 =>
      match run_module m1 with
      | inl e => (inl e, mkGraphModuleWrapper m1)
      | inr m2 =>
          let num_outputs := get_num_outputs m2 in
          (collect_outputs m2 (seqZ 0 num_outputs) ∅, mkGraphModuleWrapper m2)
      end
  end.

Definition GraphModuleWrapper_predict := GraphModuleWrapper_call.

(** [Optimum.__init__], bound to the variable [optimum] *)
Definition Optimum_init (model_name : value) : M unit :=
  set_optimum (mkOptimum model_name None None).

(** [self] of the methods of [Optimum]: the instance in the store. *)
Definition Optimum_self : M Optimum :=
  o ← get_optimum;
  match o with
  | Some self => mret self
  | None => raise (UnboundLocalError "optimum")
  end.

(** [Optimum._run].  The local [ae] is bound only in the ["ansor"]
    branch; the two assignments that close the method read it whatever the
    mode. *)
Definition Optimum__run (onnx_model : ModelProto)
    (target num_measure_trials mode : value) (out_json : JSONOutput)
    (input_shape input_dtype log_file verbose : value) : M unit :=
  self ← Optimum_self;
  ae ← (if eq_str mode "ansor" then
          ae ← AnsorEngine_init (model_name self) onnx_model target
                 input_shape input_dtype out_json;
          ae ← (if negb (eq_str log_file "") then ansor_compile ae log_file
                else ansor_run_tuning ae num_measure_trials verbose);
          mret (Some ae)
        else if eq_str mode "autotvm" then raise NotImplementedError
        else mret None);
  match ae with
  | Some ae => set_optimum (mkOptimum (model_name self) (Some ae) (Some onnx_model))
  | None => raise (UnboundLocalError "ae")
  end.

(** [Optimum.run]: the arguments are evaluated left to right, the
    positional ones first. *)
Definition Optimum_run (onnx_model : ModelProto) (config : JSONOutput) : M unit :=
  target ← JSONOutput_getitem config "target";
  tuning_config ← JSONOutput_getitem config "tuning_config";
  num_measure_trials ← lift (subscript tuning_config "num_measure_trials");
  tuning_config ← JSONOutput_getitem config "tuning_config";
  mode ← lift (subscript tuning_config "mode");
  log_file ← JSONOutput_getitem config "tuned_log";
  model_config ← JSONOutput_getitem config "model_config";
  input_shape ← lift (subscript model_config "input_shape");
  model_config ← JSONOutput_getitem config "model_config";
  input_dtype ← lift (subscript model_config "input_dtype");
  tuning_config ← JSONOutput_getitem config "tuning_config";
  verbose ← lift (subscript tuning_config "verbose_print");
  Optimum__run onnx_model target num_measure_trials mode config
    input_shape input_dtype log_file verbose.

(** [Optimum.get_model] *)
Definition Optimum_get_model : M GraphModuleWrapper :=
  self ← Optimum_self;
  ae ← getattr "Optimum" "ansor_engine" (ansor_engine self);
  m ← getattr "AnsorEngine" "module" (module ae);
  mret (mkGraphModuleWrapper m).

(** ** app/main.py *)

Record Args := mkArgs {
  env : Z;
  job_id : Z;
  input_bucket : string;
  output_bucket : string;
  topic_id : string;
  project_id : string
}.

Definition config_name : string := "config.json".
Definition model_file : string := "model.onnx".

(** Lines 19-21 of [run]: in remote mode, fetch the config and the
    model. *)
Definition run_download (args : Args) : M unit :=
  when (env args =? GOOGLESTORAGE)
    (_ ← download_file_from_gcp (input_bucket args)
           ("job_id=" +:+ pretty (job_id args) +:+ "/" +:+ config_name)
           input_prefix config_name;
     _ ← download_file_from_gcp (input_bucket args)
           ("job_id=" +:+ pretty (job_id args) +:+ "/" +:+ model_file)
           input_prefix model_file;
     mret tt).

(** Lines 24-30: convert the model, with what the config says of it. *)
Definition run_convert (config : JSONConfig) : M ModelProto :=
  model_type ← JSONConfig_getitem config "model_type";
  model_config ← JSONConfig_getitem config "model_config";
  input_shape ← lift (subscript model_config "input_shape");
  model_config ← JSONConfig_getitem config "model_config";
  input_dtype ← lift (subscript model_config "input_dtype");
  call (convert2onnx (input_prefix +:+ "/" +:+ model_file)
          model_type input_shape input_dtype);;
  mret OnnxModel.

(** Lines 32-33: build the report from the config. *)
Definition run_build_report (config : JSONConfig) : M JSONOutput :=
  let out_json := JSONOutput_init config in
  JSONOutput_setitem out_json "status" (VInt 1);;
  mret out_json.

(** Lines 19-33 of [run]: fetch the inputs, load the config, convert the
    model, build the report.  Line 23 is [JSONConfig(config_name, 0)]. *)
Definition run_acquire (args : Args) : M (JSONConfig * ModelProto * JSONOutput) :=
  run_download args;;
  config ← JSONConfig_call config_name [VInt 0];
  onnx_model ← run_convert config;
  out_json ← run_build_report config;
  mret (config, onnx_model, out_json).

(** Lines 36-37: the body of the inner [try]. *)
Definition run_optimize (onnx_model : ModelProto) (out_json : JSONOutput) : M unit :=
  model_name ← JSONOutput_getitem out_json "model_name";
  Optimum_init model_name;;
  Optimum_run onnx_model out_json.

(** Lines 35-41: the inner [try] with its handler. *)
Definition run_inner (onnx_model : ModelProto) (out_json : JSONOutput) : M unit :=
  try_except (run_optimize onnx_model out_json)
    (λ e,
       JSONOutput_setitem out_json "error_info" (VStr (str_exn e));;
       JSONOutput_setitem out_json "status" (VInt (-1))).

(** Lines 43-45: promote the status and save the report. *)
Definition run_report (out_json : JSONOutput) : M unit :=
  status ← JSONOutput_getitem out_json "status";
  when (negb (eq_int status (-1)))
    (JSONOutput_setitem out_json "status" (VInt 4));;
  JSONOutput_save out_json (output_prefix +:+ "/output_json.json").

(** Lines 47-48: the benchmark. *)
Definition run_benchmark (config : JSONConfig) : M unit :=
  need_benchmark ← JSONConfig_getitem config "need_benchmark";
  when (truthy need_benchmark)
    (self ← Optimum_self;
     ae ← getattr "Optimum" "ansor_engine" (ansor_engine self);
     AnsorEngine_evaluate ae).

(** Lines 50-52: upload and notify. *)
Definition run_deliver (args : Args) (out_json : JSONOutput) : M unit :=
  when (env args =? GOOGLESTORAGE)
    (upload_blobs_from_directory output_prefix (output_bucket args)
       ("job_id=" +:+ pretty (job_id args));;
     status ← JSONOutput_getitem out_json "status";
     publish_message (project_id args) (topic_id args) "OK"
       (job_id args) (py_str status)).

(** Lines 35-52: the stages of a job whose report is built. *)
Definition run_stages (args : Args) (config : JSONConfig)
    (onnx_model : ModelProto) (out_json : JSONOutput) : M unit :=
  run_inner onnx_model out_json;;
  run_report out_json;;
  run_benchmark config;;
  run_deliver args out_json.

(** Lines 19-52: the body of the outer [try]. *)
Definition run_body (args : Args) : M unit :=
  '(config, onnx_model, out_json) ← run_acquire args;
  run_stages args config onnx_model out_json.

(** Line 55: the handler of the outer [try]. *)
Definition run_failed (args : Args) (e : exn) : M unit :=
  publish_message (project_id args) (topic_id args) (str_exn e)
    (job_id args) "-1".

(** [run] *)
Definition run (args : Args) : M unit :=
  try_except (run_body args) (run_failed args).

(** ** Reading traces and stores *)


Definition engine_call (c : Call) : bool :=
  match c with
  | from_onnx _ _ | extract_tasks _ | tune _ _ _ | rename _ _
  | relay_build _ _ | mkdir _ | export_library _ | write_file _
  | tvm_device _ | create_module _ => true
  | _ => false
  end.

Definition search_call (c : Call) : bool :=
  match c with
  | extract_tasks _ | tune _ _ _ | rename _ _ => true
  | _ => false
  end.

Definition evaluate_call (c : Call) : bool :=
  match c with
  | benchmark | np_rand _ | astype _ | reference_run _ | to_csv _ => true
  | _ => false
  end.

Definition is_json_dump (c : Call) : bool :=
  match c with json_dump _ _ => true | _ => false end.

Definition is_upload (c : Call) : bool :=
  match c with upload_blobs _ _ _ => true | _ => false end.

Definition is_publish (c : Call) : bool :=
  match c with publish _ _ _ _ _ => true | _ => false end.

Definition is_relay_build (c : Call) : bool :=
  match c with relay_build _ _ => true | _ => false end.

Definition artifact_call (c : Call) : bool :=
  match c with
  | mkdir _ | export_library _ | write_file _ | tvm_device _
  | create_module _ => true
  | _ => false
  end.

Definition delivery_call (c : Call) : bool := is_upload c || is_publish c.

(** How many calls of a kind a trace holds. *)
Definition count_calls (kind : Call → bool) (t : list Event) : nat :=
  length (filter (λ ev, kind ev.1 = true) t).

(** The field of the report that a reference leads to. *)
Definition field (w : World) (r : JSONOutput) (key : string) : option value :=
  match heap w !! output_meta r with
  | Some (VDict d) => d !! key
  | _ => None
  end.

(** The status as [run_report] leaves it. *)
Definition promoted (d : gmap string value) : gmap string value :=
  match d !! "status" with
  | Some st => if eq_int st (-1) then d else <["status" := VInt 4]> d
  | None => d
  end.

Definition report_file : string := output_prefix +:+ "/output_json.json".

(** The names the wrapper gives to the outputs. *)
Definition output_name (i : Z) : string := "output_" +:+ pretty i.

(** ** Invariants of the job *)

(** The trace is [t0] followed by calls that all satisfy [kind]. *)
Definition extends_by (kind : Call → bool) (t0 : list Event) (w : World) : Prop :=
  ∃ evs, trace w = t0 ++ evs ∧ Forall (λ ev : Event, kind ev.1 = true) evs.

(** A computation preserves an invariant of the world, however it ends. *)
Definition pres {A} (I : World → Prop) (m : M A) : Prop :=
  ∀ w, I w → I (m w).2.

(** A collaborator that never fails the calls of a kind. *)
Definition never_raises (kind : Call → bool) : Prop :=
  ∀ h c, kind c = true → raises O h c = None.

(** The variable [optimum] keeps its binding. *)
Definition optimum_is (o : option Optimum) (w : World) : Prop := optimum w = o.

(** The store is left as it was. *)
Definition heap_is (h : gmap loc value) (w : World) : Prop := heap w = h.

(** An invariant that holds whenever the computation raises. *)
Definition pres_inl {A} (I : World → Prop) (m : M A) : Prop :=
  ∀ w e w', I w → m w = (inl e, w') → I w'.

(** ** The steps of the engine and of the optimizer *)

(** An engine that has been compiled: it holds the module and a device. *)
Definition ready (ae : AnsorEngine) : Prop :=
  module ae = Some (compiled O) ∧ is_Some (device ae).

(** What [ansor_compile] does after [relay.build] returned. *)
Definition compile_rest (self : AnsorEngine) : M AnsorEngine :=
  call (mkdir (output_prefix +:+ "/optimized_model"));;
  AnsorEngine__save (output_prefix +:+ "/optimized_model");;
  call (tvm_device (py_str (target self)));;
  let self := set_device self (py_str (target self)) in
  call (create_module (py_str (target self)));;
  let self := set_module self (compiled O) in
  JSONOutput_setitem (out_json self) "status" (VInt 3);;
  mret self.

(** The rename that marks the record as finished, and the name the engine
    keeps for the finished record. *)
Definition rename_call (self : AnsorEngine) : Call :=
  let p := parse_path (tuning_log self) in
  rename (path_str p) (path_str (finished_path p)).

Definition renamed_log (self : AnsorEngine) : string :=
  let p := parse_path (tuning_log self) in
  path_str (path_parent p) +:+ "/" +:+ finished_name p.

(** The search of [ansor_run_tuning] returns: neither the extraction of
    the tasks nor the tuning raises. *)
Definition search_returns (self : AnsorEngine) (n v : value) (w : World) : Prop :=
  let c1 := extract_tasks (target self) in
  let c2 := tune n v (tuning_log self) in
  raises O (trace w) c1 = None ∧ raises O (trace w ++ [(c1, None)]) c2 = None.

(** The rename that follows the search returns. *)
Definition rename_returns (self : AnsorEngine) (n v : value) (w : World) : Prop :=
  let c1 := extract_tasks (target self) in
  let c2 := tune n v (tuning_log self) in
  raises O (trace w ++ [(c1, None); (c2, None)]) (rename_call self) = None.

(** The fields [Optimum.run] reads from the report. *)
Definition config_fields (d : gmap string value)
    (tgt n mode lf shape dtype verbose : value) : Prop :=
  d !! "target" = Some tgt ∧ d !! "tuned_log" = Some lf ∧
  (∃ tc, d !! "tuning_config" = Some tc ∧
         subscript tc "num_measure_trials" = inr n ∧
         subscript tc "mode" = inr mode ∧
         subscript tc "verbose_print" = inr verbose) ∧
  (∃ mc, d !! "model_config" = Some mc ∧
         subscript mc "input_shape" = inr shape ∧
         subscript mc "input_dtype" = inr dtype).

(** Calls that all returned. *)
Definition returned (cs : list Call) : list Event := (λ c, (c, None)) <$> cs.

(** The calls of an [ansor_compile] that returns, in order: the build
    from the history [h], the directory of the artifacts, the three
    artifacts, the device and the module. *)
Definition compile_calls (h tgt : value) : list Call :=
  let output_path := output_prefix +:+ "/optimized_model" in
  [relay_build h tgt; mkdir output_path;
   export_library (output_path +:+ "/deploy_lib.tar");
   write_file (output_path +:+ "/deploy_graph.json");
   write_file (output_path +:+ "/deploy_param.params");
   tvm_device (py_str tgt); create_module (py_str tgt)].

(** The calls of the search of [ansor_run_tuning], up to the rename. *)
Definition search_calls (self : AnsorEngine) (n v : value) : list Call :=
  [extract_tasks (target self); tune n v (tuning_log self); rename_call self].

(** The entries a dictionary is iterated by, and the type found under a
    key. *)
Definition entries_of (v : value) : list (string * value) :=
  match items v with
  | inr entries => entries
  | inl _ => []
  end.

Definition dtype_of (dtype : value) (k : string) : value :=
  match subscript dtype k with
  | inr x => x
  | inl _ => VNone
  end.

(** The calls that build the dummy input: for each entry, the array and
    its conversion. *)
Definition dummy_calls (dtype : value) (entries : list (string * value))
    : list Call :=
  flat_map (λ kv, [np_rand kv.2; astype (dtype_of dtype kv.1)]) entries.

(** An entry that [evaluate] can make an array for. *)
Definition array_entry (dtype : value) (kv : string * value) : Prop :=
  iterable kv.2 = true ∧ ∃ x, subscript dtype kv.1 = inr x.

(** The calls of an [evaluate] that returns. *)
Definition evaluate_calls (self : AnsorEngine) : list Call :=
  benchmark ::
  dummy_calls (input_dtype self) (entries_of (input_shape self)) ++
  [reference_run (input_prefix +:+ "/model.onnx");
   to_csv (output_prefix +:+ "/inference_time.csv")].

(** The calls of the downloads of a job in remote mode: the config, then
    the model, each into [input_prefix]. *)
Definition download_calls (args : Args) (name : string) : list Call :=
  [mkdir input_prefix;
   download_blob (input_bucket args)
     ("job_id=" +:+ pretty (job_id args) +:+ "/" +:+ name)
     (input_prefix +:+ "/" +:+ name)].

Definition fetch_calls (args : Args) : list Call :=
  if env args =? GOOGLESTORAGE
  then download_calls args config_name ++ download_calls args model_file
  else [].

(** What line 23 of [run] raises. *)
Definition config_call_error : exn :=
  TypeError "JSONConfig.__init__() takes 2 positional arguments but 3 were given".

(** The notifications of [run]. *)
Definition ok_message (args : Args) (status : string) : Call :=
  publish (project_id args) (topic_id args) "OK" (pretty (job_id args)) status.

Definition failure_message (args : Args) (e : exn) : Call :=
  publish (project_id args) (topic_id args) (str_exn e) (pretty (job_id args)) "-1".

(** The report is the dictionary [d] up to its status: all that the
    optimizer changes of it. *)
Definition status_only (l : loc) (d : gmap string value) (w : World) : Prop :=
  ∃ d', heap w !! l = Some (VDict d') ∧ delete "status" d' = delete "status" d.

(** The report [d] as it is saved: with status 4 when the optimizer
    stage returned, with the message and status -1 when it raised. *)
Definition final_report (d : gmap string value) (r : exn + unit)
    : gmap string value :=
  match r with
  | inr _ => <["status" := VInt 4]> d
  | inl e => <["status" := VInt (-1)]> (<["error_info" := VStr (str_exn e)]> d)
  end.

(** The name of the record of a fresh search, without its extension. *)
Definition record_base (self : AnsorEngine) : string :=
  "tuninglog_network_name=" +:+ network_name self
    +:+ "--target=" +:+ py_str (target self).

(** Calls to cloud storage, and the calls of a job that stays on the
    machine. *)
Definition cloud_call (c : Call) : bool :=
  match c with
  | download_blob _ _ _ | upload_blobs _ _ _ => true
  | _ => false
  end.

Definition offline_call (c : Call) : bool := negb (cloud_call c || is_publish c).

(** The calls of the optimizer stage when it returns. *)
Definition optimizer_calls (ae : AnsorEngine) (n verbose : value) (lf : string)
    : list Call :=
  from_onnx (input_shape ae) (input_dtype ae) ::
  (if String.eqb lf "" then
     search_calls ae n verbose ++ compile_calls (VStr (renamed_log ae)) (target ae)
   else compile_calls (VStr lf) (target ae)).

(** The calls of the delivery in remote mode. *)
Definition delivery_calls (args : Args) (status : string) : list Call :=
  if env args =? GOOGLESTORAGE then
    [upload_blobs output_prefix (output_bucket args)
       ("job_id=" +:+ pretty (job_id args));
     ok_message args status]
  else [].


(** ** Examples to run the pipeline on *)

Definition example_config (mode : value) (tuned_log : value) (need_benchmark : bool)
    : value :=
  VDict (list_to_map
    [("model_type", VInt 0); ("model_name", VStr "resnet/v1");
     ("target", VStr "llvm");
     ("tuning_config",
       VDict (list_to_map [("mode", mode); ("num_measure_trials", VInt 100);
                           ("verbose_print", VInt 0)]));
     ("tuned_log", tuned_log); ("need_benchmark", VBool need_benchmark);
     ("model_config",
       VDict (list_to_map
         [("input_shape", VDict (list_to_map [("x", VList [VInt 1; VInt 3])]));
          ("input_dtype", VDict (list_to_map [("x", VStr "float32")]))]))]).

Definition example_args (env : Z) : Args :=
  mkArgs env 7 "in-bucket" "out-bucket" "topic" "project".

(** Collaborators that never fail, and ones that fail one kind of call;
    the entries of a dictionary come in the order of [map_to_list]. *)
Definition quiet (config : value) (m : Mod) : Oracle :=
  mkOracle (λ _ _, None) config map_to_list m.

Definition failing (kind : Call → bool) (msg : string) (config : value) (m : Mod)
    : Oracle :=
  mkOracle (λ _ c, if kind c then Some (External msg) else None) config
    map_to_list m.

(** ** The monad and the invariants *)

Lemma bind_unfold {A B} (m : M A) (f : A → M B) w :
  (m ≫= f) w =
  match m w with
  | (inr x, w') => f x w'
  | (inl e, w') => (inl e, w')
  end.
Proof. reflexivity. Qed.

Lemma pres_ret {A} I (x : A) : pres I (mret x).
Proof. intros w Hw. exact Hw. Qed.

Lemma pres_raise {A} I e : pres I (raise (A := A) e).
Proof. intros w Hw. exact Hw. Qed.

Lemma pres_lift {A} I (r : exn + A) : pres I (lift r).
Proof. intros w Hw. exact Hw. Qed.

Lemma pres_bind {A B} I (m : M A) (f : A → M B) :
  pres I m → (∀ x, pres I (f x)) → pres I (m ≫= f).
Proof.
  intros Hm Hf w Hw. rewrite bind_unfold.
  specialize (Hm w Hw). destruct (m w) as [[e|x] w']; simpl in *.
  - exact Hm.
  - apply Hf, Hm.
Qed.

Lemma pres_try {A} I (m : M A) (h : exn → M A) :
  pres I m → (∀ e, pres I (h e)) → pres I (try_except m h).
Proof.
  intros Hm Hh w Hw. unfold try_except.
  specialize (Hm w Hw). destruct (m w) as [[e|x] w']; simpl in *.
  - apply Hh, Hm.
  - exact Hm.
Qed.

Lemma pres_when I b m : pres I m → pres I (when b m).
Proof. intros Hm. destruct b; simpl; [exact Hm | apply pres_ret]. Qed.

Lemma pres_for_each {A} I (f : A → M unit) (l : list A) :
  (∀ x, pres I (f x)) → pres I (for_each f l).
Proof.
  intros Hf. induction l as [|x l IH]; simpl; [apply pres_ret|].
  apply pres_bind; [apply Hf | intros _; exact IH].
Qed.

Lemma pres_getattr {A} I cls name (a : option A) : pres I (getattr cls name a).
Proof. destruct a; [apply pres_ret | apply pres_raise]. Qed.

Lemma pres_read I l : pres I (read l).
Proof. intros w Hw. exact Hw. Qed.

Lemma pres_get_optimum I : pres I get_optimum.
Proof. intros w Hw. exact Hw. Qed.

(** The trace only grows, by the calls made. *)
Lemma extends_call kind t0 c : kind c = true → pres (extends_by kind t0) (call c).
Proof.
  intros Hc w [evs [Ht Hall]]. unfold call.
  assert (extends_by kind t0
            (mkWorld (heap w) (optimum w) (trace w ++ [(c, raises O (trace w) c)]))).
  { exists (evs ++ [(c, raises O (trace w) c)]). simpl. split.
    - rewrite Ht. by rewrite <- app_assoc.
    - apply Forall_app. split; [exact Hall|]. by constructor. }
  by destruct (raises O (trace w) c).
Qed.

Lemma extends_write kind t0 l v : pres (extends_by kind t0) (write l v).
Proof. intros w Hw. exact Hw. Qed.

Lemma extends_alloc kind t0 v : pres (extends_by kind t0) (alloc v).
Proof. intros w Hw. exact Hw. Qed.

Lemma extends_set_optimum kind t0 o : pres (extends_by kind t0) (set_optimum o).
Proof. intros w Hw. exact Hw. Qed.

Lemma extends_refl kind w : extends_by kind (trace w) w.
Proof. exists []. split; [by rewrite app_nil_r | constructor]. Qed.

(** A call never touches the store or the variable [optimum]. *)
Lemma call_heap c w : heap (call c w).2 = heap w ∧ optimum (call c w).2 = optimum w.
Proof. unfold call. by destruct (raises O (trace w) c). Qed.

Lemma extends_setitem kind t0 out key v :
  pres (extends_by kind t0) (JSONOutput_setitem out key v).
Proof.
  intros w Hw. unfold JSONOutput_setitem, read, lift, write.
  rewrite !bind_unfold. simpl.
  by destruct (store_subscript _ key v).
Qed.

Lemma optimum_is_call o c : pres (optimum_is o) (call c).
Proof. intros w Hw. unfold optimum_is. by rewrite (proj2 (call_heap c w)). Qed.

Lemma optimum_is_setitem o out key v :
  pres (optimum_is o) (JSONOutput_setitem out key v).
Proof.
  intros w Hw. unfold JSONOutput_setitem, read, lift, write.
  rewrite !bind_unfold. simpl.
  by destruct (store_subscript _ key v).
Qed.

Lemma heap_is_call h c : pres (heap_is h) (call c).
Proof. intros w Hw. unfold heap_is. by rewrite (proj1 (call_heap c w)). Qed.

Lemma heap_is_set_optimum h o : pres (heap_is h) (set_optimum o).
Proof. intros w Hw. exact Hw. Qed.

Create HintDb pres discriminated.

#[local] Hint Resolve extends_call extends_write extends_alloc extends_set_optimum
  extends_setitem optimum_is_call optimum_is_setitem heap_is_call
  heap_is_set_optimum : pres.
#[local] Hint Extern 1 (_ = true) => reflexivity : pres.

Ltac pres_step :=
  lazymatch goal with
  | |- pres _ (mret _) => apply pres_ret
  | |- pres _ (raise _) => apply pres_raise
  | |- pres _ (lift _) => apply pres_lift
  | |- pres _ (read _) => apply pres_read
  | |- pres _ get_optimum => apply pres_get_optimum
  | |- pres _ (getattr _ _ _) => apply pres_getattr
  | |- pres _ (when _ _) => apply pres_when
  | |- pres _ (for_each _ _) => apply pres_for_each; intros ?
  | |- pres _ (dummy_array _ _) => unfold dummy_array
  | |- pres _ (try_except _ _) => apply pres_try; [|intros ?]
  | |- pres _ (mbind _ _) => apply pres_bind; [|intros ?]
  | |- pres _ (match ?x with _ => _ end) => destruct x
  | |- pres _ _ => solve [eauto with pres]
  end.

Ltac pres_go := repeat pres_step.

Section Stages.

Variable I : World → Prop.
Hypothesis I_call : ∀ c, engine_call c = true → pres I (call c).
Hypothesis I_setitem : ∀ out v, pres I (JSONOutput_setitem out "status" v).

Lemma pres_getitem out key : pres I (JSONOutput_getitem out key).
Proof. unfold JSONOutput_getitem. pres_go. Qed.

Lemma pres_engine_init name model tgt shape dtype out :
  pres I (AnsorEngine_init name model tgt shape dtype out).
Proof. unfold AnsorEngine_init. pres_go; by apply I_call. Qed.

Lemma pres_compile self lf : pres I (ansor_compile self lf).
Proof.
  unfold ansor_compile, AnsorEngine__save.
  pres_go; try (by apply I_call); apply I_setitem.
Qed.

Lemma pres_run_tuning self n v : pres I (ansor_run_tuning self n v).
Proof.
  unfold ansor_run_tuning.
  pres_go; try (by apply I_call); try apply I_setitem. apply pres_compile.
Qed.

End Stages.

Section OptimizerStages.

Variable I : World → Prop.
Hypothesis I_call : ∀ c, engine_call c = true → pres I (call c).
Hypothesis I_setitem : ∀ out v, pres I (JSONOutput_setitem out "status" v).
Hypothesis I_error : ∀ out v, pres I (JSONOutput_setitem out "error_info" v).
Hypothesis I_set_optimum : ∀ o, pres I (set_optimum o).

Lemma pres__run model tgt n mode out shape dtype lf verbose :
  pres I (Optimum__run model tgt n mode out shape dtype lf verbose).
Proof.
  unfold Optimum__run, Optimum_self.
  pres_go; auto using pres_engine_init, pres_compile, pres_run_tuning.
Qed.

Lemma pres_optimum_run model out : pres I (Optimum_run model out).
Proof.
  unfold Optimum_run.
  pres_go; auto using pres_getitem, pres__run.
Qed.

Lemma pres_run_optimize model out : pres I (run_optimize model out).
Proof.
  unfold run_optimize, Optimum_init.
  pres_go; auto using pres_getitem, pres_optimum_run.
Qed.

Lemma pres_run_inner model out : pres I (run_inner model out).
Proof.
  unfold run_inner.
  pres_go; auto using pres_run_optimize.
Qed.

End OptimizerStages.

(** What each stage may call, and what it leaves alone. *)

Lemma inner_extends t0 model out :
  pres (extends_by engine_call t0) (run_inner model out).
Proof. apply pres_run_inner; eauto with pres. Qed.

Lemma evaluate_extends t0 self :
  pres (extends_by evaluate_call t0) (AnsorEngine_evaluate self).
Proof. unfold AnsorEngine_evaluate, dummy_array. pres_go. Qed.

Lemma evaluate_heap h self : pres (heap_is h) (AnsorEngine_evaluate self).
Proof. unfold AnsorEngine_evaluate, dummy_array. pres_go. Qed.

Lemma evaluate_optimum o self : pres (optimum_is o) (AnsorEngine_evaluate self).
Proof. unfold AnsorEngine_evaluate, dummy_array. pres_go. Qed.

Lemma benchmark_extends t0 config :
  pres (extends_by evaluate_call t0) (run_benchmark config).
Proof.
  unfold run_benchmark, JSONConfig_getitem, Optimum_self.
  pres_go. apply evaluate_extends.
Qed.

Lemma benchmark_heap h config : pres (heap_is h) (run_benchmark config).
Proof.
  unfold run_benchmark, JSONConfig_getitem, Optimum_self.
  pres_go. apply evaluate_heap.
Qed.

Lemma benchmark_optimum o config : pres (optimum_is o) (run_benchmark config).
Proof.
  unfold run_benchmark, JSONConfig_getitem, Optimum_self.
  pres_go. apply evaluate_optimum.
Qed.

(** ** Running the stages *)

Lemma bind_inv {A B} (m : M A) (f : A → M B) w r w' :
  (m ≫= f) w = (r, w') →
  (∃ e, m w = (inl e, w') ∧ r = inl e) ∨
  (∃ x w1, m w = (inr x, w1) ∧ f x w1 = (r, w')).
Proof.
  rewrite bind_unfold. destruct (m w) as [[e|x] w1]; intros H.
  - left. exists e. by injection H as <- <-.
  - right. by exists x, w1.
Qed.

Lemma bind_inr {A B} (m : M A) (f : A → M B) w y w' :
  (m ≫= f) w = (inr y, w') →
  ∃ x w1, m w = (inr x, w1) ∧ f x w1 = (inr y, w').
Proof.
  intros H. apply bind_inv in H as [[e [_ He]]|H]; [discriminate | exact H].
Qed.

Lemma call_inr c w x w' :
  call c w = (inr x, w') →
  raises O (trace w) c = None ∧
  w' = mkWorld (heap w) (optimum w) (trace w ++ [(c, None)]).
Proof.
  unfold call. destruct (raises O (trace w) c); intros H; [discriminate|].
  by injection H as _ <-.
Qed.

Lemma call_inl c w e w' :
  call c w = (inl e, w') →
  raises O (trace w) c = Some e ∧
  w' = mkWorld (heap w) (optimum w) (trace w ++ [(c, Some e)]).
Proof.
  unfold call. destruct (raises O (trace w) c); intros H; [|discriminate].
  by injection H as <- <-.
Qed.

Lemma setitem_dict out key v w d :
  heap w !! output_meta out = Some (VDict d) →
  JSONOutput_setitem out key v w =
  (inr tt, mkWorld (<[output_meta out := VDict (<[key := v]> d)]> (heap w))
             (optimum w) (trace w)).
Proof.
  intros Hd. unfold JSONOutput_setitem, read, lift, write.
  rewrite !bind_unfold. simpl. by rewrite Hd.
Qed.

Lemma setitem_inr out key v w x w' :
  JSONOutput_setitem out key v w = (inr x, w') →
  ∃ d, default VNone (heap w !! output_meta out) = VDict d ∧
       w' = mkWorld (<[output_meta out := VDict (<[key := v]> d)]> (heap w))
              (optimum w) (trace w).
Proof.
  unfold JSONOutput_setitem, read, lift, write. rewrite !bind_unfold. simpl.
  destruct (default VNone (heap w !! output_meta out)); simpl; try discriminate.
  intros H. injection H as _ <-. eauto.
Qed.

Lemma getitem_dict out key w d :
  heap w !! output_meta out = Some (VDict d) →
  JSONOutput_getitem out key w = (subscript (VDict d) key, w).
Proof.
  intros Hd. unfold JSONOutput_getitem, read, lift.
  rewrite bind_unfold. simpl. rewrite Hd. simpl. by destruct (d !! key).
Qed.

Lemma config_getitem_dict config key w d :
  heap w !! config_meta config = Some (VDict d) →
  JSONConfig_getitem config key w = (subscript (VDict d) key, w).
Proof.
  intros Hd. unfold JSONConfig_getitem, read, lift.
  rewrite bind_unfold. simpl. rewrite Hd. simpl. by destruct (d !! key).
Qed.

Lemma lift_world {A} (x : exn + A) w r w' : lift x w = (r, w') → r = x ∧ w' = w.
Proof. unfold lift. intros H. by injection H. Qed.

Lemma getitem_world out key w r w' :
  JSONOutput_getitem out key w = (r, w') → w' = w.
Proof.
  unfold JSONOutput_getitem, read, lift. rewrite bind_unfold. simpl.
  destruct (subscript _ key); intros H; by injection H.
Qed.

(** The inner boundary, when the optimizer raises: the message and the
    status -1 go into the report, and nothing is raised further. *)
Lemma inner_failed model out w e w1 d1 :
  run_optimize model out w = (inl e, w1) →
  heap w1 !! output_meta out = Some (VDict d1) →
  run_inner model out w =
  (inr tt,
   mkWorld (<[output_meta out :=
                VDict (<["status" := VInt (-1)]>
                         (<["error_info" := VStr (str_exn e)]> d1))]> (heap w1))
     (optimum w1) (trace w1)).
Proof.
  intros Hopt Hd. unfold run_inner, try_except. rewrite Hopt.
  rewrite bind_unfold, (setitem_dict _ _ _ _ _ Hd).
  erewrite setitem_dict; [|simpl; apply lookup_insert_eq].
  simpl. by rewrite insert_insert_eq.
Qed.

Lemma inner_ok model out w w1 :
  run_optimize model out w = (inr tt, w1) →
  run_inner model out w = (inr tt, w1).
Proof. intros Hopt. unfold run_inner, try_except. by rewrite Hopt. Qed.

(** Lines 43-45, exactly: the status is promoted unless it is -1, and the
    dictionary is handed to [json.dump]. *)
Lemma report_spec out w d st :
  heap w !! output_meta out = Some (VDict d) →
  d !! "status" = Some st →
  let d' := if eq_int st (-1) then d else <["status" := VInt 4]> d in
  let c := json_dump (output_prefix +:+ "/output_json.json") (VDict d') in
  run_report out w =
  (match raises O (trace w) c with Some e => inl e | None => inr tt end,
   mkWorld (<[output_meta out := VDict d']> (heap w)) (optimum w)
     (trace w ++ [(c, raises O (trace w) c)])).
Proof.
  intros Hd Hst. unfold run_report, JSONOutput_save.
  rewrite bind_unfold, (getitem_dict _ _ _ _ Hd). simpl. rewrite Hst.
  destruct (eq_int st (-1)); simpl.
  - unfold mbind, M_bind, mret, M_ret, read, call. simpl. rewrite Hd. simpl.
    rewrite (insert_id _ _ _ Hd). by destruct (raises O _ _).
  - rewrite !bind_unfold, (setitem_dict _ _ _ _ _ Hd). simpl.
    unfold mbind, M_bind, read, call. simpl. rewrite lookup_insert_eq. simpl.
    by destruct (raises O _ _).
Qed.

(** Lines 50-52, exactly. *)
Lemma deliver_local args out w :
  (env args =? GOOGLESTORAGE) = false → run_deliver args out w = (inr tt, w).
Proof. intros He. unfold run_deliver. by rewrite He. Qed.

Lemma deliver_remote args out w d st :
  (env args =? GOOGLESTORAGE) = true →
  heap w !! output_meta out = Some (VDict d) →
  d !! "status" = Some st →
  let up := upload_blobs output_prefix (output_bucket args)
              ("job_id=" +:+ pretty (job_id args)) in
  let ok := publish (project_id args) (topic_id args) "OK"
              (pretty (job_id args)) (py_str st) in
  let t1 := trace w ++ [(up, raises O (trace w) up)] in
  run_deliver args out w =
  match raises O (trace w) up with
  | Some e => (inl e, mkWorld (heap w) (optimum w) t1)
  | None =>
      (match raises O t1 ok with Some e => inl e | None => inr tt end,
       mkWorld (heap w) (optimum w) (t1 ++ [(ok, raises O t1 ok)]))
  end.
Proof.
  intros He Hd Hst. unfold run_deliver, upload_blobs_from_directory, publish_message.
  rewrite He. simpl. rewrite bind_unfold. unfold call at 1.
  destruct (raises O (trace w) _) eqn:Hup; [reflexivity|].
  rewrite bind_unfold. erewrite getitem_dict; [|exact Hd]. simpl. rewrite Hst.
  unfold call. simpl. by destruct (raises O (_ ++ _) _).
Qed.

(** Lines 47-48. *)
Lemma benchmark_world config w :
  heap (run_benchmark config w).2 = heap w ∧
  optimum (run_benchmark config w).2 = optimum w ∧
  extends_by evaluate_call (trace w) (run_benchmark config w).2.
Proof.
  split; [|split].
  - by apply (benchmark_heap (heap w) config w).
  - by apply (benchmark_optimum (optimum w) config w).
  - apply benchmark_extends, extends_refl.
Qed.

(** ** The engine *)

Lemma bind_ret_l {A B} (x : A) (f : A → M B) w : (mret x ≫= f) w = f x w.
Proof. reflexivity. Qed.

Lemma compile_unfold self lf w :
  ansor_compile self lf w =
  (let self := if truthy lf then set_log_file self lf else self in
   history ← getattr "AnsorEngine" "log_file" (log_file self);
   call (relay_build history (target self));;
   compile_rest self) w.
Proof. reflexivity. Qed.

Lemma call_world c w r w' :
  call c w = (r, w') →
  heap w' = heap w ∧ optimum w' = optimum w ∧
  trace w' = trace w ++ [(c, raises O (trace w) c)] ∧
  r = match raises O (trace w) c with Some e => inl e | None => inr tt end.
Proof.
  unfold call. destruct (raises O (trace w) c); intros H; by injection H as <- <-.
Qed.

(** While the artifacts are written the store is not touched; the status
    becomes 3 at the very end, when everything before it returned. *)
Lemma compile_rest_spec self w r w' :
  compile_rest self w = (r, w') →
  extends_by artifact_call (trace w) w' ∧ optimum w' = optimum w ∧
  match r with
  | inl _ => heap w' = heap w
  | inr ae =>
      ae = set_module (set_device self (py_str (target self))) (compiled O) ∧
      ∃ d, heap w !! output_meta (out_json self) = Some (VDict d) ∧
           heap w' = <[output_meta (out_json self) :=
                         VDict (<["status" := VInt 3]> d)]> (heap w)
  end.
Proof.
  intros H.
  assert (extends_by artifact_call (trace w) w' ∧ optimum w' = optimum w) as [Ht Ho].
  { split.
    - assert (pres (extends_by artifact_call (trace w)) (compile_rest self)) as Hp
        by (unfold compile_rest, AnsorEngine__save; pres_go).
      specialize (Hp w (extends_refl _ _)). by rewrite H in Hp.
    - assert (pres (optimum_is (optimum w)) (compile_rest self)) as Hp
        by (unfold compile_rest, AnsorEngine__save; pres_go).
      specialize (Hp w eq_refl). by rewrite H in Hp. }
  split; [exact Ht|]. split; [exact Ho|].
  unfold compile_rest, AnsorEngine__save in H.
  apply bind_inv in H as [(e & Hc & ->)|([] & w1 & Hc & H)];
    apply call_world in Hc as (Hh1 & _); [exact Hh1|].
  apply bind_inv in H as [(e & Hs & ->)|([] & w2 & Hs & H)].
  { apply bind_inv in Hs as [(e' & Hc & _)|([] & wa & Hc & Hs)];
      apply call_world in Hc as (Hha & _); [congruence|].
    apply bind_inv in Hs as [(e' & Hc & _)|([] & wb & Hc & Hs)];
      apply call_world in Hc as (Hhb & _); [congruence|].
    apply call_world in Hs as (Hhc & _). congruence. }
  assert (heap w2 = heap w) as Hh2.
  { apply bind_inr in Hs as ([] & wa & Hc & Hs). apply call_world in Hc as (Hha & _).
    apply bind_inr in Hs as ([] & wb & Hc & Hs). apply call_world in Hc as (Hhb & _).
    apply call_world in Hs as (Hhc & _). congruence. }
  apply bind_inv in H as [(e & Hc & ->)|([] & w3' & Hc & H)];
    apply call_world in Hc as (Hh3' & _); [congruence|].
  apply bind_inv in H as [(e & Hc & ->)|([] & w3 & Hc & H)];
    apply call_world in Hc as (Hh3 & _); [congruence|].
  apply bind_inv in H as [(e & Hs' & ->)|([] & w4 & Hs' & H)].
  - unfold JSONOutput_setitem, read, lift, write in Hs'.
    rewrite !bind_unfold in Hs'. simpl in Hs'.
    destruct (store_subscript _ _ _); simpl in Hs'; [|discriminate].
    injection Hs' as _ <-. congruence.
  - injection H as <- <-. split; [reflexivity|].
    apply setitem_inr in Hs' as (d & Hd & ->). simpl in *.
    exists d. rewrite Hh3, Hh3', Hh2 in Hd |- *. split; [|reflexivity].
    destruct (heap w !! output_meta (out_json self)) as [x|] eqn:Hx; simpl in Hd;
      [by subst | discriminate].
Qed.

(** [ansor_compile] with a log file at hand: it starts by [relay.build]
    on that file, writes the artifacts, and sets the status to 3 when all
    of it returned. *)
Lemma compile_spec self lf h w r w' :
  log_file (if truthy lf then set_log_file self lf else self) = Some h →
  ansor_compile self lf w = (r, w') →
  optimum w' = optimum w ∧
  ∃ rb evs,
    trace w' = trace w ++ (relay_build h (target self), rb) :: evs ∧
    Forall (λ ev : Event, artifact_call ev.1 = true) evs ∧
    match r with
    | inl _ => heap w' = heap w
    | inr ae =>
        rb = None ∧ ready ae ∧
        ∃ d, heap w !! output_meta (out_json self) = Some (VDict d) ∧
             heap w' = <[output_meta (out_json self) :=
                           VDict (<["status" := VInt 3]> d)]> (heap w)
    end.
Proof.
  intros Hlog H. rewrite compile_unfold in H. cbv zeta in H.
  rewrite Hlog in H. simpl in H. rewrite bind_ret_l in H.
  assert (target (if truthy lf then set_log_file self lf else self) = target self
          ∧ out_json (if truthy lf then set_log_file self lf else self) = out_json self)
    as [Htg Hout] by (by destruct (truthy lf)).
  rewrite Htg in H.
  apply bind_inv in H as [(e & Hc & ->)|([] & w1 & Hc & H)];
    apply call_world in Hc as (Hh1 & Ho1 & Ht1 & Hr1).
  - split; [exact Ho1|]. exists (raises O (trace w) (relay_build h (target self))), [].
    split; [exact Ht1|]. split; [constructor | exact Hh1].
  - apply compile_rest_spec in H as ((evs & Ht & Hall) & Ho & Hr).
    split; [congruence|].
    exists (raises O (trace w) (relay_build h (target self))), evs.
    split; [rewrite Ht, Ht1; by rewrite <- app_assoc|]. split; [exact Hall|].
    destruct r as [e|ae].
    + congruence.
    + destruct Hr as (-> & d & Hd & Hh). rewrite Htg, Hout, Hh1 in *.
      split; [by destruct (raises O (trace w) _)|].
      split; [split; [reflexivity | eexists; reflexivity]|].
      exists d. by split.
Qed.

(** ** File names *)

Lemma append_nil_l (s : string) : "" +:+ s = s.
Proof. reflexivity. Qed.

Lemma append_cons c (s b : string) : String c s +:+ b = String c (s +:+ b).
Proof. reflexivity. Qed.

Lemma append_nil_r (s : string) : s +:+ "" = s.
Proof.
  induction s as [|c s IH]; [reflexivity|]. by rewrite append_cons, IH.
Qed.

Lemma append_assoc (a b c : string) : (a +:+ b) +:+ c = a +:+ (b +:+ c).
Proof.
  induction a as [|x a IH]; [reflexivity|]. by rewrite !append_cons, IH.
Qed.

Lemma no_slash_app a b : no_slash (a +:+ b) = no_slash a && no_slash b.
Proof.
  induction a as [|c a IH]; [reflexivity|].
  rewrite append_cons. simpl. rewrite IH. by rewrite andb_assoc.
Qed.

Lemma rsplit_dot_app s a b : rsplit_dot s = Some (a, b) → s = a +:+ b.
Proof.
  revert a b. induction s as [|c s IH]; intros a b H; simpl in H; [discriminate|].
  destruct (rsplit_dot s) as [[a' b']|].
  - injection H as <- <-. by rewrite append_cons, (IH a' b' eq_refl).
  - destruct (Ascii.eqb c "."%char); [|discriminate]. by injection H as <- <-.
Qed.

(** The name is its stem followed by its suffix. *)
Lemma cut_name_app name : name = (cut_name name).1 +:+ (cut_name name).2.
Proof.
  unfold cut_name. destruct (rsplit_dot name) as [[a b]|] eqn:Hs.
  - destruct (negb (String.eqb a "") && negb (String.eqb b ".")); simpl.
    + by apply rsplit_dot_app.
    + by rewrite append_nil_r.
  - simpl. by rewrite append_nil_r.
Qed.

Lemma split_slash_no_slash cur s :
  no_slash cur = true → Forall (λ c, no_slash c = true) (split_slash cur s).
Proof.
  revert cur. induction s as [|c s IH]; intros cur Hcur; simpl.
  - by constructor.
  - destruct (Ascii.eqb c "/"%char) eqn:Hc.
    + constructor; [exact Hcur | by apply IH].
    + apply IH. rewrite no_slash_app, Hcur. simpl. by rewrite Hc.
Qed.

Lemma split_slash_whole cur s :
  no_slash s = true → split_slash cur s = [cur +:+ s].
Proof.
  revert cur. induction s as [|c s IH]; intros cur Hs; simpl in *.
  - by rewrite append_nil_r.
  - apply andb_true_iff in Hs as [Hc Hs]. apply negb_true_iff in Hc.
    rewrite Hc, (IH _ Hs), append_assoc. reflexivity.
Qed.

Lemma leading_no_slash s : no_slash s = true → leading_slashes s = 0%nat.
Proof.
  destruct s as [|c s]; simpl; [reflexivity|]. intros H.
  apply andb_true_iff in H as [Hc _]. apply negb_true_iff in Hc. by rewrite Hc.
Qed.

Lemma last_Forall {A} (P : A → Prop) (l : list A) (x : A) :
  P x → Forall P l → P (List.last l x).
Proof.
  intros Hx Hl. induction Hl as [|y l Hy Hl IH]; simpl; [exact Hx|].
  destruct l; [exact Hy | exact IH].
Qed.

Lemma path_name_no_slash s : no_slash (path_name (parse_path s)) = true.
Proof.
  unfold path_name, parse_path. simpl.
  apply (last_Forall (λ c, no_slash c = true)); [reflexivity|].
  apply list.Forall_forall. intros c Hc. apply list_elem_of_filter in Hc as [_ Hc].
  revert c Hc. apply list.Forall_forall. by apply split_slash_no_slash.
Qed.

Lemma finished_name_no_slash s : no_slash (finished_name (parse_path s)) = true.
Proof.
  pose proof (path_name_no_slash s) as Hn.
  rewrite (cut_name_app (path_name (parse_path s))), no_slash_app in Hn.
  apply andb_true_iff in Hn as [Ha Hb].
  unfold finished_name, path_stem, path_suffix.
  rewrite !no_slash_app, Ha, Hb. reflexivity.
Qed.

Lemma is_component_finished a b : is_component ((a +:+ "_finished") +:+ b) = true.
Proof.
  unfold is_component. destruct a as [|c a]; [reflexivity|].
  rewrite !append_cons. simpl.
  destruct (Ascii.eqb c "."%char); [|reflexivity]. by destruct a.
Qed.

Lemma parse_finished_name s :
  parse_path (finished_name (parse_path s))
  = mkPath "" [finished_name (parse_path s)].
Proof.
  pose proof (finished_name_no_slash s) as Hn.
  unfold parse_path at 1.
  rewrite (leading_no_slash _ Hn), (split_slash_whole _ _ Hn), append_nil_l.
  f_equal. rewrite filter_cons_True; [reflexivity|].
  apply is_component_finished.
Qed.

(** The finished record stays in the directory of the record, under the
    name with ["_finished"] between stem and suffix. *)
Lemma finished_path_spec s :
  let p := parse_path s in
  finished_path p = mkPath (root p) (removelast (parts p) ++ [finished_name p]) ∧
  path_name (finished_path p) = (path_stem p +:+ "_finished") +:+ path_suffix p ∧
  path_name p = path_stem p +:+ path_suffix p ∧
  path_parent (finished_path p) = path_parent p.
Proof.
  intros p.
  assert (finished_path p
          = mkPath (root p) (removelast (parts p) ++ [finished_name p])) as Hf.
  { unfold finished_path, path_join, p. by rewrite parse_finished_name. }
  split; [exact Hf|]. rewrite Hf. split; [|split].
  - unfold path_name. simpl. by rewrite last_last.
  - apply cut_name_app.
  - unfold path_parent. simpl. by rewrite removelast_last.
Qed.

(** ** A fresh search *)

(** The four ways [ansor_run_tuning] can go: task extraction raises, the
    search raises, the rename raises, or all three return and the method
    goes on into [ansor_compile] on the renamed record, with status 2. *)
Lemma tuning_spec self n v w r w' d :
  heap w !! output_meta (out_json self) = Some (VDict d) →
  ansor_run_tuning self n v w = (r, w') →
  let c1 := extract_tasks (target self) in
  let c2 := tune n v (tuning_log self) in
  let c3 := rename_call self in
  optimum w' = optimum w ∧
  ((∃ e, r = inl e ∧ heap w' = heap w ∧ trace w' = trace w ++ [(c1, Some e)]
         ∧ ¬ search_returns self n v w)
   ∨ (∃ e, r = inl e ∧ heap w' = heap w
           ∧ trace w' = trace w ++ [(c1, None); (c2, Some e)]
           ∧ ¬ search_returns self n v w)
   ∨ (∃ e, r = inl e ∧ heap w' = heap w
           ∧ trace w' = trace w ++ [(c1, None); (c2, None); (c3, Some e)]
           ∧ search_returns self n v w ∧ ¬ rename_returns self n v w)
   ∨ (∃ rb evs,
        trace w' = trace w ++ (c1, None) :: (c2, None) :: (c3, None)
                     :: (relay_build (VStr (renamed_log self)) (target self), rb)
                     :: evs
        ∧ Forall (λ ev : Event, artifact_call ev.1 = true) evs
        ∧ search_returns self n v w ∧ rename_returns self n v w
        ∧ match r with
          | inl _ =>
              heap w' = <[output_meta (out_json self) :=
                            VDict (<["status" := VInt 2]> d)]> (heap w)
          | inr ae =>
              rb = None ∧ ready ae ∧
              heap w' = <[output_meta (out_json self) :=
                            VDict (<["status" := VInt 3]> d)]> (heap w)
          end)).
Proof.
  intros Hd H c1 c2 c3. unfold ansor_run_tuning in H. cbv zeta in H.
  change (path_join (path_parent (parse_path (tuning_log self)))
            (finished_name (parse_path (tuning_log self))))
    with (finished_path (parse_path (tuning_log self))) in H.
  change (tuning_log (set_log_file self (VStr (tuning_log self))))
    with (tuning_log self) in H.
  simpl in H. unfold search_returns, rename_returns. cbv zeta. fold c1 c2 c3.
  apply bind_inv in H as [(e & Hc & ->)|([] & w1 & Hc & H)].
  { apply call_inl in Hc as [Hr1 ->]. simpl. split; [reflexivity|]. left.
    exists e. fold c1 in Hr1. repeat split. intros [Hn _]. congruence. }
  apply call_inr in Hc as [Hr1 ->]. fold c1 in Hr1.
  apply bind_inv in H as [(e & Hc & ->)|([] & w2 & Hc & H)].
  { apply call_inl in Hc as [Hr2 ->]. simpl in *. split; [reflexivity|]. right. left.
    exists e. fold c1 c2 in Hr2. rewrite <- app_assoc. repeat split.
    intros [_ Hn]. congruence. }
  apply call_inr in Hc as [Hr2 ->]. simpl in Hr2. fold c1 c2 in Hr2.
  apply bind_inv in H as [(e & Hc & ->)|([] & w3 & Hc & H)].
  { apply call_inl in Hc as [Hr3 ->]. simpl in *. split; [reflexivity|].
    right. right. left. exists e. rewrite <- !app_assoc in *. simpl in *.
    fold c1 c2 in Hr3. fold (rename_call self) in Hr3. fold c3 in Hr3.
    repeat split; try assumption.
    intros Hn. pose proof (eq_trans (eq_sym Hn) Hr3) as Hbad. discriminate Hbad. }
  apply call_inr in Hc as [Hr3 ->]. simpl in H, Hr3.
  rewrite <- !app_assoc in Hr3. simpl in Hr3.
  fold c1 c2 in Hr3. fold (rename_call self) in Hr3. fold c3 in Hr3.
  rewrite bind_unfold in H. erewrite setitem_dict in H; [|simpl; exact Hd].
  eapply compile_spec in H as (Ho & rb & evs & Ht & Hall & Hr);
    [|by destruct (truthy _)].
  simpl in *. split; [exact Ho|]. right. right. right.
  exists rb, evs. split; [|split; [exact Hall|split; [by split|split; [exact Hr3|]]]].
  - rewrite Ht, <- !app_assoc. reflexivity.
  - destruct r as [e|ae]; [exact Hr|].
    destruct Hr as (Hrb & Hm & d' & Hd' & Hh).
    rewrite lookup_insert_eq in Hd'. injection Hd' as <-.
    split; [exact Hrb|]. split; [exact Hm|].
    rewrite Hh. by rewrite !insert_insert_eq.
Qed.

(** ** The optimizer *)

Lemma engine_init_spec name model tgt shape dtype out w :
  let c := from_onnx shape dtype in
  AnsorEngine_init (VStr name) model tgt shape dtype out w =
  (match raises O (trace w) c with
   | Some e => inl e
   | None => inr (mkAnsorEngine (replace_char "/" "_" name) tgt shape dtype out
                    None None None)
   end,
   mkWorld (heap w) (optimum w) (trace w ++ [(c, raises O (trace w) c)])).
Proof.
  unfold AnsorEngine_init. rewrite bind_ret_l, bind_unfold. unfold call.
  by destruct (raises O (trace w) _).
Qed.

(** Any mode but ["ansor"]: nothing is built; ["autotvm"] is refused by
    name, any other mode runs into the unbound local [ae]. *)
Lemma _run_other_mode self model tgt n mode out shape dtype lf verbose w :
  optimum w = Some self → eq_str mode "ansor" = false →
  Optimum__run model tgt n mode out shape dtype lf verbose w =
  (inl (if eq_str mode "autotvm" then NotImplementedError
        else UnboundLocalError "ae"), w).
Proof.
  intros Ho Hm. unfold Optimum__run, Optimum_self, get_optimum.
  rewrite !bind_unfold. rewrite Ho, Hm. simpl.
  by destruct (eq_str mode "autotvm").
Qed.

(** Mode ["ansor"]: build the engine, compile from the given log or run a
    fresh search, then keep the engine. *)
Lemma _run_ansor self model tgt n mode out shape dtype lf verbose w :
  optimum w = Some self → eq_str mode "ansor" = true →
  Optimum__run model tgt n mode out shape dtype lf verbose w =
  (ae ← AnsorEngine_init (model_name self) model tgt shape dtype out;
   ae ← (if negb (eq_str lf "") then ansor_compile ae lf
         else ansor_run_tuning ae n verbose);
   set_optimum (mkOptimum (model_name self) (Some ae) (Some model))) w.
Proof.
  intros Ho Hm. unfold Optimum__run, Optimum_self, get_optimum.
  unfold mbind, M_bind. rewrite Ho, Hm. simpl.
  destruct (AnsorEngine_init _ _ _ _ _ _ w) as [[e|ae] w1]; [reflexivity|].
  destruct (negb (eq_str lf ""));
    [destruct (ansor_compile ae lf w1) as [[e|ae'] w2]
    |destruct (ansor_run_tuning ae n verbose w1) as [[e|ae'] w2]]; reflexivity.
Qed.

Lemma optimum_run_reads model out w d tgt n mode lf shape dtype verbose :
  heap w !! output_meta out = Some (VDict d) →
  config_fields d tgt n mode lf shape dtype verbose →
  Optimum_run model out w =
  Optimum__run model tgt n mode out shape dtype lf verbose w.
Proof.
  intros Hd (Ht & Hl & (tc & Htc & Hn & Hm & Hv) & (mc & Hmc & Hs & Hdt)).
  unfold Optimum_run.
  repeat (rewrite bind_unfold; first
    [ rewrite (getitem_dict _ _ _ _ Hd); simpl;
      rewrite ?Ht, ?Hl, ?Htc, ?Hmc
    | unfold lift at 1; rewrite ?Hn, ?Hm, ?Hv, ?Hs, ?Hdt ]).
  reflexivity.
Qed.

Lemma pres_inl_bind {A B} I (m : M A) (f : A → M B) :
  pres I m → (∀ x, pres_inl I (f x)) → pres_inl I (m ≫= f).
Proof.
  intros Hm Hf w e w' Hw H. specialize (Hm w Hw).
  apply bind_inv in H as [(e' & Hc & _)|(x & w1 & Hc & H)]; rewrite Hc in Hm.
  - exact Hm.
  - eapply Hf; [exact Hm | exact H].
Qed.

Lemma pres_pres_inl {A} I (m : M A) : pres I m → pres_inl I m.
Proof. intros Hm w e w' Hw H. specialize (Hm w Hw). by rewrite H in Hm. Qed.

(** [Optimum._run] assigns [self.ansor_engine] last: when it raises, the
    instance is as it was. *)
Lemma _run_raises_optimum o model tgt n mode out shape dtype lf verbose :
  pres_inl (optimum_is o)
    (Optimum__run model tgt n mode out shape dtype lf verbose).
Proof.
  unfold Optimum__run. apply pres_inl_bind.
  { unfold Optimum_self. pres_go. }
  intros self. apply pres_inl_bind.
  { pres_go; eauto using pres_engine_init, pres_compile, pres_run_tuning with pres. }
  intros [ae|]; [|apply pres_pres_inl, pres_raise].
  intros w e w' _ H. discriminate.
Qed.

Lemma optimum_run_raises_optimum o model out :
  pres_inl (optimum_is o) (Optimum_run model out).
Proof.
  unfold Optimum_run.
  repeat (apply pres_inl_bind;
          [first [apply pres_getitem; eauto with pres | apply pres_lift]|intros ?]).
  apply _run_raises_optimum.
Qed.

(** When the body of the inner [try] raises, no engine is left behind:
    either [optimum] was never bound, or its [ansor_engine] was never
    assigned. *)
Lemma optimize_failed_engine model out w e w1 :
  optimum w = None →
  run_optimize model out w = (inl e, w1) →
  optimum w1 = None ∨ ∃ o, optimum w1 = Some o ∧ ansor_engine o = None.
Proof.
  intros Ho H. unfold run_optimize in H.
  apply bind_inv in H as [(e' & Hg & _)|(mn & w2 & Hg & H)];
    apply getitem_world in Hg as ->; [by left|].
  rewrite bind_unfold in H. unfold Optimum_init, set_optimum in H. simpl in H.
  right. exists (mkOptimum mn None None). split; [|reflexivity].
  eapply (optimum_run_raises_optimum (Some (mkOptimum mn None None)));
    [|exact H]. reflexivity.
Qed.

Lemma compile_no_log self lf w :
  log_file (if truthy lf then set_log_file self lf else self) = None →
  ansor_compile self lf w =
  (inl (AttributeError "'AnsorEngine' object has no attribute 'log_file'"), w).
Proof.
  intros Hlog. rewrite compile_unfold. cbv zeta. rewrite Hlog. reflexivity.
Qed.

(** When [Optimum._run] returns, the mode was ["ansor"], the engine has a
    module, and the status is 3. *)
Lemma _run_returns self model tgt n mode out shape dtype lf verbose w w' d :
  optimum w = Some self →
  heap w !! output_meta out = Some (VDict d) →
  Optimum__run model tgt n mode out shape dtype lf verbose w = (inr tt, w') →
  eq_str mode "ansor" = true ∧
  heap w' = <[output_meta out := VDict (<["status" := VInt 3]> d)]> (heap w) ∧
  ∃ o ae, optimum w' = Some o ∧ ansor_engine o = Some ae ∧
          ready ae.
Proof.
  intros Ho Hd H.
  destruct (eq_str mode "ansor") eqn:Hm;
    [|by rewrite (_run_other_mode _ _ _ _ _ _ _ _ _ _ _ Ho Hm) in H].
  split; [reflexivity|].
  rewrite (_run_ansor _ _ _ _ _ _ _ _ _ _ _ Ho Hm) in H.
  apply bind_inr in H as (ae & w1 & Hinit & H).
  assert (heap w1 = heap w ∧ out_json ae = out) as [Hh1 Hout].
  { unfold AnsorEngine_init in Hinit.
    apply bind_inr in Hinit as (name & wa & Hname & Hinit).
    assert (wa = w) as -> by (destruct (model_name self); by inversion Hname).
    apply bind_inr in Hinit as ([] & wb & Hc & Hinit).
    apply call_inr in Hc as [_ ->]. by inversion Hinit. }
  apply bind_inr in H as (ae' & w2 & Hrun & H).
  unfold set_optimum in H. injection H as <-. simpl.
  assert (heap w1 !! output_meta (out_json ae) = Some (VDict d)) as Hd1
    by (rewrite Hout, Hh1; exact Hd).
  assert (ready ae' ∧
          heap w2 = <[output_meta out := VDict (<["status" := VInt 3]> d)]> (heap w))
    as [Hmod Hh2].
  { destruct (negb (eq_str lf "")).
    - destruct (log_file (if truthy lf then set_log_file ae lf else ae)) as [h|] eqn:Hl.
      + eapply compile_spec in Hrun as (_ & rb & evs & _ & _ & _ & Hmod & d' & Hd' & Hh);
          [|exact Hl].
        rewrite Hd1 in Hd'. injection Hd' as <-. rewrite Hout, Hh1 in Hh. by split.
      + by rewrite (compile_no_log _ _ _ Hl) in Hrun.
    - eapply tuning_spec in Hrun as [_ Hcases]; [|exact Hd1].
      destruct Hcases as [(e & He & _)|[(e & He & _)|[(e & He & _)|Hcase]]];
        try discriminate.
      destruct Hcase as (rb & evs & _ & _ & _ & _ & _ & Hmod & Hh).
      rewrite Hout, Hh1 in Hh. by split. }
  split; [exact Hh2|]. eauto.
Qed.

Lemma optimum_init_world mn w :
  Optimum_init mn w = (inr tt, mkWorld (heap w) (Some (mkOptimum mn None None)) (trace w)).
Proof. reflexivity. Qed.

(** The same for the body of the inner [try]. *)
Lemma optimize_returns model out w w' d :
  heap w !! output_meta out = Some (VDict d) →
  run_optimize model out w = (inr tt, w') →
  heap w' = <[output_meta out := VDict (<["status" := VInt 3]> d)]> (heap w) ∧
  ∃ o ae, optimum w' = Some o ∧ ansor_engine o = Some ae ∧
          ready ae.
Proof.
  intros Hd H. unfold run_optimize in H.
  apply bind_inr in H as (mn & w1 & Hg & H). apply getitem_world in Hg as ->.
  rewrite bind_unfold, optimum_init_world in H.
  unfold Optimum_run in H.
  do 12 (apply bind_inr in H as (? & ? & Hg & H);
         first [apply getitem_world in Hg as -> | apply lift_world in Hg as [_ ->]]).
  eapply _run_returns in H as (_ & Hh & Hrest); [| reflexivity | exact Hd].
  by split.
Qed.

(** ** The whole job *)

Lemma deliver_extends t0 args out :
  pres (extends_by delivery_call t0) (run_deliver args out).
Proof.
  unfold run_deliver, upload_blobs_from_directory, publish_message, JSONOutput_getitem.
  pres_go.
Qed.

Lemma deliver_heap args out w :
  heap (run_deliver args out w).2 = heap w.
Proof.
  assert (pres (heap_is (heap w)) (run_deliver args out)) as Hp.
  { unfold run_deliver, upload_blobs_from_directory, publish_message,
      JSONOutput_getitem. pres_go. }
  exact (Hp w eq_refl).
Qed.

Lemma count_calls_app kind t1 t2 :
  count_calls kind (t1 ++ t2) = (count_calls kind t1 + count_calls kind t2)%nat.
Proof. unfold count_calls. by rewrite filter_app, length_app. Qed.

Lemma count_calls_none (kind k : Call → bool) t :
  (∀ c, k c = true → kind c = false) →
  Forall (λ ev : Event, k ev.1 = true) t → count_calls kind t = 0%nat.
Proof.
  intros Hk Hall. unfold count_calls.
  induction Hall as [|ev t Hev Hall IH]; [reflexivity|].
  rewrite filter_cons_False; [exact IH|]. rewrite (Hk _ Hev). discriminate.
Qed.

Lemma run_unfold args w :
  run args w =
  match run_body args w with
  | (inl e, w') =>
      call (publish (project_id args) (topic_id args) (str_exn e)
              (pretty (job_id args)) "-1") w'
  | r => r
  end.
Proof. reflexivity. Qed.

Lemma artifact_not_member (evs : list Event) c o :
  Forall (λ ev : Event, artifact_call ev.1 = true) evs →
  artifact_call c = false → (c, o) ∉ evs.
Proof.
  intros Hall Hc Hin. rewrite list.Forall_forall in Hall.
  apply Hall in Hin. simpl in Hin. congruence.
Qed.

Lemma count_calls_one kind (c : Call) (o : option exn) :
  count_calls kind [(c, o)] = if kind c then 1%nat else 0%nat.
Proof.
  unfold count_calls. destruct (kind c) eqn:Hk.
  - by rewrite filter_cons_True.
  - rewrite filter_cons_False; [done|]. simpl. by rewrite Hk.
Qed.

Lemma call_snd c w :
  (call c w).2
  = mkWorld (heap w) (optimum w) (trace w ++ [(c, raises O (trace w) c)]).
Proof. unfold call. by destruct (raises O (trace w) c). Qed.

Lemma Forall_kind (kind : Call → bool) (evs : list Event) c o :
  Forall (λ ev : Event, kind ev.1 = true) evs → (c, o) ∈ evs → kind c = true.
Proof. intros Hall Hin. by apply (proj1 (list.Forall_forall _ _) Hall (c, o)). Qed.

Lemma returned_app cs1 cs2 : returned (cs1 ++ cs2) = returned cs1 ++ returned cs2.
Proof. unfold returned. by rewrite fmap_app. Qed.

(** A call that returns, seen from the computation around it. *)
Ltac call_returns H :=
  let Hc := fresh "Hc" in let w := fresh "w" in
  apply bind_inr in H as ([] & w & Hc & H);
  apply call_inr in Hc as [_ ->].

Lemma call_quiet c w :
  raises O (trace w) c = None →
  call c w = (inr tt, mkWorld (heap w) (optimum w) (trace w ++ [(c, None)])).
Proof. intros H. unfold call. by rewrite H. Qed.

(** Lines 43-52, from the inner boundary on. *)
Lemma body_after_inner args config out w2 d2 st :
  heap w2 !! output_meta out = Some (VDict d2) → d2 !! "status" = Some st →
  let c := json_dump report_file (VDict (promoted d2)) in
  let w3 := mkWorld (<[output_meta out := VDict (promoted d2)]> (heap w2))
              (optimum w2) (trace w2 ++ [(c, raises O (trace w2) c)]) in
  (run_report out;; run_benchmark config;; run_deliver args out) w2 =
  match raises O (trace w2) c with
  | Some e => (inl e, w3)
  | None =>
      match run_benchmark config w3 with
      | (inl e, w4) => (inl e, w4)
      | (inr _, w4) => run_deliver args out w4
      end
  end.
Proof.
  intros Hd2 Hst c w3. rewrite bind_unfold, (report_spec _ _ _ _ Hd2 Hst).
  cbv zeta. fold report_file.
  replace (if eq_int st (-1) then d2 else <["status" := VInt 4]> d2)
    with (promoted d2) by (unfold promoted; by rewrite Hst).
  fold c. destruct (raises O (trace w2) c) eqn:Hr; [reflexivity|].
  rewrite bind_unfold. fold w3. by destruct (run_benchmark config w3) as [[e|[]] w4].
Qed.

Lemma deliver_spec args out w d st :
  heap w !! output_meta out = Some (VDict d) → d !! "status" = Some st →
  let up := upload_blobs output_prefix (output_bucket args)
              ("job_id=" +:+ pretty (job_id args)) in
  let ok := ok_message args (py_str st) in
  let t1 := trace w ++ [(up, raises O (trace w) up)] in
  run_deliver args out w =
  if env args =? GOOGLESTORAGE then
    match raises O (trace w) up with
    | Some e => (inl e, mkWorld (heap w) (optimum w) t1)
    | None =>
        (match raises O t1 ok with Some e => inl e | None => inr tt end,
         mkWorld (heap w) (optimum w) (t1 ++ [(ok, raises O t1 ok)]))
    end
  else (inr tt, w).
Proof.
  intros Hd Hst. cbv zeta. destruct (env args =? GOOGLESTORAGE) eqn:He.
  - by rewrite (deliver_remote _ _ _ _ _ He Hd Hst).
  - by apply deliver_local.
Qed.

(** Lines 47-48, exactly. *)
Lemma benchmark_spec config w d :
  heap w !! config_meta config = Some (VDict d) →
  run_benchmark config w =
  match d !! "need_benchmark" with
  | None => (inl (KeyError "need_benchmark"), w)
  | Some nb =>
      if truthy nb then
        match optimum w with
        | None => (inl (UnboundLocalError "optimum"), w)
        | Some o =>
            match ansor_engine o with
            | None =>
                (inl (AttributeError
                        "'Optimum' object has no attribute 'ansor_engine'"), w)
            | Some ae => AnsorEngine_evaluate ae w
            end
        end
      else (inr tt, w)
  end.
Proof.
  intros Hd. unfold run_benchmark.
  rewrite bind_unfold, (config_getitem_dict _ _ _ _ Hd). simpl.
  destruct (d !! "need_benchmark") as [nb|]; [|reflexivity].
  destruct (truthy nb); [|reflexivity]. simpl.
  unfold Optimum_self, get_optimum. rewrite !bind_unfold.
  destruct (optimum w) as [o|]; [|reflexivity]. simpl. rewrite bind_unfold.
  by destruct (ansor_engine o).
Qed.


(** ** The acquisition *)

Lemma bind_assoc {A B C} (m : M A) (f : A → M B) (g : B → M C) w :
  ((m ≫= f) ≫= g) w = (m ≫= λ x, f x ≫= g) w.
Proof. rewrite !bind_unfold. by destruct (m w) as [[e|x] w1]. Qed.

Lemma call_step {B} c (f : unit → M B) w :
  (call c ≫= f) w =
  match raises O (trace w) c with
  | Some e => (inl e, mkWorld (heap w) (optimum w) (trace w ++ [(c, Some e)]))
  | None => f tt (mkWorld (heap w) (optimum w) (trace w ++ [(c, None)]))
  end.
Proof. rewrite bind_unfold. unfold call. by destruct (raises O (trace w) c). Qed.

(** The next call of a computation, with the world it is made in. *)
Ltac step_call :=
  repeat first [rewrite bind_assoc | rewrite bind_ret_l | progress cbv beta];
  rewrite call_step; simpl heap; simpl optimum; simpl trace.

(** Line 23 raises before the file is opened, and leaves the world as it
    was. *)
Lemma config_call_raises w :
  JSONConfig_call config_name [VInt 0] w = (inl config_call_error, w).
Proof. reflexivity. Qed.


Lemma download_world args w :
  heap (run_download args w).2 = heap w ∧
  optimum (run_download args w).2 = optimum w.
Proof.
  split.
  - assert (pres (heap_is (heap w)) (run_download args)) as Hp
      by (unfold run_download, download_file_from_gcp; pres_go).
    exact (Hp w eq_refl).
  - assert (pres (optimum_is (optimum w)) (run_download args)) as Hp
      by (unfold run_download, download_file_from_gcp; pres_go).
    exact (Hp w eq_refl).
Qed.

(** Lines 19-21, exactly: the calls of [fetch_calls] in order, up to the
    first that raises. *)
Lemma download_spec args w :
  match (run_download args w).1 with
  | inr _ => trace (run_download args w).2 = trace w ++ returned (fetch_calls args)
  | inl e =>
      ∃ k c, fetch_calls args !! k = Some c ∧
        trace (run_download args w).2
        = trace w ++ returned (take k (fetch_calls args)) ++ [(c, Some e)]
  end.
Proof.
  unfold run_download, fetch_calls, when. destruct (env args =? GOOGLESTORAGE).
  2:{ simpl. by rewrite app_nil_r. }
  unfold download_file_from_gcp, download_calls.
  step_call. destruct (raises O _ _) as [e|].
  { exists 0%nat. eexists. split; reflexivity. }
  step_call. destruct (raises O _ _) as [e|].
  { exists 1%nat. eexists. split; [reflexivity|]. simpl.
    by rewrite <- !app_assoc. }
  step_call. destruct (raises O _ _) as [e|].
  { exists 2%nat. eexists. split; [reflexivity|]. simpl.
    by rewrite <- !app_assoc. }
  step_call. destruct (raises O _ _) as [e|].
  { exists 3%nat. eexists. split; [reflexivity|]. simpl.
    by rewrite <- !app_assoc. }
  simpl. by rewrite <- !app_assoc.
Qed.

(** Lines 19-33 never get past line 23: the acquisition raises what a
    download raised or, when the downloads return, the [TypeError] of the
    call of [JSONConfig]. *)
Lemma acquire_spec args w :
  run_acquire args w =
  match run_download args w with
  | (inr _, w') => (inl config_call_error, w')
  | (inl e, w') => (inl e, w')
  end.
Proof.
  unfold run_acquire. rewrite bind_unfold.
  destruct (run_download args w) as [[e|[]] w']; [reflexivity|].
  by rewrite bind_unfold, config_call_raises.
Qed.



(** ** The stages of a job whose report is built *)

Lemma status_only_call l d c : pres (status_only l d) (call c).
Proof. intros w Hw. unfold status_only. by rewrite (proj1 (call_heap c w)). Qed.

Lemma status_only_set_optimum l d o : pres (status_only l d) (set_optimum o).
Proof. intros w Hw. exact Hw. Qed.

Lemma delete_status_insert (d : gmap string value) v :
  delete "status" (<["status" := v]> d) = delete "status" d.
Proof.
  apply map_eq. intros k. destruct (decide (k = "status")) as [->|Hk].
  - by rewrite !lookup_delete_eq.
  - by rewrite !lookup_delete_ne, lookup_insert_ne.
Qed.

Lemma status_only_setitem l d out v :
  pres (status_only l d) (JSONOutput_setitem out "status" v).
Proof.
  intros w Hw. unfold JSONOutput_setitem, read, lift, write.
  rewrite !bind_unfold. simpl.
  destruct (store_subscript (default VNone (heap w !! output_meta out)) "status" v)
    as [e|m'] eqn:Hs; simpl; [exact Hw|].
  destruct Hw as (d' & Hd & Heq). unfold status_only. simpl.
  destruct (decide (output_meta out = l)) as [Hl|Hne].
  - rewrite Hl in *. rewrite Hd in Hs. simpl in Hs. injection Hs as <-.
    exists (<["status" := v]> d'). rewrite lookup_insert_eq.
    split; [reflexivity|]. by rewrite delete_status_insert.
  - rewrite lookup_insert_ne; eauto.
Qed.

(** Two reports that differ in their status only are saved alike after
    a failure. *)
Lemma final_report_failed (d' d : gmap string value) x :
  delete "status" d' = delete "status" d →
  <["status" := VInt (-1)]> (<["error_info" := x]> d')
  = <["status" := VInt (-1)]> (<["error_info" := x]> d).
Proof.
  intros H. apply map_eq. intros k.
  destruct (decide (k = "status")) as [->|Hk]; [by rewrite !lookup_insert_eq|].
  rewrite !(lookup_insert_ne _ "status") by done.
  destruct (decide (k = "error_info")) as [->|Hk']; [by rewrite !lookup_insert_eq|].
  rewrite !lookup_insert_ne by done.
  apply (f_equal (.!! k)) in H. by rewrite !lookup_delete_ne in H.
Qed.


(** Lines 35-41 on a report that is a dictionary: the inner boundary is
    left without raising, with status -1 and the message when the
    optimizer raised, with status 3 and an engine when it returned; the
    optimizer has made engine calls only, and the report as it will be
    saved is [final_report]. *)
Lemma inner_spec model out w d :
  heap w !! output_meta out = Some (VDict d) →
  ∃ w2 d2 st,
    run_inner model out w = (inr tt, w2) ∧
    heap w2 !! output_meta out = Some (VDict d2) ∧ d2 !! "status" = Some st ∧
    extends_by engine_call (trace w) w2 ∧
    promoted d2 = final_report d (run_optimize model out w).1 ∧
    match (run_optimize model out w).1 with
    | inl e =>
        st = VInt (-1) ∧ d2 !! "error_info" = Some (VStr (str_exn e)) ∧
        (optimum w = None →
         optimum w2 = None ∨ ∃ o, optimum w2 = Some o ∧ ansor_engine o = None)
    | inr _ =>
        st = VInt 3 ∧
        ∃ o ae, optimum w2 = Some o ∧ ansor_engine o = Some ae ∧ ready ae
    end.
Proof.
  intros Hd.
  pose proof (inner_extends (trace w) model out w (extends_refl _ _)) as Hext.
  destruct (run_optimize model out w) as [[e|[]] wx] eqn:Hopt; simpl.
  - assert (status_only (output_meta out) d wx) as (d' & Hdx & Heq).
    { assert (pres (status_only (output_meta out) d) (run_optimize model out)) as Hp
        by (apply pres_run_optimize; intros;
            auto using status_only_call, status_only_setitem, status_only_set_optimum).
      specialize (Hp w). rewrite Hopt in Hp. apply Hp. by exists d. }
    pose proof (inner_failed _ _ _ _ _ _ Hopt Hdx) as Hin. rewrite Hin in Hext.
    eexists _, _, (VInt (-1)). split; [exact Hin|]. simpl.
    split; [apply lookup_insert_eq|]. split; [apply lookup_insert_eq|].
    split; [exact Hext|]. split.
    + unfold promoted. rewrite lookup_insert_eq. simpl.
      by apply final_report_failed.
    + split; [reflexivity|]. split.
      * rewrite lookup_insert_ne; [apply lookup_insert_eq | discriminate].
      * intros Ho. eapply optimize_failed_engine; [exact Ho | exact Hopt].
  - pose proof (inner_ok _ _ _ _ Hopt) as Hin. rewrite Hin in Hext.
    destruct (optimize_returns _ _ _ _ _ Hd Hopt) as (Hh & Heng).
    eexists wx, _, (VInt 3). split; [exact Hin|].
    split; [rewrite Hh; apply lookup_insert_eq|]. split; [apply lookup_insert_eq|].
    split; [exact Hext|]. split; [|by split].
    unfold promoted. rewrite lookup_insert_eq. simpl. by rewrite insert_insert_eq.
Qed.

Lemma stages_unfold args config model out w w2 :
  run_inner model out w = (inr tt, w2) →
  run_stages args config model out w
  = (run_report out;; run_benchmark config;; run_deliver args out) w2.
Proof. intros Hin. unfold run_stages. by rewrite bind_unfold, Hin. Qed.

(** Lines 35-52 on a report that is a dictionary: the calls of the
    engine, the one save of the report, the calls of the benchmark, the
    calls of the delivery.  The save is handed [final_report]; when it
    raises, nothing follows. *)
Lemma stages_spec args config model out w d :
  heap w !! output_meta out = Some (VDict d) →
  ∃ w2 eng evl dlv,
    let c := json_dump report_file
               (VDict (final_report d (run_optimize model out w).1)) in
    let w3 := mkWorld
                (<[output_meta out :=
                     VDict (final_report d (run_optimize model out w).1)]> (heap w2))
                (optimum w2) (trace w2 ++ [(c, raises O (trace w2) c)]) in
    run_inner model out w = (inr tt, w2) ∧
    trace w2 = trace w ++ eng ∧
    Forall (λ ev : Event, engine_call ev.1 = true) eng ∧
    trace (run_stages args config model out w).2
    = trace w ++ eng ++ [(c, raises O (trace w2) c)] ++ evl ++ dlv ∧
    heap (run_stages args config model out w).2 = heap w3 ∧
    Forall (λ ev : Event, evaluate_call ev.1 = true) evl ∧
    Forall (λ ev : Event, delivery_call ev.1 = true) dlv ∧
    match raises O (trace w2) c with
    | Some e => evl = [] ∧ dlv = [] ∧
                (run_stages args config model out w).1 = inl e
    | None => trace (run_benchmark config w3).2 = trace w3 ++ evl
    end.
Proof.
  intros Hd.
  destruct (inner_spec model out w d Hd)
    as (w2 & d2 & st & Hin & Hd2 & Hst & (eng & Ht2 & Hall2) & Hfin & _).
  exists w2, eng. cbv zeta.
  rewrite (stages_unfold _ _ _ _ _ _ Hin), (body_after_inner _ _ _ _ _ _ Hd2 Hst).
  cbv zeta. rewrite Hfin.
  set (c := json_dump report_file _). set (w3 := mkWorld _ _ _).
  assert (∀ evs, trace w ++ eng ++ [(c, raises O (trace w2) c)] ++ evs
                 = trace w3 ++ evs) as Htr.
  { intros evs. unfold w3. simpl. by rewrite Ht2, <- !app_assoc. }
  destruct (raises O (trace w2) c) as [e|] eqn:Hrd.
  { exists [], []. rewrite Htr, app_nil_r. by repeat split. }
  destruct (benchmark_world config w3) as (Hh4 & _ & evl & Ht4 & Hall4).
  destruct (run_benchmark config w3) as [[e4|[]] w4]; simpl in Hh4, Ht4.
  - exists evl, []. rewrite Htr, app_nil_r. by repeat split.
  - pose proof (deliver_heap args out w4) as Hh5.
    destruct (deliver_extends (trace w4) args out w4 (extends_refl _ _))
      as (dlv & Ht5 & Hall5).
    exists evl, dlv. rewrite Htr, Ht5, Ht4, Hh5, Hh4, <- app_assoc. by repeat split.
Qed.

(** ** The dummy input of the benchmark *)

Lemma dummy_calls_cons dtype kv entries :
  dummy_calls dtype (kv :: entries)
  = np_rand kv.2 :: astype (dtype_of dtype kv.1) :: dummy_calls dtype entries.
Proof. reflexivity. Qed.

(** One entry of the dummy input, exactly. *)
Lemma dummy_array_spec self k v w :
  dummy_array self (k, v) w =
  if iterable v then
    let t1 := trace w ++ [(np_rand v, raises O (trace w) (np_rand v))] in
    match raises O (trace w) (np_rand v) with
    | Some e => (inl e, mkWorld (heap w) (optimum w) t1)
    | None =>
        match subscript (input_dtype self) k with
        | inl e => (inl e, mkWorld (heap w) (optimum w) t1)
        | inr x =>
            (match raises O t1 (astype x) with Some e => inl e | None => inr tt end,
             mkWorld (heap w) (optimum w) (t1 ++ [(astype x, raises O t1 (astype x))]))
        end
    end
  else
    (inl (TypeError
            ("RandomState.rand() argument after * must be an iterable, not "
               +:+ type_name v)), w).
Proof.
  unfold dummy_array. simpl fst. simpl snd. destruct (iterable v); [|reflexivity].
  rewrite call_step. cbv zeta. destruct (raises O (trace w) (np_rand v)); [reflexivity|].
  rewrite bind_unfold. unfold lift at 1.
  destruct (subscript (input_dtype self) k); [reflexivity|].
  unfold call. simpl. by destruct (raises O _ _).
Qed.

Lemma for_each_cons {A} (f : A → M unit) x l w :
  for_each f (x :: l) w = (f x ≫= λ _, for_each f l) w.
Proof. reflexivity. Qed.

(** The loop over the entries of [input_shape]: when it returns, every
    entry could be unpacked and had a type, and the calls are those of
    [dummy_calls]; when it raises, it has made the first [k] of these
    calls, which returned, and either the code raised or the next call
    did. *)
Lemma dummy_input_spec self entries w r w' :
  for_each (dummy_array self) entries w = (r, w') →
  let cs := dummy_calls (input_dtype self) entries in
  match r with
  | inr _ =>
      Forall (array_entry (input_dtype self)) entries ∧
      trace w' = trace w ++ returned cs
  | inl e =>
      ∃ k, (k < length cs)%nat ∧
        (trace w' = trace w ++ returned (take k cs) ∨
         ∃ c, cs !! k = Some c ∧
              trace w' = trace w ++ returned (take k cs) ++ [(c, Some e)])
  end.
Proof.
  revert w. induction entries as [|[k v] entries IH]; intros w H; cbv zeta.
  { injection H as <- <-. simpl. split; [constructor | by rewrite app_nil_r]. }
  rewrite dummy_calls_cons. simpl fst. simpl snd.
  rewrite for_each_cons, bind_unfold, dummy_array_spec in H. cbv zeta in H.
  unfold dtype_of.
  destruct (iterable v) eqn:Hit.
  2:{ injection H as <- <-.
      exists 0%nat. split; [simpl; lia|]. left. simpl. by rewrite app_nil_r. }
  destruct (raises O (trace w) (np_rand v)) as [e1|].
  { injection H as <- <-. exists 0%nat. split; [simpl; lia|]. right.
    eexists. split; reflexivity. }
  destruct (subscript (input_dtype self) k) as [e2|x] eqn:Hsub.
  { injection H as <- <-. exists 1%nat. split; [simpl; lia|]. left. reflexivity. }
  destruct (raises O _ (astype x)) as [e3|].
  { injection H as <- <-. exists 1%nat. split; [simpl; lia|]. right.
    eexists. split; [reflexivity|]. simpl. by rewrite <- app_assoc. }
  apply IH in H. cbv zeta in H. simpl trace in H.
  destruct r as [e|[]].
  - destruct H as (j & Hj & H). exists (S (S j)). split; [simpl; lia|].
    destruct H as [Ht|(c & Hc & Ht)]; [left|right; exists c; split; [exact Hc|]];
      rewrite Ht; simpl; by rewrite <- !app_assoc.
  - destruct H as [Hall Ht]. split.
    + constructor; [|exact Hall]. split; [exact Hit | by exists x].
    + rewrite Ht. simpl. by rewrite <- !app_assoc.
Qed.

(** ** The claims *)

(** C1 (as amended).  Building the report from a loaded config, lines
    32-33 of [run] on a config that [JSONConfig] has loaded from a file
    holding a JSON object, gives a report over the dictionary of the
    config whose status is 1, not 0, and whose every other field is the
    field of the config file. *)
Theorem C1_report_built_with_status_1 json_path w0 config w d :
  JSONConfig_init json_path w0 = (inr config, w) →
  config_json O = VDict d →
  ∃ w',
    run_build_report config w = (inr (JSONOutput_init config), w') ∧
    JSONOutput_getitem (JSONOutput_init config) "status" w' = (inr (VInt 1), w') ∧
    ∀ key, key ≠ "status" →
      JSONOutput_getitem (JSONOutput_init config) key w'
      = (subscript (config_json O) key, w').
Proof.
  intros Hload Hcfg.
  unfold JSONConfig_init, JSONConfig_load in Hload.
  apply bind_inr in Hload as ([] & w1 & Hc & Hload).
  apply call_inr in Hc as [_ ->].
  apply bind_inr in Hload as (l & w2 & Hal & Hload).
  unfold alloc in Hal. simpl in Hal. injection Hal as <- <-.
  injection Hload as <- <-.
  set (w1 := mkWorld _ _ _).
  assert (heap w1 !! output_meta (JSONOutput_init (mkJSONConfig (fresh (dom (heap w0)))))
          = Some (VDict d)) as Hd
    by (simpl; rewrite Hcfg; apply lookup_insert_eq).
  unfold run_build_report. cbv zeta.
  rewrite bind_unfold, (setitem_dict _ _ _ _ _ Hd).
  eexists. split; [reflexivity|].
  set (w2 := mkWorld _ _ _).
  assert (heap w2 !! output_meta (JSONOutput_init (mkJSONConfig (fresh (dom (heap w0)))))
          = Some (VDict (<["status" := VInt 1]> d))) as Hd2
    by (simpl; apply lookup_insert_eq).
  split.
  - rewrite (getitem_dict _ _ _ _ Hd2). simpl. by rewrite lookup_insert_eq.
  - intros key Hne. rewrite (getitem_dict _ _ _ _ Hd2), Hcfg. simpl.
    by rewrite lookup_insert_ne.
Qed.

(** C10.  The report shares the dictionary of the config: it refers to
    the same place in the store, so whatever is written through the
    report is read back through the config object; after the report is
    built, the config itself carries the status. *)
Theorem C10_report_aliases_config config :
  output_meta (JSONOutput_init config) = config_meta config ∧
  (∀ key v w w',
     JSONOutput_setitem (JSONOutput_init config) key v w = (inr tt, w') →
     JSONConfig_getitem config key w' = (inr v, w')) ∧
  (∀ w out w',
     run_build_report config w = (inr out, w') →
     JSONConfig_getitem config "status" w' = (inr (VInt 1), w')).
Proof.
  split; [reflexivity|].
  assert (∀ key v w w',
            JSONOutput_setitem (JSONOutput_init config) key v w = (inr tt, w') →
            JSONConfig_getitem config key w' = (inr v, w')) as Hset.
  { intros key v w w' H. apply setitem_inr in H as (d & _ & ->).
    erewrite config_getitem_dict; [|simpl; apply lookup_insert_eq].
    simpl. by rewrite lookup_insert_eq. }
  split; [exact Hset|].
  intros w out w' H. unfold run_build_report in H. cbv zeta in H.
  apply bind_inr in H as ([] & w1 & Hs & H). injection H as _ <-.
  by apply Hset in Hs.
Qed.

Lemma output_name_inj i j : output_name i = output_name j → i = j.
Proof.
  unfold output_name. intros H. apply (inj (String.append "output_")) in H.
  by apply (inj pretty) in H.
Qed.

(** The loop of [__call__]: every index met adds its output under its
    name, and nothing else changes. *)
Lemma collect_outputs_spec m indices acc :
  (∀ i, i ∈ indices → ∃ a, get_output i m = inr a) →
  ∃ outs, collect_outputs m indices acc = inr outs ∧
    dom outs = dom acc ∪ list_to_set (output_name <$> indices) ∧
    (∀ i, i ∈ indices → ∃ a, get_output i m = inr a ∧ outs !! output_name i = Some a) ∧
    (∀ key, key ∉ (output_name <$> indices) → outs !! key = acc !! key).
Proof.
  revert acc. induction indices as [|i rest IH]; intros acc Hget; simpl.
  - exists acc. split; [reflexivity|]. split; [set_solver|].
    split; [intros i Hi; by apply elem_of_nil in Hi | done].
  - destruct (Hget i) as [a Ha]; [by left|]. rewrite Ha.
    destruct (IH (<[output_name i := a]> acc)) as (outs & Hrun & Hdom & Hin & Hout).
    { intros j Hj. apply Hget. by right. }
    exists outs. split; [exact Hrun|]. split; [|split].
    + rewrite Hdom, dom_insert_L. set_solver.
    + intros j Hj. apply elem_of_cons in Hj as [Heq|Hj]; [subst j|by apply Hin].
      exists a. split; [exact Ha|].
      destruct (decide (i ∈ rest)) as [Hjr|Hjr].
      * destruct (Hin i Hjr) as (a' & Ha' & Hl). congruence.
      * rewrite Hout; [apply lookup_insert_eq|].
        intros Hmem. apply list_elem_of_fmap in Hmem as (k & Hk & Hkr).
        apply output_name_inj in Hk as ->. contradiction.
    + intros key Hkey. rewrite Hout.
      * apply lookup_insert_ne. intros <-. apply Hkey. by left.
      * intros Hmem. apply Hkey. by right.
Qed.

(** C9.  The callable that [get_model] returns wraps the engine's module;
    applied to inputs that the module accepts and runs on, it returns a
    mapping whose keys are exactly [output_0 .. output_{n-1}], with
    [output_i] bound to output [i] of the module, [n] being the number of
    outputs the module declares. *)
Theorem C9_wrapper_outputs self inputs m1 m2 :
  set_input inputs (wrapped self) = inr m1 →
  run_module m1 = inr m2 →
  (∀ i, 0 ≤ i < get_num_outputs m2 → ∃ a, get_output i m2 = inr a) →
  (∀ w o ae, optimum w = Some o → ansor_engine o = Some ae →
             module ae = Some (wrapped self) →
             Optimum_get_model w = (inr self, w)) ∧
  ∃ outs,
    GraphModuleWrapper_call self inputs = (inr outs, mkGraphModuleWrapper m2) ∧
    dom outs = list_to_set (output_name <$> seqZ 0 (get_num_outputs m2)) ∧
    ∀ i, 0 ≤ i < get_num_outputs m2 →
      ∃ a, get_output i m2 = inr a ∧ outs !! output_name i = Some a.
Proof.
  intros Hset Hrun Hget. split.
  - intros w o ae Ho Hae Hm. unfold Optimum_get_model, Optimum_self, get_optimum.
    rewrite !bind_unfold. rewrite Ho. simpl. rewrite bind_unfold, Hae. simpl.
    rewrite bind_unfold, Hm. simpl. by destruct self.
  - destruct (collect_outputs_spec m2 (seqZ 0 (get_num_outputs m2)) ∅)
      as (outs & Hc & Hdom & Hin & _).
    { intros i Hi. apply elem_of_seqZ in Hi. apply Hget. lia. }
    exists outs. unfold GraphModuleWrapper_call. rewrite Hset, Hrun, Hc.
    split; [reflexivity|]. split.
    + rewrite Hdom. set_solver.
    + intros i Hi. apply Hin. apply elem_of_seqZ. lia.
Qed.

(** C2.  With a mode other than ["ansor"], [Optimum._run] raises and
    makes no call at all, so no engine is built or run.  For ["autotvm"]
    the exception is the explicit [NotImplementedError]; for any other
    mode no branch is taken and the method fails on its unbound local
    [ae], with [UnboundLocalError] instead of an unsupported-mode error. *)
Theorem C2_modes_other_than_ansor
    self model tgt n mode out shape dtype lf verbose w :
  optimum w = Some self →
  eq_str mode "ansor" = false →
  ∃ e, Optimum__run model tgt n mode out shape dtype lf verbose w = (inl e, w) ∧
       (eq_str mode "autotvm" = true → e = NotImplementedError) ∧
       (eq_str mode "autotvm" = false → e = UnboundLocalError "ae").
Proof.
  intros Ho Hm. eexists.
  split; [exact (_run_other_mode self _ _ _ _ _ _ _ _ _ _ Ho Hm)|].
  split; intros ->; reflexivity.
Qed.

(** C5.  Once the inner boundary has set the status to -1, saving the
    report leaves it at -1: the promotion to 4 is skipped.  So when the
    optimizer stage raises, on a report that is a dictionary, the status
    is -1 after the inner boundary and at the end of the stages, and
    every report that the stages hand to [json.dump] carries status
    -1. *)
Theorem C5_failure_is_sticky args config model out w d e wx :
  heap w !! output_meta out = Some (VDict d) →
  run_optimize model out w = (inl e, wx) →
  (∀ w d, heap w !! output_meta out = Some (VDict d) →
          d !! "status" = Some (VInt (-1)) →
          field (run_report out w).2 out "status" = Some (VInt (-1))) ∧
  field (run_inner model out w).2 out "status" = Some (VInt (-1)) ∧
  field (run_stages args config model out w).2 out "status" = Some (VInt (-1)) ∧
  ∃ evs,
    trace (run_stages args config model out w).2 = trace w ++ evs ∧
    ∀ path content outcome,
      (json_dump path content, outcome) ∈ evs →
      subscript content "status" = inr (VInt (-1)).
Proof.
  intros Hd Hopt. split; [|split; [|split]].
  - intros w0 d0 Hd0 Hst. rewrite (report_spec _ _ _ _ Hd0 Hst). simpl.
    unfold field. simpl. by rewrite lookup_insert_eq.
  - destruct (inner_spec model out w d Hd)
      as (w2 & d2 & st & Hin & Hd2 & Hst & _ & _ & Hcase).
    rewrite Hopt in Hcase. simpl in Hcase. destruct Hcase as (-> & _).
    rewrite Hin. unfold field. simpl. by rewrite Hd2.
  - destruct (stages_spec args config model out w d Hd)
      as (w2 & eng & evl & dlv & Hs). cbv zeta in Hs.
    destruct Hs as (_ & _ & _ & _ & Hh & _).
    unfold field. rewrite Hh. simpl. rewrite lookup_insert_eq, Hopt. simpl.
    apply lookup_insert_eq.
  - destruct (stages_spec args config model out w d Hd)
      as (w2 & eng & evl & dlv & Hs). cbv zeta in Hs.
    destruct Hs as (_ & Ht2 & Hall2 & Ht & _ & Hallv & Halld & _).
    eexists. split; [exact Ht|].
    intros path content outcome Hin.
    rewrite !elem_of_app, list_elem_of_singleton in Hin.
    destruct Hin as [Hin|[Hin|[Hin|Hin]]].
    + by apply (Forall_kind _ _ _ _ Hall2) in Hin.
    + injection Hin as _ -> _. rewrite Hopt. simpl. by rewrite lookup_insert_eq.
    + by apply (Forall_kind _ _ _ _ Hallv) in Hin.
    + by apply (Forall_kind _ _ _ _ Halld) in Hin.
Qed.

(** C7.  On a report that is a dictionary, the inner boundary is left
    without raising, whatever [Optimizer.run] raised: the message of the
    exception is in [error_info] and the status is -1.  The stages go on
    and hand the report to [json.dump] exactly once, for the file
    [output_prefix/output_json.json], whether the optimizer raised or
    returned; the report is on disk when that one call returns.  When the
    optimizer raised, the report handed over carries the message. *)
Theorem C7_inner_boundary args config model out w d :
  heap w !! output_meta out = Some (VDict d) →
  (run_inner model out w).1 = inr tt ∧
  ∃ evs,
    trace (run_stages args config model out w).2 = trace w ++ evs ∧
    count_calls is_json_dump evs = 1%nat ∧
    (∀ path content outcome,
       (json_dump path content, outcome) ∈ evs →
       path = report_file ∧ (never_raises is_json_dump → outcome = None)) ∧
    ∀ e wx, run_optimize model out w = (inl e, wx) →
      field (run_inner model out w).2 out "error_info" = Some (VStr (str_exn e)) ∧
      field (run_inner model out w).2 out "status" = Some (VInt (-1)) ∧
      ∀ path content outcome,
        (json_dump path content, outcome) ∈ evs →
        subscript content "error_info" = inr (VStr (str_exn e)).
Proof.
  intros Hd.
  destruct (inner_spec model out w d Hd)
    as (w2 & d2 & st & Hin & Hd2 & Hst & _ & _ & Hcase).
  destruct (stages_spec args config model out w d Hd)
    as (w2' & eng & evl & dlv & Hs). cbv zeta in Hs.
  destruct Hs as (Hin' & Ht2 & Hall2 & Ht & _ & Hallv & Halld & _).
  rewrite Hin in Hin'. injection Hin' as <-.
  split; [by rewrite Hin|].
  eexists. split; [exact Ht|].
  assert (∀ path content outcome,
            (json_dump path content, outcome)
            ∈ eng ++ [(json_dump report_file
                         (VDict (final_report d (run_optimize model out w).1)),
                       raises O (trace w2)
                         (json_dump report_file
                            (VDict (final_report d (run_optimize model out w).1))))]
                  ++ evl ++ dlv →
            path = report_file ∧
            content = VDict (final_report d (run_optimize model out w).1) ∧
            outcome = raises O (trace w2) (json_dump path content)) as Hdump.
  { intros path content outcome Hmem.
    rewrite !elem_of_app, list_elem_of_singleton in Hmem.
    destruct Hmem as [Hmem|[Hmem|[Hmem|Hmem]]].
    - by apply (Forall_kind _ _ _ _ Hall2) in Hmem.
    - by injection Hmem as -> -> ->.
    - by apply (Forall_kind _ _ _ _ Hallv) in Hmem.
    - by apply (Forall_kind _ _ _ _ Halld) in Hmem. }
  split; [|split].
  - rewrite !count_calls_app, count_calls_one.
    rewrite (count_calls_none is_json_dump engine_call eng); [|by intros []|done].
    rewrite (count_calls_none is_json_dump evaluate_call evl); [|by intros []|done].
    rewrite (count_calls_none is_json_dump delivery_call dlv); [|by intros []|done].
    reflexivity.
  - intros path content outcome Hmem.
    apply Hdump in Hmem as (-> & _ & ->). split; [reflexivity|].
    intros Hq. by apply Hq.
  - intros e wx Hfail. rewrite Hfail in Hcase. simpl in Hcase.
    destruct Hcase as (-> & Herr & _). rewrite Hin. unfold field. simpl.
    rewrite Hd2. split; [exact Herr|]. split; [exact Hst|].
    intros path content outcome Hmem.
    apply Hdump in Hmem as (_ & -> & _). rewrite Hfail. simpl.
    rewrite lookup_insert_ne by done. by rewrite lookup_insert_eq.
Qed.


(** A search and a rename that return: the status is set to 2, and the
    method goes on as [ansor_compile] on the renamed record. *)
Lemma tuning_enters_compile self n v w d :
  heap w !! output_meta (out_json self) = Some (VDict d) →
  search_returns self n v w → rename_returns self n v w →
  ansor_run_tuning self n v w
  = ansor_compile
      (set_log_file (set_log_file self (VStr (tuning_log self)))
         (VStr (renamed_log self)))
      (VStr (renamed_log self))
      (mkWorld (<[output_meta (out_json self) := VDict (<["status" := VInt 2]> d)]>
                  (heap w))
         (optimum w) (trace w ++ returned (search_calls self n v))).
Proof.
  intros Hd [Hs1 Hs2] Hr.
  unfold rename_returns, rename_call, finished_path in Hr. cbv zeta in *.
  unfold ansor_run_tuning. cbv zeta.
  change (tuning_log (set_log_file self (VStr (tuning_log self))))
    with (tuning_log self).
  simpl target. rewrite call_step, Hs1. cbv beta iota.
  rewrite call_step. simpl trace. rewrite Hs2. cbv beta iota.
  rewrite call_step. simpl trace. rewrite <- app_assoc. simpl app.
  match goal with
  | |- context [raises O ?t ?c] =>
      replace (raises O t c) with (@None exn) by (symmetry; exact Hr)
  end.
  cbv beta iota.
  rewrite bind_unfold. erewrite setitem_dict; [|simpl; exact Hd].
  simpl. unfold search_calls, returned, renamed_log, rename_call, finished_path.
  simpl. by rewrite <- !app_assoc.
Qed.

(** C4 (as amended).  The record is renamed to its "_finished" form, the
    name with ["_finished"] between stem and suffix in the same directory,
    exactly when the search and then the rename return.  The status is
    then set to 2 and [ansor_compile] is entered on the renamed record,
    whatever happens next: a [run_tuning] that returns has renamed the
    record and leaves status 3, one whose chained compile raises leaves
    the record renamed and status 2.  A failure during the search leaves
    the record un-renamed and the report as it was. *)
Theorem C4_record_renamed_after_search self n v w d r w' :
  heap w !! output_meta (out_json self) = Some (VDict d) →
  ansor_run_tuning self n v w = (r, w') →
  let p := parse_path (tuning_log self) in
  let renamed : Event := (rename_call self, None) in
  (rename_call self = rename (path_str p) (path_str (finished_path p)) ∧
   path_name p = path_stem p +:+ path_suffix p ∧
   path_name (finished_path p) = (path_stem p +:+ "_finished") +:+ path_suffix p ∧
   path_parent (finished_path p) = path_parent p) ∧
  ∃ evs, trace w' = trace w ++ evs ∧
    (renamed ∈ evs ↔ search_returns self n v w ∧ rename_returns self n v w) ∧
    (∀ ae, r = inr ae →
       renamed ∈ evs ∧ field w' (out_json self) "status" = Some (VInt 3)) ∧
    (renamed ∈ evs →
       (∃ rb, (relay_build (VStr (renamed_log self)) (target self), rb) ∈ evs) ∧
       (∃ self2 w2,
          out_json self2 = out_json self ∧
          field w2 (out_json self) "status" = Some (VInt 2) ∧
          trace w2 = trace w ++ returned (search_calls self n v) ∧
          ansor_compile self2 (VStr (renamed_log self)) w2 = (r, w')) ∧
       field w' (out_json self) "status"
       = Some (VInt (match r with inr _ => 3 | inl _ => 2 end))) ∧
    (¬ search_returns self n v w →
       (∃ e, r = inl e) ∧ heap w' = heap w ∧
       ∀ s t o, (rename s t, o) ∉ evs).
Proof.
  intros Hd H p renamed. split.
  { destruct (finished_path_spec (tuning_log self)) as (_ & Hn & Hp & Hpar).
    by repeat split. }
  destruct (tuning_spec _ _ _ _ _ _ _ Hd H) as [_ Hcases].
  unfold renamed, rename_call in *. fold p in Hcases |- *.
  destruct Hcases as [(e & -> & Hh & Ht & Hs)|[(e & -> & Hh & Ht & Hs)
    |[(e & -> & Hh & Ht & Hs & Hr)|(rb & evs & Ht & _ & Hs & Hr & Hres)]]].
  - eexists. split; [exact Ht|]. rewrite !elem_of_cons, !elem_of_nil.
    split; [naive_solver|]. split; [naive_solver|]. split; [naive_solver|].
    intros _. split; [eauto|]. split; [exact Hh|].
    intros s t o. rewrite !elem_of_cons, !elem_of_nil. naive_solver.
  - eexists. split; [exact Ht|]. rewrite !elem_of_cons, !elem_of_nil.
    split; [naive_solver|]. split; [naive_solver|]. split; [naive_solver|].
    intros _. split; [eauto|]. split; [exact Hh|].
    intros s t o. rewrite !elem_of_cons, !elem_of_nil. naive_solver.
  - eexists. split; [exact Ht|]. rewrite !elem_of_cons, !elem_of_nil.
    split; [naive_solver|]. split; [naive_solver|]. split; [naive_solver|].
    intros Hns. contradiction.
  - eexists. split; [exact Ht|].
    assert (((rename (path_str p) (path_str (finished_path p)), None) : Event)
            ∈ (extract_tasks (target self), None)
              :: (tune n v (tuning_log self), None)
              :: (rename (path_str p) (path_str (finished_path p)), None)
              :: (relay_build (VStr (renamed_log self)) (target self), rb) :: evs)
      as Hmem by (do 2 right; left).
    split; [by split|]. split; [|split].
    + intros ae ->. split; [exact Hmem|]. destruct Hres as (_ & _ & Hh).
      unfold field. rewrite Hh, lookup_insert_eq. apply lookup_insert_eq.
    + intros _. split; [exists rb; do 3 right; left|]. split.
      * eexists _, _. split; [|split; [|split]];
          [| | |rewrite <- (tuning_enters_compile self n v w d Hd Hs Hr); exact H].
        -- reflexivity.
        -- unfold field. simpl. rewrite lookup_insert_eq. apply lookup_insert_eq.
        -- reflexivity.
      * unfold field. destruct r as [e|ae].
        -- rewrite Hres, lookup_insert_eq. apply lookup_insert_eq.
        -- destruct Hres as (_ & _ & ->). rewrite lookup_insert_eq.
           apply lookup_insert_eq.
    + intros Hns. contradiction.
Qed.

(** C6.  In mode ["ansor"], once the engine is built: with a
    non-empty [tuned_log] the optimizer goes straight into
    [ansor_compile] on that log and makes no call of the search at all;
    with an empty [tuned_log] it enters [ansor_run_tuning], whose search is
    given [num_measure_trials] and [verbose_print] of the config, and
    [relay.build] is reached only through that method, after the rename
    and on the renamed record. *)
Theorem C6_cache_decision
    model out w d self name tgt n lf shape dtype verbose r w' :
  heap w !! output_meta out = Some (VDict d) →
  config_fields d tgt n (VStr "ansor") (VStr lf) shape dtype verbose →
  optimum w = Some self → model_name self = VStr name →
  raises O (trace w) (from_onnx shape dtype) = None →
  Optimum_run model out w = (r, w') →
  let ae := mkAnsorEngine (replace_char "/" "_" name) tgt shape dtype out
              None None None in
  ∃ evs, trace w' = trace w ++ (from_onnx shape dtype, None) :: evs ∧
    if String.eqb lf "" then
      (∃ r1 evs', evs = (extract_tasks tgt, r1) :: evs') ∧
      (∀ n' v' f o, (tune n' v' f, o) ∈ evs → n' = n ∧ v' = verbose) ∧
      (∀ h t o, (relay_build h t, o) ∈ evs →
                (rename_call ae, None) ∈ evs ∧ h = VStr (renamed_log ae))
    else
      (∃ rb evs', evs = (relay_build (VStr lf) tgt, rb) :: evs' ∧
                  Forall (λ ev : Event, artifact_call ev.1 = true) evs') ∧
      Forall (λ ev : Event, search_call ev.1 = false) evs.
Proof.
  intros Hd Hfields Ho Hname Hinit Hrun ae.
  rewrite (optimum_run_reads _ _ _ _ _ _ _ _ _ _ _ Hd Hfields) in Hrun.
  rewrite (_run_ansor self model tgt n (VStr "ansor") out shape dtype (VStr lf)
             verbose w Ho eq_refl) in Hrun.
  rewrite Hname, bind_unfold, engine_init_spec in Hrun. cbv zeta in Hrun.
  rewrite Hinit in Hrun. fold ae in Hrun. simpl eq_str in Hrun.
  set (w1 := mkWorld (heap w) (optimum w) (trace w ++ [(from_onnx shape dtype, None)]))
    in Hrun.
  destruct (String.eqb lf "") eqn:Hlf; simpl negb in Hrun; cbv iota in Hrun.
  - destruct (ansor_run_tuning ae n verbose w1) as [r2 w2] eqn:Htune.
    assert (trace w' = trace w2) as ->.
    { rewrite bind_unfold, Htune in Hrun. destruct r2; by injection Hrun as _ <-. }
    eapply tuning_spec in Htune as [_ Hcases]; [|exact Hd]. simpl in Hcases.
    destruct Hcases as [(e & _ & _ & Ht & _)|[(e & _ & _ & Ht & _)
      |[(e & _ & _ & Ht & _)|(rb & evs & Ht & Hall & _)]]];
      rewrite Ht, <- app_assoc; (eexists; split; [reflexivity|]);
      (split; [eauto|]).
    + split; intros *; rewrite !elem_of_cons, !elem_of_nil; naive_solver.
    + split; intros *; rewrite !elem_of_cons, !elem_of_nil; naive_solver.
    + split; intros *; rewrite !elem_of_cons, !elem_of_nil; naive_solver.
    + split.
      * intros n' v' f o. rewrite !elem_of_cons. intros [?|[?|[?|[?|Hin]]]];
          try naive_solver.
        by apply (artifact_not_member _ _ _ Hall) in Hin.
      * intros h t o. rewrite !elem_of_cons. intros [?|[?|[?|[Heq|Hin]]]];
          try discriminate.
        -- injection Heq as -> -> ->. split; [|reflexivity]. by do 2 right; left.
        -- by apply (artifact_not_member _ _ _ Hall) in Hin.
  - destruct (ansor_compile ae (VStr lf) w1) as [r2 w2] eqn:Hcomp.
    assert (trace w' = trace w2) as ->.
    { rewrite bind_unfold, Hcomp in Hrun. destruct r2; by injection Hrun as _ <-. }
    eapply (compile_spec _ _ (VStr lf)) in Hcomp
      as (_ & rb & evs & Ht & Hall & _); [|by simpl; rewrite Hlf].
    simpl in Ht. rewrite Ht, <- app_assoc.
    eexists. split; [reflexivity|]. split; [eauto|].
    constructor; [reflexivity|].
    eapply Forall_impl; [exact Hall|]. intros [c o]. simpl. by destruct c.
Qed.


(** ** Further properties of the engine *)

(** An [ansor_compile] that returns has made exactly the calls of
    [compile_calls], all of which returned. *)
Lemma compile_returns self lf w ae w' :
  ansor_compile self lf w = (inr ae, w') →
  ∃ h, log_file ae = Some h ∧
       (if truthy lf then h = lf else log_file self = Some h) ∧
       trace w' = trace w ++ returned (compile_calls h (target self)) ∧
       ready ae ∧ field w' (out_json self) "status" = Some (VInt 3).
Proof.
  intros H. rewrite compile_unfold in H. cbv zeta in H.
  assert (target (if truthy lf then set_log_file self lf else self) = target self
          ∧ out_json (if truthy lf then set_log_file self lf else self) = out_json self)
    as [Htg Hout] by (by destruct (truthy lf)).
  destruct (log_file (if truthy lf then set_log_file self lf else self))
    as [h|] eqn:Hlog; [|discriminate].
  simpl in H. rewrite bind_ret_l, Htg in H.
  call_returns H. unfold compile_rest, AnsorEngine__save in H.
  call_returns H.
  apply bind_inr in H as ([] & w3 & Hs & H).
  call_returns Hs. call_returns Hs. apply call_inr in Hs as [_ ->].
  call_returns H. call_returns H.
  apply bind_inr in H as ([] & w4 & Hs & H).
  apply setitem_inr in Hs as (d & Hd & ->). injection H as <- <-.
  exists h. split; [exact Hlog|].
  split; [destruct (truthy lf); simpl in Hlog; congruence|].
  rewrite Htg, Hout. simpl. split.
  { rewrite <- !app_assoc. reflexivity. }
  split; [split; [reflexivity | by eexists]|].
  unfold field. simpl. rewrite lookup_insert_eq. apply lookup_insert_eq.
Qed.

(** X3.  [ansor_compile], however it ends.  When it returns it has built from
    the log it was given, or, given none, from the log the engine held;
    it has made exactly the calls of [compile_calls], so the three
    artifacts are under [output_prefix/optimized_model]; the engine holds
    the module and the status is 3.  When it raises, the report is as it
    was: the status is written last. *)
Theorem compile_writes_artifacts self lf w r w' :
  ansor_compile self lf w = (r, w') →
  match r with
  | inr ae =>
      ∃ h, log_file ae = Some h ∧
           (if truthy lf then h = lf else log_file self = Some h) ∧
           trace w' = trace w ++ returned (compile_calls h (target self)) ∧
           ready ae ∧ field w' (out_json self) "status" = Some (VInt 3)
  | inl _ => heap w' = heap w
  end.
Proof.
  intros H. destruct r as [e|ae]; [|by apply compile_returns].
  destruct (log_file (if truthy lf then set_log_file self lf else self))
    as [h|] eqn:Hlog.
  - by destruct (compile_spec _ _ _ _ _ _ Hlog H) as (_ & rb & evs & _ & _ & Hh).
  - rewrite (compile_no_log _ _ _ Hlog) in H. by injection H as _ <-.
Qed.

(** X4.  An [evaluate] that returns has timed the module, made an array
    for every entry of [input_shape], which is then a dictionary whose
    every shape can be unpacked and has a type under its key in
    [input_dtype], timed the reference model at [input_prefix/model.onnx]
    and written [output_prefix/inference_time.csv], in this order.  One
    that raises has made the first calls of this list, which returned,
    but not the last one, the CSV; it stopped there because the next call
    raised or because the code itself did: on an engine that was never
    compiled, before any call; on shapes that are not a dictionary, after
    the timed run of the module.  The report is left alone. *)
Theorem evaluate_writes_csv self w r w' :
  AnsorEngine_evaluate self w = (r, w') →
  heap w' = heap w ∧
  (module self = None ∨ device self = None → trace w' = trace w) ∧
  match r with
  | inr _ =>
      is_Some (module self) ∧ is_Some (device self) ∧
      (∃ sd, input_shape self = VDict sd ∧
             Forall (array_entry (input_dtype self)) (item_order O sd)) ∧
      trace w' = trace w ++ returned (evaluate_calls self)
  | inl e =>
      ∃ k, (k < length (evaluate_calls self))%nat ∧
        (trace w' = trace w ++ returned (take k (evaluate_calls self)) ∨
         ∃ c, evaluate_calls self !! k = Some c ∧
              trace w' = trace w ++ returned (take k (evaluate_calls self))
                           ++ [(c, Some e)])
  end.
Proof.
  intros H. split.
  { pose proof (evaluate_heap (heap w) self w eq_refl) as Hh. by rewrite H in Hh. }
  unfold AnsorEngine_evaluate in H. unfold evaluate_calls, entries_of.
  destruct (module self) as [m|] eqn:Hm; simpl getattr in H.
  2:{ injection H as <- <-. split; [done|]. exists 0%nat.
      split; [simpl; lia|]. left. simpl. by rewrite app_nil_r. }
  rewrite bind_ret_l in H.
  destruct (device self) as [dv|] eqn:Hdv; simpl getattr in H.
  2:{ injection H as <- <-. split; [done|]. exists 0%nat.
      split; [simpl; lia|]. left. simpl. by rewrite app_nil_r. }
  rewrite bind_ret_l in H. split; [by intros [?|?]|].
  rewrite call_step in H.
  destruct (raises O (trace w) benchmark) as [e1|] eqn:H1.
  { injection H as <- <-. exists 0%nat. split; [simpl; lia|]. right.
    eexists. split; reflexivity. }
  rewrite bind_unfold in H. unfold lift at 1 in H.
  destruct (items (input_shape self)) as [e2|entries] eqn:Hit.
  { injection H as <- <-. exists 1%nat. split; [simpl; lia|]. left. reflexivity. }
  assert (∃ sd, input_shape self = VDict sd ∧ entries = item_order O sd) as (sd & Hsd & ->).
  { destruct (input_shape self); try discriminate. injection Hit as <-. eauto. }
  set (cs := dummy_calls (input_dtype self) (item_order O sd)) in *.
  rewrite bind_unfold in H.
  destruct (for_each (dummy_array self) (item_order O sd) _) as [[e3|[]] w3] eqn:Hloop.
  { injection H as <- <-. apply dummy_input_spec in Hloop. cbv zeta in Hloop.
    fold cs in Hloop. destruct Hloop as (j & Hj & Hloop). exists (S j).
    split; [simpl; rewrite length_app; lia|]. simpl trace in Hloop.
    rewrite firstn_cons, take_app_le by lia.
    destruct Hloop as [Ht|(c & Hc & Ht)]; [left|right; exists c; split].
    - rewrite Ht. simpl. by rewrite <- app_assoc.
    - simpl. by rewrite lookup_app_l.
    - rewrite Ht. simpl. by rewrite <- !app_assoc. }
  apply dummy_input_spec in Hloop. cbv zeta in Hloop. fold cs in Hloop.
  destruct Hloop as [Hall Ht3]. simpl trace in Ht3.
  rewrite call_step in H.
  destruct (raises O (trace w3) _) as [e4|] eqn:H4.
  { injection H as <- <-. exists (S (length cs)).
    split; [simpl; rewrite length_app; simpl; lia|]. right.
    eexists. split.
    - simpl. rewrite lookup_app_r by lia. by rewrite Nat.sub_diag.
    - simpl. rewrite take_app_length, Ht3. simpl.
      by rewrite ?returned_app, <- ?app_assoc. }
  unfold call in H. simpl trace in H.
  destruct (raises O _ (to_csv _)) as [e5|] eqn:H5.
  { injection H as <- <-. exists (S (S (length cs))).
    split; [simpl; rewrite length_app; simpl; lia|]. right.
    eexists. split.
    - simpl. rewrite lookup_app_r by lia.
      by replace (S (length cs) - length cs)%nat with 1%nat by lia.
    - simpl. rewrite take_app_ge by lia.
      replace (S (length cs) - length cs)%nat with 1%nat by lia.
      rewrite Ht3. simpl. rewrite ?returned_app. simpl.
      by rewrite <- ?app_assoc. }
  injection H as <- <-. split; [by eexists|]. split; [by eexists|].
  split; [eauto|]. simpl. rewrite Ht3. simpl. rewrite ?returned_app. simpl.
  by rewrite <- ?app_assoc.
Qed.

(** X28.  [evaluate] needs a dictionary of shapes.  On a compiled engine
    whose [input_shape] is not a dictionary, [evaluate] times the module
    and then raises [AttributeError], since only a dictionary has
    [items]: the reference model is not run and no CSV is written. *)
Theorem evaluate_needs_shape_dictionary self w :
  ready self → (∀ sd, input_shape self ≠ VDict sd) →
  raises O (trace w) benchmark = None →
  AnsorEngine_evaluate self w
  = (inl (AttributeError
            ("'" +:+ type_name (input_shape self)
               +:+ "' object has no attribute 'items'")),
     mkWorld (heap w) (optimum w) (trace w ++ [(benchmark, None)])).
Proof.
  intros (Hm & dv & Hdv) Hshape Hb. unfold AnsorEngine_evaluate.
  rewrite Hm, Hdv. simpl getattr. rewrite !bind_ret_l, call_step, Hb.
  rewrite bind_unfold. unfold lift at 1.
  destruct (input_shape self) as [| | | | | |sd]; try reflexivity.
  by destruct (Hshape sd).
Qed.

(** ** Further properties of the job *)

(** X5.  [run] raises exactly when the body of the outer [try] raised and the
    failure notification for it raised too; what [run] raises is then the
    exception of the notification. *)
Theorem run_raises_only_from_notification args w e :
  (run args w).1 = inl e ↔
  ∃ e0, (run_body args w).1 = inl e0 ∧
        raises O (trace (run_body args w).2) (failure_message args e0) = Some e.
Proof.
  rewrite run_unfold. unfold failure_message.
  destruct (run_body args w) as [[e0|[]] wb]; simpl.
  - unfold call. destruct (raises O (trace wb) _) as [e1|] eqn:Hr; simpl.
    + split.
      * intros [= ->]. eauto.
      * intros (e2 & [= <-] & He). congruence.
    + split; [discriminate|]. intros (e2 & [= <-] & He). congruence.
  - split; [discriminate|]. by intros (? & ? & _).
Qed.


(** X7.  Whatever lines 35-52 hand to [json.dump] is the report they were
    entered with, a dictionary, with the status 4 when the optimizer
    stage returned, or with [error_info] and the status -1 when it
    raised, and it goes to [output_prefix/output_json.json]: no other
    field is added, dropped or changed. *)
Theorem saved_report_is_final_report
    args config model out w d evs path content outcome :
  heap w !! output_meta out = Some (VDict d) →
  trace (run_stages args config model out w).2 = trace w ++ evs →
  (json_dump path content, outcome) ∈ evs →
  path = report_file ∧
  content = VDict (final_report d (run_optimize model out w).1).
Proof.
  intros Hd Hevs Hin.
  destruct (stages_spec args config model out w d Hd)
    as (w2 & eng & evl & dlv & Hs). cbv zeta in Hs.
  destruct Hs as (_ & Ht2 & Hall2 & Ht & _ & Hallv & Halld & _).
  rewrite Ht in Hevs. apply app_inv_head in Hevs. subst evs.
  rewrite !elem_of_app, list_elem_of_singleton in Hin.
  destruct Hin as [Hin|[Hin|[Hin|Hin]]].
  - by apply (Forall_kind _ _ _ _ Hall2) in Hin.
  - by injection Hin as -> -> _.
  - by apply (Forall_kind _ _ _ _ Hallv) in Hin.
  - by apply (Forall_kind _ _ _ _ Halld) in Hin.
Qed.


(** X9.  The calls of lines 35-52 come in phases that do not mix: the
    engine, the one save of the report, the benchmark, the delivery.
    Within these lines nothing follows a save that raised. *)
Theorem pipeline_phases args config model out w d :
  heap w !! output_meta out = Some (VDict d) →
  ∃ eng d' rd evl dlv,
    trace (run_stages args config model out w).2
    = trace w ++ eng ++ (json_dump report_file (VDict d'), rd) :: evl ++ dlv ∧
    Forall (λ ev : Event, engine_call ev.1 = true) eng ∧
    Forall (λ ev : Event, evaluate_call ev.1 = true) evl ∧
    Forall (λ ev : Event, delivery_call ev.1 = true) dlv ∧
    (evl ++ dlv ≠ [] → rd = None).
Proof.
  intros Hd.
  destruct (stages_spec args config model out w d Hd)
    as (w2 & eng & evl & dlv & Hs). cbv zeta in Hs.
  destruct Hs as (_ & Ht2 & Hall2 & Ht & _ & Hallv & Halld & Hrd).
  eexists eng, _, _, evl, dlv. split; [exact Ht|].
  split; [exact Hall2|]. split; [exact Hallv|]. split; [exact Halld|].
  intros Hne. destruct (raises O _ _); [|reflexivity].
  destruct Hrd as (-> & -> & _). by destruct Hne.
Qed.

(** ** Further properties of the acquisition *)

(** X10.  The acquisition of lines 19-33 never returns.  [run] calls
    [JSONConfig] with two arguments where its initializer takes one, so
    once the downloads of a remote job have returned, line 23 raises
    [TypeError]: the config file is not opened, the model is not
    converted, no report is built.  The calls of an acquisition are the
    downloads of [fetch_calls], in order and up to the first that
    raises, and none in local mode; the store is left as it was. *)
Theorem acquisition_stops_at_config args w :
  ∃ e w',
    run_acquire args w = (inl e, w') ∧ heap w' = heap w ∧
    ((e = config_call_error ∧ trace w' = trace w ++ returned (fetch_calls args)) ∨
     (∃ k c, fetch_calls args !! k = Some c ∧
        trace w' = trace w ++ returned (take k (fetch_calls args)) ++ [(c, Some e)])) ∧
    ((env args =? GOOGLESTORAGE) = false →
     e = config_call_error ∧ trace w' = trace w).
Proof.
  pose proof (download_spec args w) as Hd.
  destruct (download_world args w) as [Hh _].
  rewrite acquire_spec.
  destruct (run_download args w) as [[e|[]] w'] eqn:Hrun; simpl in *.
  - exists e, w'. split; [reflexivity|]. split; [exact Hh|]. split; [by right|].
    intros Henv. destruct Hd as (k & c & Hc & _). unfold fetch_calls in Hc.
    by rewrite Henv in Hc.
  - exists config_call_error, w'. split; [reflexivity|]. split; [exact Hh|].
    split; [by left|]. intros Henv. split; [reflexivity|].
    rewrite Hd. unfold fetch_calls. rewrite Henv. simpl. by rewrite app_nil_r.
Qed.

(** ** Further properties of the optimizer *)

Lemma eq_str_true v s : eq_str v s = true → v = VStr s.
Proof.
  destruct v; simpl; try discriminate. intros H. by apply String.eqb_eq in H as ->.
Qed.

(** [Optimum.run] reads all its arguments from the report before it
    enters [_run]; when one is missing it raises with the world as it
    was. *)
Lemma optimum_run_cases model out w d r w' :
  heap w !! output_meta out = Some (VDict d) →
  Optimum_run model out w = (r, w') →
  (∃ tgt n mode lf shape dtype verbose,
     config_fields d tgt n mode lf shape dtype verbose ∧
     Optimum__run model tgt n mode out shape dtype lf verbose w = (r, w'))
  ∨ (w' = w ∧ (∃ e, r = inl e) ∧
     ¬ ∃ tgt n mode lf shape dtype verbose,
         config_fields d tgt n mode lf shape dtype verbose).
Proof.
  intros Hd H. unfold Optimum_run in H.
  rewrite bind_unfold, (getitem_dict _ _ _ _ Hd) in H. simpl in H.
  destruct (d !! "target") as [tgt|] eqn:Htgt.
  2:{ injection H as <- <-. right. split; [done|]. split; [by eexists|].
      intros (? & ? & ? & ? & ? & ? & ? & Hf & _). congruence. }
  rewrite bind_unfold, (getitem_dict _ _ _ _ Hd) in H. simpl in H.
  destruct (d !! "tuning_config") as [tc|] eqn:Htc.
  2:{ injection H as <- <-. right. split; [done|]. split; [by eexists|].
      intros (? & ? & ? & ? & ? & ? & ? & _ & _ & (? & Hf & _) & _). congruence. }
  rewrite bind_unfold in H. unfold lift at 1 in H.
  destruct (subscript tc "num_measure_trials") as [e|n] eqn:Hn.
  { injection H as <- <-. right. split; [done|]. split; [by eexists|].
    intros (? & ? & ? & ? & ? & ? & ? & _ & _ & (? & Hf & Hf' & _) & _). congruence. }
  rewrite bind_unfold, (getitem_dict _ _ _ _ Hd) in H. simpl in H. rewrite Htc in H.
  rewrite bind_unfold in H. unfold lift at 1 in H.
  destruct (subscript tc "mode") as [e|mode] eqn:Hmode.
  { injection H as <- <-. right. split; [done|]. split; [by eexists|].
    intros (? & ? & ? & ? & ? & ? & ? & _ & _ & (? & Hf & _ & Hf' & _) & _).
    congruence. }
  rewrite bind_unfold, (getitem_dict _ _ _ _ Hd) in H. simpl in H.
  destruct (d !! "tuned_log") as [lf|] eqn:Hlf.
  2:{ injection H as <- <-. right. split; [done|]. split; [by eexists|].
      intros (? & ? & ? & ? & ? & ? & ? & _ & Hf & _). congruence. }
  rewrite bind_unfold, (getitem_dict _ _ _ _ Hd) in H. simpl in H.
  destruct (d !! "model_config") as [mc|] eqn:Hmc.
  2:{ injection H as <- <-. right. split; [done|]. split; [by eexists|].
      intros (? & ? & ? & ? & ? & ? & ? & _ & _ & _ & (? & Hf & _)). congruence. }
  rewrite bind_unfold in H. unfold lift at 1 in H.
  destruct (subscript mc "input_shape") as [e|shape] eqn:Hshape.
  { injection H as <- <-. right. split; [done|]. split; [by eexists|].
    intros (? & ? & ? & ? & ? & ? & ? & _ & _ & _ & (? & Hf & Hf' & _)). congruence. }
  rewrite bind_unfold, (getitem_dict _ _ _ _ Hd) in H. simpl in H. rewrite Hmc in H.
  rewrite bind_unfold in H. unfold lift at 1 in H.
  destruct (subscript mc "input_dtype") as [e|dtype] eqn:Hdtype.
  { injection H as <- <-. right. split; [done|]. split; [by eexists|].
    intros (? & ? & ? & ? & ? & ? & ? & _ & _ & _ & (? & Hf & _ & Hf')). congruence. }
  rewrite bind_unfold, (getitem_dict _ _ _ _ Hd) in H. simpl in H. rewrite Htc in H.
  rewrite bind_unfold in H. unfold lift at 1 in H.
  destruct (subscript tc "verbose_print") as [e|verbose] eqn:Hverbose.
  { injection H as <- <-. right. split; [done|]. split; [by eexists|].
    intros (? & ? & ? & ? & ? & ? & ? & _ & _ & (? & Hf & _ & _ & Hf') & _).
    congruence. }
  left. exists tgt, n, mode, lf, shape, dtype, verbose. split; [|exact H].
  repeat split; eauto.
Qed.

(** X11.  The optimizer calls nothing and changes nothing unless the report
    holds every field that [Optimum.run] reads ([target], [tuned_log],
    the three fields of [tuning_config] and the two of [model_config]),
    the mode is ["ansor"] and [model_name] is a string: short of that it
    raises with the world as it was. *)
Theorem optimizer_needs_its_fields model out w d self r w' :
  heap w !! output_meta out = Some (VDict d) →
  optimum w = Some self →
  Optimum_run model out w = (r, w') →
  w' ≠ w →
  (∃ name, model_name self = VStr name) ∧
  ∃ tgt n lf shape dtype verbose,
    config_fields d tgt n (VStr "ansor") lf shape dtype verbose ∧
    ∃ evs, trace w' = trace w ++ (from_onnx shape dtype,
                                   raises O (trace w) (from_onnx shape dtype)) :: evs.
Proof.
  intros Hd Ho H Hne.
  destruct (optimum_run_cases _ _ _ _ _ _ Hd H)
    as [(tgt & n & mode & lf & shape & dtype & verbose & Hf & Hr)|(-> & _)]; [|done].
  destruct (eq_str mode "ansor") eqn:Hmode.
  2:{ rewrite (_run_other_mode _ _ _ _ _ _ _ _ _ _ _ Ho Hmode) in Hr.
      by injection Hr as _ <-. }
  apply eq_str_true in Hmode as ->.
  rewrite (_run_ansor self model tgt n (VStr "ansor") out shape dtype lf verbose
             w Ho eq_refl) in Hr.
  destruct (model_name self) as [| | | |name| |] eqn:Hname;
    try (simpl in Hr; by injection Hr as _ <-).
  split; [by eexists|]. exists tgt, n, lf, shape, dtype, verbose. split; [exact Hf|].
  rewrite bind_unfold, engine_init_spec in Hr. cbv zeta in Hr.
  destruct (raises O (trace w) (from_onnx shape dtype)) as [e|] eqn:Hraise.
  { injection Hr as _ <-. by exists []. }
  set (w1 := mkWorld _ _ _) in Hr. set (ae := mkAnsorEngine _ _ _ _ _ _ _ _) in Hr.
  assert (pres (extends_by engine_call (trace w1))
            (ae' ← (if negb (eq_str lf "") then ansor_compile ae lf
                    else ansor_run_tuning ae n verbose);
             set_optimum (mkOptimum (VStr name) (Some ae') (Some model)))) as Hp.
  { apply pres_bind; [|intros; apply extends_set_optimum].
    destruct (negb (eq_str lf ""));
      [apply pres_compile|apply pres_run_tuning]; intros;
      auto using extends_call, extends_setitem. }
  specialize (Hp w1 (extends_refl _ _)). rewrite Hr in Hp.
  destruct Hp as (evs & Ht & _). simpl in Ht. exists evs.
  by rewrite Ht, <- app_assoc.
Qed.

(** An [ansor_run_tuning] that returns has searched, renamed the record
    and compiled from the renamed record, and nothing else. *)
Lemma tuning_returns self n v w ae w' :
  ansor_run_tuning self n v w = (inr ae, w') →
  trace w' = trace w ++ returned (search_calls self n v)
               ++ returned (compile_calls (VStr (renamed_log self)) (target self)) ∧
  ready ae.
Proof.
  intros H. unfold ansor_run_tuning in H. cbv zeta in H.
  call_returns H. call_returns H. call_returns H.
  apply bind_inr in H as ([] & w1 & Hs & H).
  apply setitem_inr in Hs as (d & _ & ->).
  apply compile_returns in H as (h & _ & Hh & Ht & Hready & _).
  split; [|exact Hready].
  assert (h = VStr (renamed_log self)) as ->.
  { simpl in Hh.
    match type of Hh with
    | if ?b then _ else _ => destruct b; [exact Hh | by injection Hh]
    end. }
  rewrite Ht. simpl. rewrite <- !app_assoc. reflexivity.
Qed.

(** X12.  When the optimizer stage returns, the mode is ["ansor"], the model
    name is a string, and the stage has made exactly these calls, which
    all returned: the import of the model, then either the calls of a
    compile from [tuned_log], which is not empty, or, [tuned_log] being
    the empty string, the search, the rename and the calls of a compile
    from the renamed record. *)
Theorem optimizer_success_trace model out w d w' :
  heap w !! output_meta out = Some (VDict d) →
  run_optimize model out w = (inr tt, w') →
  ∃ name tgt n lf shape dtype verbose,
    d !! "model_name" = Some (VStr name) ∧
    config_fields d tgt n (VStr "ansor") lf shape dtype verbose ∧
    let ae := mkAnsorEngine (replace_char "/" "_" name) tgt shape dtype out
                None None None in
    trace w' = trace w ++ (from_onnx shape dtype, None) ::
      (if eq_str lf "" then
         returned (search_calls ae n verbose)
           ++ returned (compile_calls (VStr (renamed_log ae)) tgt)
       else returned (compile_calls lf tgt)) ∧
    (eq_str lf "" = false → truthy lf = true).
Proof.
  intros Hd H. unfold run_optimize in H.
  rewrite bind_unfold, (getitem_dict _ _ _ _ Hd) in H. simpl in H.
  destruct (d !! "model_name") as [mn|] eqn:Hmn; [|discriminate].
  rewrite bind_unfold, optimum_init_world in H.
  set (w0 := mkWorld _ _ _) in H.
  destruct (optimum_run_cases model out w0 d _ _ Hd H)
    as [(tgt & n & mode & lf & shape & dtype & verbose & Hf & Hr)
       |(_ & (e & He) & _)]; [|discriminate].
  assert (optimum w0 = Some (mkOptimum mn None None)) as Ho by reflexivity.
  destruct (eq_str mode "ansor") eqn:Hmode.
  2:{ by rewrite (_run_other_mode _ _ _ _ _ _ _ _ _ _ _ Ho Hmode) in Hr. }
  apply eq_str_true in Hmode as ->.
  rewrite (_run_ansor (mkOptimum mn None None) model tgt n (VStr "ansor") out
             shape dtype lf verbose w0 Ho eq_refl) in Hr.
  simpl model_name in Hr.
  destruct mn as [| | | |name| |]; try discriminate.
  exists name, tgt, n, lf, shape, dtype, verbose. split; [reflexivity|].
  split; [exact Hf|]. cbv zeta.
  rewrite bind_unfold, engine_init_spec in Hr. cbv zeta in Hr.
  destruct (raises O (trace w0) (from_onnx shape dtype)) as [e|] eqn:Hraise;
    [discriminate|].
  set (w1 := mkWorld _ _ _) in Hr. set (ae := mkAnsorEngine _ _ _ _ _ _ _ _) in *.
  apply bind_inr in Hr as (ae' & w2 & Hr & Hset). injection Hset as <-.
  simpl. destruct (eq_str lf "") eqn:Hlf; simpl in Hr.
  - apply tuning_returns in Hr as [Ht _]. split; [|discriminate].
    rewrite Ht. unfold w1. simpl. by rewrite <- app_assoc.
  - apply compile_returns in Hr as (h & _ & Hh & Ht & _).
    destruct (truthy lf); [subst h|discriminate]. split; [|done].
    rewrite Ht. unfold w1. simpl. by rewrite <- app_assoc.
Qed.

(** X13.  [get_model] after [Optimum(...)] and [run]: when the optimizer stage
    returned, it gives the wrapper of the module that
    [graph_executor.create] returned; when the stage raised, it raises,
    for [ansor_engine] is assigned last. *)
Theorem get_model_after_run model out w d r w' :
  heap w !! output_meta out = Some (VDict d) → optimum w = None →
  run_optimize model out w = (r, w') →
  match r with
  | inr _ => Optimum_get_model w' = (inr (mkGraphModuleWrapper (compiled O)), w')
  | inl _ =>
      ∃ e, Optimum_get_model w' = (inl e, w') ∧
           (e = UnboundLocalError "optimum" ∨
            e = AttributeError "'Optimum' object has no attribute 'ansor_engine'")
  end.
Proof.
  intros Hd Ho H.
  unfold Optimum_get_model, Optimum_self, get_optimum, getattr, raise,
    mbind, M_bind, mret, M_ret.
  destruct r as [e|[]].
  - destruct (optimize_failed_engine _ _ _ _ _ Ho H) as [->|(o & -> & Hae)].
    + eexists. split; [reflexivity|]. by left.
    + rewrite Hae. eexists. split; [reflexivity|]. by right.
  - apply (optimize_returns _ _ _ _ _ Hd) in H as (_ & o & ae & -> & Hae & Hm & _).
    by rewrite Hae, Hm.
Qed.

(** X14.  A [tuned_log] that is not the empty string but is falsy ([null], [0],
    [false], an empty list or dictionary) does not start a search: the
    optimizer takes the compile branch, [ansor_compile] ignores the
    argument, finds no log on the new engine and raises
    [AttributeError], after the import of the model and nothing else. *)
Theorem falsy_tuned_log_is_not_a_search
    model out w d self name tgt n lf shape dtype verbose :
  heap w !! output_meta out = Some (VDict d) →
  config_fields d tgt n (VStr "ansor") lf shape dtype verbose →
  optimum w = Some self → model_name self = VStr name →
  raises O (trace w) (from_onnx shape dtype) = None →
  eq_str lf "" = false → truthy lf = false →
  Optimum_run model out w =
  (inl (AttributeError "'AnsorEngine' object has no attribute 'log_file'"),
   mkWorld (heap w) (optimum w) (trace w ++ [(from_onnx shape dtype, None)])).
Proof.
  intros Hd Hf Ho Hname Hraise Hlf Hfalsy.
  rewrite (optimum_run_reads _ _ _ _ _ _ _ _ _ _ _ Hd Hf).
  rewrite (_run_ansor self model tgt n (VStr "ansor") out shape dtype lf verbose
             w Ho eq_refl).
  rewrite Hname, bind_unfold, engine_init_spec. cbv zeta. rewrite Hraise, Hlf.
  simpl negb. cbv iota. rewrite bind_unfold, compile_no_log; [reflexivity|].
  by rewrite Hfalsy.
Qed.

(** X15.  A [model_name] that is not a string stops the optimizer stage before
    any call: [AnsorEngine.__init__] raises [AttributeError] on
    [network_name.replace], and the inner boundary records that message
    with status -1. *)
Theorem model_name_must_be_a_string
    model out w d mn tgt n lf shape dtype verbose :
  heap w !! output_meta out = Some (VDict d) →
  d !! "model_name" = Some mn → (∀ s, mn ≠ VStr s) →
  config_fields d tgt n (VStr "ansor") lf shape dtype verbose →
  let msg := "'" +:+ type_name mn +:+ "' object has no attribute 'replace'" in
  run_optimize model out w =
    (inl (AttributeError msg),
     mkWorld (heap w) (Some (mkOptimum mn None None)) (trace w)) ∧
  trace (run_inner model out w).2 = trace w ∧
  field (run_inner model out w).2 out "error_info" = Some (VStr msg) ∧
  field (run_inner model out w).2 out "status" = Some (VInt (-1)).
Proof.
  intros Hd Hmn Hns Hf msg.
  assert (run_optimize model out w =
          (inl (AttributeError msg),
           mkWorld (heap w) (Some (mkOptimum mn None None)) (trace w))) as Hopt.
  { unfold run_optimize.
    rewrite bind_unfold, (getitem_dict _ _ _ _ Hd). simpl. rewrite Hmn.
    rewrite bind_unfold, optimum_init_world.
    set (w0 := mkWorld _ _ _).
    rewrite (optimum_run_reads model out w0 d _ _ _ _ _ _ _ Hd Hf).
    rewrite (_run_ansor (mkOptimum mn None None) model tgt n (VStr "ansor") out
               shape dtype lf verbose w0 eq_refl eq_refl).
    rewrite bind_unfold. destruct mn; try reflexivity. by destruct (Hns s). }
  split; [exact Hopt|].
  rewrite (inner_failed _ _ _ _ _ _ Hopt Hd). simpl. split; [reflexivity|].
  unfold field. simpl. rewrite lookup_insert_eq. split.
  - rewrite lookup_insert_ne by done. apply lookup_insert_eq.
  - apply lookup_insert_eq.
Qed.

(** ** Further properties of the record of a search *)

Lemma replace_char_no_slash s : no_slash (replace_char "/" "_" s) = true.
Proof.
  induction s as [|c s IH]; [reflexivity|]. simpl. rewrite IH.
  by destruct (Ascii.eqb c "/") eqn:Hc; [|rewrite Hc].
Qed.

Lemma replace_char_id s : no_slash s = true → replace_char "/" "_" s = s.
Proof.
  induction s as [|c s IH]; [reflexivity|]. simpl. intros H.
  apply andb_true_iff in H as [Hc Hs]. apply negb_true_iff in Hc.
  by rewrite Hc, (IH Hs).
Qed.

Lemma split_slash_app_slash cur a s :
  split_slash cur (a +:+ String "/" s) = split_slash cur a ++ split_slash "" s.
Proof.
  revert cur. induction a as [|c a IH]; intros cur.
  - reflexivity.
  - rewrite append_cons. simpl. destruct (Ascii.eqb c "/"); by rewrite IH.
Qed.

Lemma rsplit_dot_suffix a b :
  rsplit_dot b = None → rsplit_dot (a +:+ String "." b) = Some (a, String "." b).
Proof.
  intros Hb. induction a as [|c a IH].
  - simpl. by rewrite Hb.
  - rewrite append_cons. simpl. by rewrite IH.
Qed.

Lemma join_slash_snoc l x :
  l ≠ [] → join_slash (l ++ [x]) = join_slash l +:+ "/" +:+ x.
Proof.
  induction l as [|y l IH]; [done|]. intros _. destruct l as [|z l]; [reflexivity|].
  change (join_slash ((y :: z :: l) ++ [x]))
    with (y +:+ "/" +:+ join_slash ((z :: l) ++ [x])).
  rewrite IH by done.
  change (join_slash (y :: z :: l)) with (y +:+ "/" +:+ join_slash (z :: l)).
  by rewrite !append_assoc.
Qed.

Lemma path_str_parts r l : l ≠ [] → path_str (mkPath r l) = r +:+ join_slash l.
Proof. intros Hl. unfold path_str. simpl. by destruct r, l. Qed.

Lemma tuning_log_eq self :
  tuning_log self = output_prefix +:+ String "/" (record_base self +:+ ".json").
Proof. unfold tuning_log, record_base. by rewrite !append_assoc. Qed.

(** X16.  [AnsorEngine.__init__] accepts a string for a name and nothing else,
    imports the model, and returns an engine that has neither log, module
    nor device; its [network_name] is the name with every slash replaced,
    so it has no slash, and is the name itself when that had none. *)
Theorem engine_name_has_no_slash mn model tgt shape dtype out w ae w' :
  AnsorEngine_init mn model tgt shape dtype out w = (inr ae, w') →
  ∃ name, mn = VStr name ∧
    ae = mkAnsorEngine (replace_char "/" "_" name) tgt shape dtype out
           None None None ∧
    no_slash (network_name ae) = true ∧
    (no_slash name = true → network_name ae = name) ∧
    w' = mkWorld (heap w) (optimum w) (trace w ++ [(from_onnx shape dtype, None)]).
Proof.
  intros H. destruct mn as [| | | |name| |]; try discriminate.
  rewrite engine_init_spec in H. cbv zeta in H.
  destruct (raises O (trace w) (from_onnx shape dtype)); [discriminate|].
  injection H as <- <-. exists name. split; [reflexivity|]. split; [reflexivity|].
  simpl. split; [apply replace_char_no_slash|]. split; [apply replace_char_id|].
  reflexivity.
Qed.

(** X17.  With a target whose text has no slash, the record of a fresh search
    is the file [tuninglog_network_name=<name>--target=<target>.json] in
    [output_prefix], its extension is [.json], and the finished record is
    [tuninglog_network_name=<name>--target=<target>_finished.json]. *)
Theorem finished_record_name self :
  no_slash (network_name self) = true → no_slash (py_str (target self)) = true →
  let p := parse_path (tuning_log self) in
  path_name p = record_base self +:+ ".json" ∧
  path_stem p = record_base self ∧ path_suffix p = ".json" ∧
  finished_name p = record_base self +:+ "_finished.json" ∧
  parts (path_parent p) = parts (parse_path output_prefix).
Proof.
  intros Hn Ht p.
  assert (no_slash (record_base self +:+ ".json") = true) as Hns.
  { unfold record_base. rewrite !no_slash_app, Hn, Ht. reflexivity. }
  assert (is_component (record_base self +:+ ".json") = true) as Hcomp
    by reflexivity.
  assert (parts p = parts (parse_path output_prefix)
                      ++ [record_base self +:+ ".json"]) as Hparts.
  { unfold p, parse_path. rewrite tuning_log_eq. simpl.
    rewrite split_slash_app_slash, (split_slash_whole _ _ Hns), filter_app.
    by rewrite filter_cons_True. }
  assert (path_name p = record_base self +:+ ".json") as Hname.
  { unfold path_name. rewrite Hparts. apply last_last. }
  assert (cut_name (path_name p) = (record_base self, ".json")) as Hcut.
  { rewrite Hname. unfold cut_name.
    change (record_base self +:+ ".json")
      with (record_base self +:+ String "." "json").
    by rewrite rsplit_dot_suffix. }
  split; [exact Hname|]. unfold finished_name, path_stem, path_suffix.
  rewrite Hcut. simpl. split; [reflexivity|]. split; [reflexivity|].
  split; [by rewrite append_assoc|].
  change (removelast (parts p) = parts (parse_path output_prefix)).
  rewrite Hparts. apply removelast_last.
Qed.

(** X18.  When the record is in a directory that the path names (its parent has
    a component), the log that [ansor_run_tuning] hands to
    [ansor_compile], built by string concatenation, is letter for letter
    the path the record was renamed to. *)
Theorem compiles_from_renamed_record self :
  let p := parse_path (tuning_log self) in
  parts (path_parent p) ≠ [] →
  renamed_log self = path_str (finished_path p) ∧
  rename_call self = rename (path_str p) (renamed_log self).
Proof.
  intros p Hq.
  assert (renamed_log self = path_str (finished_path p)) as Heq.
  { destruct (finished_path_spec (tuning_log self)) as (Hf & _). fold p in Hf.
    rewrite Hf. unfold renamed_log. fold p.
    rewrite path_str_parts by (by destruct (removelast (parts p))).
    unfold path_parent in *. simpl in Hq. rewrite (path_str_parts _ _ Hq).
    rewrite (join_slash_snoc _ _ Hq). by rewrite !append_assoc. }
  split; [exact Heq|]. unfold rename_call. fold p. by rewrite Heq.
Qed.

(** ** Further properties of the report and of the wrapper *)

(** X19.  Item assignment on the report, then lookup: the key reads back the
    value, any other key reads as before, a report on another dictionary
    reads as before, and nothing is called. *)
Theorem report_setitem_getitem out key v w w' :
  JSONOutput_setitem out key v w = (inr tt, w') →
  JSONOutput_getitem out key w' = (inr v, w') ∧
  (∀ key', key' ≠ key →
     JSONOutput_getitem out key' w' = ((JSONOutput_getitem out key' w).1, w')) ∧
  (∀ out' key', output_meta out' ≠ output_meta out →
     JSONOutput_getitem out' key' w' = ((JSONOutput_getitem out' key' w).1, w')) ∧
  trace w' = trace w ∧ optimum w' = optimum w.
Proof.
  intros H. apply setitem_inr in H as (d & Hd & ->).
  assert (heap w !! output_meta out = Some (VDict d)) as Hd'.
  { destruct (heap w !! output_meta out); simpl in Hd; [by subst|discriminate]. }
  split; [|split; [|split; [|done]]].
  - erewrite getitem_dict; [|simpl; apply lookup_insert_eq]. simpl.
    by rewrite lookup_insert_eq.
  - intros key' Hne. erewrite getitem_dict; [|simpl; apply lookup_insert_eq].
    rewrite (getitem_dict _ _ _ _ Hd'). simpl. by rewrite lookup_insert_ne.
  - intros out' key' Hne. unfold JSONOutput_getitem, read, lift.
    rewrite !bind_unfold. simpl. by rewrite lookup_insert_ne.
Qed.

Lemma collect_outputs_fails m pre i post acc e :
  (∀ j, j ∈ pre → ∃ a, get_output j m = inr a) →
  get_output i m = inl e →
  collect_outputs m (pre ++ i :: post) acc = inl e.
Proof.
  revert acc. induction pre as [|j pre IH]; intros acc Hpre Hi; simpl.
  - by rewrite Hi.
  - destruct (Hpre j) as [a Ha]; [by left|]. rewrite Ha. apply IH; [|exact Hi].
    intros j' Hj'. apply Hpre. by right.
Qed.

(** X20.  When an output of the module cannot be read, the wrapper raises the
    exception of the first output that fails, and returns no partial
    mapping; the module has run all the same. *)
Theorem wrapper_first_failure self inputs m1 m2 i e :
  set_input inputs (wrapped self) = inr m1 →
  run_module m1 = inr m2 →
  0 ≤ i < get_num_outputs m2 →
  (∀ j, 0 ≤ j < i → ∃ a, get_output j m2 = inr a) →
  get_output i m2 = inl e →
  GraphModuleWrapper_call self inputs = (inl e, mkGraphModuleWrapper m2).
Proof.
  intros Hs Hr Hi Hbefore He. unfold GraphModuleWrapper_call. rewrite Hs, Hr.
  f_equal.
  replace (get_num_outputs m2) with (i + (1 + (get_num_outputs m2 - i - 1))) by lia.
  rewrite seqZ_app, (seqZ_cons (0 + i)) by lia.
  apply collect_outputs_fails; [|by rewrite Z.add_0_l].
  intros j Hj. apply elem_of_seqZ in Hj. apply Hbefore. lia.
Qed.

(** ** A job that stays on the machine *)

Lemma pres_extends_weaken {A} (k1 k2 : Call → bool) (m : M A) :
  (∀ c, k1 c = true → k2 c = true) →
  (∀ t, pres (extends_by k1 t) m) → ∀ t0, pres (extends_by k2 t0) m.
Proof.
  intros Hk Hp t0 w (evs & Ht & Hall).
  destruct (Hp (trace w) w (extends_refl _ _)) as (evs' & Ht' & Hall').
  exists (evs ++ evs'). split; [by rewrite Ht', Ht, app_assoc|].
  apply Forall_app. split; [exact Hall|].
  eapply Forall_impl; [exact Hall'|]. intros ev. apply Hk.
Qed.

Lemma body_offline args t0 :
  (env args =? GOOGLESTORAGE) = false →
  pres (extends_by offline_call t0) (run_body args).
Proof.
  intros Henv. unfold run_body. apply pres_bind.
  { unfold run_acquire, run_download, run_convert, run_build_report,
      JSONConfig_call, JSONConfig_getitem.
    rewrite Henv. unfold when. cbv iota. pres_go. }
  intros [[config model] out]. unfold run_stages. apply pres_bind.
  { apply pres_run_inner; intros; auto using extends_setitem, extends_set_optimum.
    apply extends_call. by destruct c. }
  intros _. apply pres_bind.
  { unfold run_report, JSONOutput_save, JSONOutput_getitem. pres_go. }
  intros _. apply pres_bind.
  { apply (pres_extends_weaken evaluate_call); [by intros []|].
    intros t. apply benchmark_extends. }
  intros _ w Hw. by rewrite (deliver_local _ _ _ Henv).
Qed.

(** X21.  In local mode [run] never touches cloud storage: no blob is
    downloaded, none is uploaded; the one notification it can publish is
    the failure notification, as its last call. *)
Theorem local_job_stays_local args :
  (env args =? GOOGLESTORAGE) = false →
  count_calls cloud_call (trace (run args initial_world).2) = 0%nat ∧
  ∃ t, Forall (λ ev : Event, offline_call ev.1 = true) t ∧
       match (run_body args initial_world).1 with
       | inr _ => trace (run args initial_world).2 = t
       | inl e =>
           trace (run args initial_world).2
           = t ++ [(failure_message args e, raises O t (failure_message args e))]
       end.
Proof.
  intros Henv.
  destruct (body_offline args [] Henv initial_world (extends_refl _ _))
    as (t & Ht & Hall). simpl in Ht.
  assert (count_calls cloud_call t = 0%nat) as Hc.
  { apply (count_calls_none _ offline_call); [|exact Hall]. by intros []. }
  rewrite run_unfold.
  destruct (run_body args initial_world) as [[e|[]] wb]; simpl in *.
  - fold (failure_message args e). rewrite call_snd. simpl. rewrite Ht.
    split; [by rewrite count_calls_app, Hc, count_calls_one|].
    exists t. by split.
  - rewrite Ht. split; [exact Hc|]. exists t. by split.
Qed.

(** ** A job on collaborators that do not fail *)

Section Quiet.

Hypothesis quiet_world : ∀ t c, raises O t c = None.

Lemma bind_call_quiet {B} c (f : unit → M B) w :
  (call c ≫= f) w
  = f tt (mkWorld (heap w) (optimum w) (trace w ++ [(c, None)])).
Proof. by rewrite bind_unfold, call_quiet. Qed.

Lemma bind_setitem {B} out key v (f : unit → M B) w d :
  heap w !! output_meta out = Some (VDict d) →
  (JSONOutput_setitem out key v ≫= f) w
  = f tt (mkWorld (<[output_meta out := VDict (<[key := v]> d)]> (heap w))
            (optimum w) (trace w)).
Proof. intros Hd. by rewrite bind_unfold, (setitem_dict _ _ _ _ _ Hd). Qed.

Lemma compile_quiet self lf h w d :
  log_file (if truthy lf then set_log_file self lf else self) = Some h →
  heap w !! output_meta (out_json self) = Some (VDict d) →
  ∃ ae,
    ansor_compile self lf w =
    (inr ae,
     mkWorld (<[output_meta (out_json self) := VDict (<["status" := VInt 3]> d)]>
                (heap w))
       (optimum w) (trace w ++ returned (compile_calls h (target self)))) ∧
    ready ae ∧ input_shape ae = input_shape self ∧
    input_dtype ae = input_dtype self.
Proof.
  intros Hlog Hd. rewrite compile_unfold. cbv zeta.
  assert (target (if truthy lf then set_log_file self lf else self) = target self
          ∧ out_json (if truthy lf then set_log_file self lf else self) = out_json self
          ∧ input_shape (if truthy lf then set_log_file self lf else self)
            = input_shape self
          ∧ input_dtype (if truthy lf then set_log_file self lf else self)
            = input_dtype self)
    as (Htg & Hout & Hsh & Hdt) by (by destruct (truthy lf)).
  set (self' := if truthy lf then set_log_file self lf else self) in *.
  rewrite Hlog. simpl getattr. rewrite bind_ret_l, bind_call_quiet.
  unfold compile_rest, AnsorEngine__save.
  rewrite bind_call_quiet, bind_assoc, bind_call_quiet, bind_assoc,
    bind_call_quiet, bind_call_quiet, bind_call_quiet, bind_call_quiet.
  erewrite bind_setitem; [|simpl; rewrite Hout; exact Hd].
  eexists. split.
  - unfold mret, M_ret. simpl. rewrite Hout, Htg. f_equal. f_equal.
    rewrite <- !app_assoc. reflexivity.
  - simpl. split; [split; [reflexivity | by eexists]|]. by split.
Qed.

Lemma tuning_quiet self n v w d :
  heap w !! output_meta (out_json self) = Some (VDict d) →
  ∃ ae,
    ansor_run_tuning self n v w =
    (inr ae,
     mkWorld (<[output_meta (out_json self) := VDict (<["status" := VInt 3]> d)]>
                (heap w))
       (optimum w)
       (trace w ++ returned (search_calls self n v
                               ++ compile_calls (VStr (renamed_log self))
                                    (target self)))) ∧
    ready ae ∧ input_shape ae = input_shape self ∧
    input_dtype ae = input_dtype self.
Proof.
  intros Hd. unfold ansor_run_tuning. cbv zeta.
  rewrite !bind_call_quiet.
  erewrite bind_setitem; [|simpl; exact Hd].
  set (self2 := set_log_file (set_log_file self _) _).
  set (w2 := mkWorld _ _ _).
  destruct (compile_quiet self2 (default VNone (log_file self2))
              (VStr (renamed_log self)) w2 (<["status" := VInt 2]> d))
    as (ae & Heq & Hready & Hsh & Hdt).
  { unfold self2. simpl. by destruct (negb _). }
  { unfold w2. simpl. apply lookup_insert_eq. }
  exists ae. split; [|by split]. rewrite Heq. f_equal. unfold w2. simpl.
  rewrite !insert_insert_eq. f_equal. by rewrite <- !app_assoc.
Qed.

Lemma optimize_quiet model out w d name tgt n lf shape dtype verbose :
  heap w !! output_meta out = Some (VDict d) →
  d !! "model_name" = Some (VStr name) →
  config_fields d tgt n (VStr "ansor") (VStr lf) shape dtype verbose →
  let ae0 := mkAnsorEngine (replace_char "/" "_" name) tgt shape dtype out
               None None None in
  ∃ ae,
    run_optimize model out w =
    (inr tt,
     mkWorld (<[output_meta out := VDict (<["status" := VInt 3]> d)]> (heap w))
       (Some (mkOptimum (VStr name) (Some ae) (Some model)))
       (trace w ++ returned (optimizer_calls ae0 n verbose lf))) ∧
    ready ae ∧ input_shape ae = shape ∧ input_dtype ae = dtype.
Proof.
  intros Hd Hmn Hf ae0. unfold run_optimize.
  rewrite bind_unfold, (getitem_dict _ _ _ _ Hd). simpl. rewrite Hmn.
  rewrite bind_unfold, optimum_init_world.
  set (w0 := mkWorld _ _ _).
  rewrite (optimum_run_reads model out w0 d _ _ _ _ _ _ _ Hd Hf).
  rewrite (_run_ansor (mkOptimum (VStr name) None None) model tgt n (VStr "ansor")
             out shape dtype (VStr lf) verbose w0 eq_refl eq_refl).
  simpl model_name. rewrite bind_unfold, engine_init_spec. cbv zeta.
  rewrite quiet_world. fold ae0. set (w1 := mkWorld _ _ _).
  assert (heap w1 !! output_meta (out_json ae0) = Some (VDict d)) as Hd1
    by exact Hd.
  unfold optimizer_calls. simpl eq_str. destruct (String.eqb lf "") eqn:Hlf.
  - destruct (tuning_quiet ae0 n verbose w1 d Hd1) as (ae & Heq & Hready & Hsh & Hdt).
    exists ae. split; [|by split]. simpl negb. cbv iota.
    rewrite bind_unfold, Heq. unfold set_optimum, w1. simpl.
    by rewrite <- app_assoc.
  - destruct (compile_quiet ae0 (VStr lf) (VStr lf) w1 d) as (ae & Heq & Hready & Hsh & Hdt).
    { simpl. by rewrite Hlf. }
    { exact Hd1. }
    exists ae. split; [|by split]. simpl negb. cbv iota.
    rewrite bind_unfold, Heq. unfold set_optimum, w1. simpl.
    by rewrite <- app_assoc.
Qed.

Lemma dummy_input_quiet self entries w :
  Forall (array_entry (input_dtype self)) entries →
  for_each (dummy_array self) entries w
  = (inr tt, mkWorld (heap w) (optimum w)
               (trace w ++ returned (dummy_calls (input_dtype self) entries))).
Proof.
  intros Hall. revert w. induction Hall as [|[k v] entries [Hit [x Hx]] Hall IH];
    intros w.
  { simpl. unfold mret, M_ret. destruct w. simpl. by rewrite app_nil_r. }
  simpl in Hit, Hx.
  rewrite for_each_cons, bind_unfold, dummy_array_spec. cbv zeta.
  rewrite Hit, quiet_world, Hx, !quiet_world, IH. simpl. unfold dtype_of.
  simpl. rewrite Hx. by rewrite <- !app_assoc.
Qed.

Lemma evaluate_quiet ae w sd :
  ready ae → input_shape ae = VDict sd →
  Forall (array_entry (input_dtype ae)) (item_order O sd) →
  AnsorEngine_evaluate ae w
  = (inr tt, mkWorld (heap w) (optimum w) (trace w ++ returned (evaluate_calls ae))).
Proof.
  intros (Hm & dv & Hdv) Hsd Hall. unfold AnsorEngine_evaluate, evaluate_calls, entries_of.
  rewrite Hm, Hdv, Hsd. simpl getattr. rewrite !bind_ret_l, bind_call_quiet.
  simpl items. rewrite bind_unfold. unfold lift at 1.
  rewrite bind_unfold, (dummy_input_quiet _ _ _ Hall), bind_call_quiet.
  unfold call. rewrite quiet_world. simpl.
  by rewrite !returned_app, <- !app_assoc.
Qed.

(** X22.  On collaborators that do not fail, lines 35-52 complete on a
    report, shared with the config, that holds a string for the model
    name, the benchmark flag, and the fields of the optimizer with mode
    ["ansor"] and a string for [tuned_log], provided that, when the
    benchmark is asked for, [input_shape] is a dictionary whose every
    shape can be unpacked and has a type under its key in [input_dtype].
    The stages return, the report ends with status 4, and their calls
    are exactly the import of the model, the search and rename when
    [tuned_log] is empty, the compile, the save of the report with status
    4, the calls of the benchmark when it is asked for, and in remote
    mode the upload and the notification "OK" with status "4". *)
Theorem well_formed_stages_complete
    args config model out w d name tgt n lf shape dtype verbose nb :
  heap w !! output_meta out = Some (VDict d) →
  config_meta config = output_meta out →
  d !! "model_name" = Some (VStr name) →
  d !! "need_benchmark" = Some nb →
  config_fields d tgt n (VStr "ansor") (VStr lf) shape dtype verbose →
  (truthy nb = true →
   ∃ sd, shape = VDict sd ∧ Forall (array_entry dtype) (item_order O sd)) →
  let ae := mkAnsorEngine (replace_char "/" "_" name) tgt shape dtype out
              None None None in
  (run_stages args config model out w).1 = inr tt ∧
  trace (run_stages args config model out w).2 =
  trace w ++
  returned
    (optimizer_calls ae n verbose lf
     ++ json_dump report_file (VDict (<["status" := VInt 4]> d))
     :: (if truthy nb then evaluate_calls ae else [])
     ++ delivery_calls args "4") ∧
  field (run_stages args config model out w).2 out "status" = Some (VInt 4).
Proof.
  intros Hd Hmeta Hmn Hnb Hf Hshape. cbv zeta.
  set (ae0 := mkAnsorEngine _ _ _ _ _ _ _ _).
  destruct (optimize_quiet model out w d name tgt n lf shape dtype verbose Hd Hmn Hf)
    as (ae & Hopt & Hready & Hish & Hidt).
  fold ae0 in Hopt.
  destruct (inner_spec model out w d Hd)
    as (w2 & d2 & st & Hin & Hd2 & Hst & _ & Hfin & _).
  rewrite (inner_ok _ _ _ _ Hopt) in Hin. injection Hin as <-.
  rewrite Hopt in Hfin. simpl in Hfin.
  rewrite (stages_unfold _ _ _ _ _ _ (inner_ok _ _ _ _ Hopt)),
    (body_after_inner _ _ _ _ _ _ Hd2 Hst).
  cbv zeta. rewrite Hfin, quiet_world.
  set (c := json_dump report_file (VDict (<["status" := VInt 4]> d))).
  set (w3 := mkWorld _ _ _).
  assert (heap w3 !! config_meta config = Some (VDict (<["status" := VInt 4]> d))) as Hd3
    by (rewrite Hmeta; apply lookup_insert_eq).
  assert (∃ w4, run_benchmark config w3 = (inr tt, w4) ∧ heap w4 = heap w3 ∧
                trace w4 = trace w3
                  ++ returned (if truthy nb then evaluate_calls ae0 else [])) as
    (w4 & Hb & Hh4 & Ht4).
  { rewrite (benchmark_spec _ _ _ Hd3), lookup_insert_ne, Hnb by done.
    destruct (truthy nb).
    - destruct (Hshape eq_refl) as (sd & -> & Hall).
      simpl optimum. cbv iota. simpl ansor_engine. cbv iota.
      rewrite (evaluate_quiet _ _ sd Hready Hish); [|by rewrite Hidt]. eexists.
      split; [reflexivity|]. split; [reflexivity|]. simpl.
      unfold evaluate_calls. by rewrite Hish, Hidt.
    - exists w3. simpl. by rewrite app_nil_r. }
  rewrite Hb.
  assert (heap w4 !! output_meta out = Some (VDict (<["status" := VInt 4]> d))) as Hd4
    by (rewrite Hh4; apply lookup_insert_eq).
  rewrite (deliver_spec _ _ _ _ (VInt 4) Hd4) by apply lookup_insert_eq.
  cbv zeta. unfold delivery_calls.
  destruct (env args =? GOOGLESTORAGE); rewrite ?quiet_world; simpl.
  - split; [reflexivity|]. split.
    + rewrite Ht4. unfold w3. simpl.
      repeat (rewrite returned_app || rewrite <- app_assoc || simpl).
      replace (pretty 4) with "4" by (by vm_compute). reflexivity.
    + unfold field. simpl. rewrite Hd4. apply lookup_insert_eq.
  - split; [reflexivity|]. split.
    + rewrite Ht4. unfold w3. simpl.
      repeat (rewrite returned_app || rewrite <- app_assoc || simpl).
      rewrite ?app_nil_r. reflexivity.
    + unfold field. rewrite Hd4. apply lookup_insert_eq.
Qed.

End Quiet.

End Pipeline.

(** ** The claims on concrete inputs *)

(** The examples run with [output_prefix = "outputs"],
    [input_prefix = "inputs"] and [GOOGLESTORAGE = 1], on the toy module.
    The stages run from a store that holds one dictionary, the report,
    which the config shares. *)
Abbreviation example_oracle config := (quiet config (∅ : gmap string Z)).
Abbreviation example_run O args :=
  (run "outputs" "inputs" 1 (λ _, "") O args initial_world).
Abbreviation example_store d o :=
  (@mkWorld (gmap string Z) {[1%positive := d]} o []).
Abbreviation example_stages O args w :=
  (run_stages "outputs" "inputs" 1 (λ _, "") O args
     (mkJSONConfig 1%positive) OnnxModel (mkJSONOutput 1%positive) w).
Abbreviation example_engine :=
  (@mkAnsorEngine (gmap string Z) "resnet_v1" (VStr "llvm") VNone VNone
     (mkJSONOutput 1%positive) None None None).
Abbreviation fresh_optimum := (Some (mkOptimum (VStr "resnet/v1") None None)).

(** A result is the pair of what it returns and the world it leaves. *)
Lemma result_eq {A B} (p : A * B) (a : A) : p.1 = a → p = (a, p.2).
Proof. intros <-. apply surjective_pairing. Qed.

Ltac run_it := apply result_eq; vm_compute; reflexivity.

(** C1, on a config loaded from a file: the report is built with status
    1. *)
Lemma C1_witness :
  ∃ config w w',
    JSONConfig_init (example_oracle (example_config (VStr "ansor") (VStr "") false))
      "config.json" initial_world
    = (inr config, w) ∧
    run_build_report config w = (inr (JSONOutput_init config), w') ∧
    JSONOutput_getitem (JSONOutput_init config) "status" w' = (inr (VInt 1), w').
Proof.
  eassert (JSONConfig_init
             (example_oracle (example_config (VStr "ansor") (VStr "") false))
             "config.json" initial_world = (inr _, _)) as Hload
    by run_it.
  edestruct (C1_report_built_with_status_1
               (example_oracle (example_config (VStr "ansor") (VStr "") false))
               "config.json" initial_world)
    as (w' & Hb & Hs & _).
  - exact Hload.
  - reflexivity.
  - eexists _, _, w'. split; [exact Hload|]. by split.
Defined.

(** C1 as stated fails: on this config the report has no status when
    [JSONOutput] returns, and status 1 once line 33 has run; reading its
    status never gives 0. *)
Lemma C1_counterexample :
  ∃ config w out w',
    JSONConfig_init (example_oracle (example_config (VStr "ansor") (VStr "") false))
      "config.json" initial_world
    = (inr config, w) ∧
    (JSONOutput_getitem (JSONOutput_init config) "status" w).1
    = inl (KeyError "status") ∧
    run_build_report config w = (inr out, w') ∧
    (JSONOutput_getitem out "status" w').1 = inr (VInt 1) ∧
    (JSONOutput_getitem out "status" w').1 ≠ inr (VInt 0).
Proof.
  eexists _, _, _, _. split; [run_it|]. split; [vm_compute; reflexivity|].
  split; [run_it|]. split; [vm_compute; reflexivity|]. vm_compute. discriminate.
Qed.

(** C2, on mode ["foo"]: the method fails on its unbound local. *)
Lemma C2_witness :
  (Optimum__run "outputs" (λ _, "") (example_oracle VNone) OnnxModel
     (VStr "llvm") (VInt 100) (VStr "foo") (mkJSONOutput 1%positive) VNone VNone
     (VStr "") (VInt 0)
     (mkWorld ∅ (Some (mkOptimum (VStr "resnet") None None)) [])).1
  = inl (UnboundLocalError "ae").
Proof.
  destruct (C2_modes_other_than_ansor "outputs" (λ _, "") (example_oracle VNone)
              (mkOptimum (VStr "resnet") None None) OnnxModel
              (VStr "llvm") (VInt 100) (VStr "foo") (mkJSONOutput 1%positive) VNone VNone
              (VStr "") (VInt 0)
              (mkWorld ∅ (Some (mkOptimum (VStr "resnet") None None)) [])
              eq_refl eq_refl) as (e & Hrun & _ & He).
  rewrite Hrun. simpl. f_equal. apply He. reflexivity.
Defined.


(** C4, on a search and a compile that return: the status ends at 3. *)
Lemma C4_witness :
  field
    (ansor_run_tuning "outputs" (λ _, "") (example_oracle VNone)
       (mkAnsorEngine "resnet_v1" (VStr "llvm") VNone VNone (mkJSONOutput 1%positive)
          None None None)
       (VInt 100) (VInt 0) (mkWorld {[1%positive := VDict ∅]} None [])).2
    (mkJSONOutput 1%positive) "status"
  = Some (VInt 3).
Proof.
  edestruct (C4_record_renamed_after_search "outputs" (λ _, "")
               (example_oracle VNone)
               (mkAnsorEngine "resnet_v1" (VStr "llvm") VNone VNone
                  (mkJSONOutput 1%positive) None None None)
               (VInt 100) (VInt 0) (mkWorld {[1%positive := VDict ∅]} None []) ∅)
    as (_ & evs & _ & _ & Hret & _).
  - apply lookup_singleton_eq.
  - apply surjective_pairing.
  - eapply Hret. vm_compute. reflexivity.
Defined.

(** C4 as stated fails: when [relay.build] raises in the chained compile,
    [ansor_run_tuning] ends with that error, and the record has been
    renamed all the same; the status is left at 2. *)
Lemma C4_counterexample :
  (ansor_run_tuning "outputs" (λ _, "")
     (failing is_relay_build "build failed" VNone (∅ : gmap string Z))
     (mkAnsorEngine "resnet_v1" (VStr "llvm") VNone VNone (mkJSONOutput 1%positive)
        None None None)
     (VInt 100) (VInt 0) (mkWorld {[1%positive := VDict ∅]} None [])).1
  = inl (External "build failed") ∧
  (rename "outputs/tuninglog_network_name=resnet_v1--target=llvm.json"
     "outputs/tuninglog_network_name=resnet_v1--target=llvm_finished.json", None)
  ∈ trace
      (ansor_run_tuning "outputs" (λ _, "")
         (failing is_relay_build "build failed" VNone (∅ : gmap string Z))
         (mkAnsorEngine "resnet_v1" (VStr "llvm") VNone VNone (mkJSONOutput 1%positive)
            None None None)
         (VInt 100) (VInt 0) (mkWorld {[1%positive := VDict ∅]} None [])).2 ∧
  field
    (ansor_run_tuning "outputs" (λ _, "")
       (failing is_relay_build "build failed" VNone (∅ : gmap string Z))
       (mkAnsorEngine "resnet_v1" (VStr "llvm") VNone VNone (mkJSONOutput 1%positive)
          None None None)
       (VInt 100) (VInt 0) (mkWorld {[1%positive := VDict ∅]} None [])).2
    (mkJSONOutput 1%positive) "status"
  = Some (VInt 2).
Proof.
  split; [vm_compute; reflexivity|]. split; [|vm_compute; reflexivity].
  set (t := trace _). vm_compute in t. subst t.
  rewrite !elem_of_cons. naive_solver.
Qed.

(** C5, on a report in mode ["autotvm"]: the stages end with status
    -1. *)
Lemma C5_witness :
  field
    (example_stages
       (example_oracle (example_config (VStr "autotvm") (VStr "") false))
       (example_args 0)
       (example_store (example_config (VStr "autotvm") (VStr "") false) None)).2
    (mkJSONOutput 1%positive) "status"
  = Some (VInt (-1)).
Proof.
  edestruct (C5_failure_is_sticky "outputs" "inputs" 1 (λ _, "")
               (example_oracle (example_config (VStr "autotvm") (VStr "") false))
               (example_args 0) (mkJSONConfig 1%positive) OnnxModel
               (mkJSONOutput 1%positive)
               (example_store (example_config (VStr "autotvm") (VStr "") false) None))
    as (_ & _ & Hfinal & _).
  - apply lookup_singleton_eq.
  - run_it.
  - exact Hfinal.
Defined.

(** C6, on a report that names an old log: compile comes first. *)
Lemma C6_witness :
  ∃ rb evs,
    trace
      (Optimum_run "outputs" (λ _, "") (example_oracle VNone) OnnxModel
         (mkJSONOutput 1%positive)
         (mkWorld
            {[1%positive := example_config (VStr "ansor") (VStr "old.json") false]}
            (Some (mkOptimum (VStr "resnet/v1") None None)) [])).2
    = [] ++ (from_onnx
               (VDict (list_to_map [("x", VList [VInt 1; VInt 3])]))
               (VDict (list_to_map [("x", VStr "float32")])), None)
            :: (relay_build (VStr "old.json") (VStr "llvm"), rb) :: evs.
Proof.
  pose proof (surjective_pairing
                (Optimum_run "outputs" (λ _, "") (example_oracle VNone) OnnxModel
                   (mkJSONOutput 1%positive)
                   (mkWorld
                      {[1%positive :=
                          example_config (VStr "ansor") (VStr "old.json") false]}
                      (Some (mkOptimum (VStr "resnet/v1") None None)) [])))
    as Hrun.
  eapply (C6_cache_decision "outputs" (λ _, "") (example_oracle VNone)) in Hrun;
    cycle 1.
  - apply lookup_singleton_eq.
  - repeat split; try reflexivity; eexists; repeat split; reflexivity.
  - reflexivity.
  - reflexivity.
  - reflexivity.
  - cbv zeta in Hrun. destruct Hrun as (evs & Ht & (rb & evs' & -> & _) & _).
    exists rb, evs'. exact Ht.
Defined.

(** C7, on a report in mode ["autotvm"]: the inner boundary holds the
    failure, and the report is handed to [json.dump] once. *)
Lemma C7_witness :
  count_calls is_json_dump
    (trace
       (example_stages
          (example_oracle (example_config (VStr "autotvm") (VStr "") false))
          (example_args 0)
          (example_store (example_config (VStr "autotvm") (VStr "") false) None)).2)
  = 1%nat.
Proof.
  edestruct (C7_inner_boundary "outputs" "inputs" 1 (λ _, "")
               (example_oracle (example_config (VStr "autotvm") (VStr "") false))
               (example_args 0) (mkJSONConfig 1%positive) OnnxModel
               (mkJSONOutput 1%positive)
               (example_store (example_config (VStr "autotvm") (VStr "") false) None))
    as (_ & evs & Ht & Hcount & _).
  - apply lookup_singleton_eq.
  - simpl in Ht. rewrite Ht. exact Hcount.
Defined.


(** C9, on the toy module: two outputs, two names. *)
Lemma C9_witness :
  ∃ outs,
    GraphModuleWrapper_call
      (mkGraphModuleWrapper (∅ : gmap string Z)) ({[ "x" := 5 ]} : gmap string Z)
    = (inr outs, mkGraphModuleWrapper ({[ "x" := 5 ]} ∪ ∅)) ∧
    dom outs = list_to_set (output_name <$> seqZ 0 2) ∧
    outs !! "output_1" = Some 11.
Proof.
  edestruct (C9_wrapper_outputs
               (mkGraphModuleWrapper (∅ : gmap string Z))
               ({[ "x" := 5 ]} : gmap string Z))
    as (_ & outs & Hcall & Hdom & Hout).
  - reflexivity.
  - reflexivity.
  - intros i Hi. exists (i + 10). simpl in *. by rewrite bool_decide_true.
  - exists outs. split; [exact Hcall|]. split; [exact Hdom|].
    destruct (Hout 1) as (a & Ha & Hl); [simpl; lia|].
    simpl in Ha. injection Ha as <-. exact Hl.
Defined.

(** C10, on a store with one dictionary: a status written through the
    report is read through the config. *)
Lemma C10_witness :
  JSONConfig_getitem (mkJSONConfig 1%positive) "status"
    (JSONOutput_setitem (JSONOutput_init (mkJSONConfig 1%positive)) "status"
       (VInt (-1))
       (mkWorld {[1%positive := VDict ∅]} (None : option (@Optimum (gmap string Z)))
          [])).2
  = (inr (VInt (-1)),
     (JSONOutput_setitem (JSONOutput_init (mkJSONConfig 1%positive)) "status"
        (VInt (-1))
        (mkWorld {[1%positive := VDict ∅]} (None : option (@Optimum (gmap string Z)))
           [])).2).
Proof.
  apply (proj1 (proj2 (C10_report_aliases_config (mkJSONConfig 1%positive)))
           "status" (VInt (-1))
           (mkWorld {[1%positive := VDict ∅]} None [])).
  vm_compute. reflexivity.
Defined.

(** ** Further properties of app/helpers.py *)

Lemma lazy_until_slash_app b rest :
  no_slash b = true → no_newline b = true →
  lazy_until_slash (b +:+ String "/" rest) = Some (b, rest).
Proof.
  induction b as [|c b IH]; intros Hs Hn; [reflexivity|].
  rewrite append_cons. simpl in *.
  apply andb_true_iff in Hs as [Hc Hs]. apply andb_true_iff in Hn as [Hc' Hn].
  apply negb_true_iff in Hc, Hc'. rewrite Hc, Hc', (IH Hs Hn). reflexivity.
Qed.

Lemma greedy_line_whole o : no_newline o = true → greedy_line o = o.
Proof.
  induction o as [|c o IH]; intros Hn; [reflexivity|]. simpl in *.
  apply andb_true_iff in Hn as [Hc Hn]. apply negb_true_iff in Hc.
  by rewrite Hc, (IH Hn).
Qed.

Lemma strip_prefix_app p s : strip_prefix p (p +:+ s) = Some s.
Proof.
  induction p as [|c p IH]; [reflexivity|]. rewrite append_cons. simpl.
  by rewrite Ascii.eqb_refl.
Qed.

Lemma strip_prefix_inv p s r : strip_prefix p s = Some r → s = p +:+ r.
Proof.
  revert s. induction p as [|c p IH]; intros s H; simpl in H.
  - by injection H as ->.
  - destruct s as [|c' s]; [discriminate|].
    destruct (Ascii.eqb c c') eqn:Hc; [|discriminate].
    apply Ascii.eqb_eq in Hc as ->. by rewrite append_cons, (IH _ H).
Qed.

Lemma lazy_until_slash_inv s a b :
  lazy_until_slash s = Some (a, b) →
  s = a +:+ String "/" b ∧ no_slash a = true ∧ no_newline a = true.
Proof.
  revert a. induction s as [|c s IH]; intros a H; simpl in H; [discriminate|].
  destruct (Ascii.eqb c "/"%char) eqn:Hc.
  - injection H as <- <-. apply Ascii.eqb_eq in Hc as ->. done.
  - destruct (Ascii.eqb c newline) eqn:Hc'; [discriminate|].
    destruct (lazy_until_slash s) as [[a' b']|]; [|discriminate].
    injection H as <- <-. destruct (IH a' eq_refl) as (-> & Hs & Hn).
    rewrite append_cons. simpl. by rewrite Hc, Hc', Hs, Hn.
Qed.

Lemma greedy_line_inv s :
  no_newline (greedy_line s) = true ∧
  ∃ rest, s = greedy_line s +:+ rest ∧ (rest = "" ∨ ∃ r, rest = String newline r).
Proof.
  induction s as [|c s (Hn & rest & Hs & Hrest)]; simpl.
  - split; [reflexivity|]. exists "". by split; [|left].
  - destruct (Ascii.eqb c newline) eqn:Hc; simpl.
    + split; [reflexivity|]. apply Ascii.eqb_eq in Hc as ->.
      exists (String newline s). split; [reflexivity|]. right. by exists s.
    + rewrite Hc, Hn. split; [reflexivity|]. exists rest.
      split; [by rewrite append_cons, <- Hs | exact Hrest].
Qed.

(** X23.  A URL made of [gs://], a bucket name without slash or newline, a
    slash and an object name without newline is taken apart into that
    bucket and that object. *)
Theorem bucket_object_round_trip bucket object_name :
  no_slash bucket = true → no_newline bucket = true →
  no_newline object_name = true →
  get_bucket_object_name ("gs://" +:+ bucket +:+ "/" +:+ object_name)
  = inr (bucket, object_name).
Proof.
  intros Hs Hn Ho. unfold get_bucket_object_name.
  rewrite strip_prefix_app.
  change ("/" +:+ object_name) with (String "/" object_name).
  by rewrite (lazy_until_slash_app _ _ Hs Hn), (greedy_line_whole _ Ho).
Qed.

Lemma bucket_object_inv url bucket object_name :
  get_bucket_object_name url = inr (bucket, object_name) →
  no_slash bucket = true ∧ no_newline bucket = true ∧
  no_newline object_name = true ∧
  ∃ rest, url = "gs://" +:+ bucket +:+ "/" +:+ object_name +:+ rest ∧
          (rest = "" ∨ ∃ r, rest = String newline r).
Proof.
  unfold get_bucket_object_name. intros H.
  destruct (strip_prefix "gs://" url) as [s|] eqn:Hp; [|discriminate].
  destruct (lazy_until_slash s) as [[a b]|] eqn:Hl; [|discriminate].
  injection H as <- <-. apply strip_prefix_inv in Hp as ->.
  apply lazy_until_slash_inv in Hl as (-> & Hs & Hn).
  destruct (greedy_line_inv b) as (Hg & rest & Hb & Hrest).
  repeat split; try done. exists rest. split; [|exact Hrest].
  by rewrite Hb at 1.
Qed.

(** X24.  What [get_bucket_object_name] returns: the bucket is what stands
    between [gs://] and the first slash after it, the object is what
    follows that slash up to the end of the line; neither holds a newline,
    and the bucket holds no slash. *)
Theorem bucket_object_sound url bucket object_name :
  get_bucket_object_name url = inr (bucket, object_name) →
  no_slash bucket = true ∧ no_newline bucket = true ∧
  no_newline object_name = true ∧
  ∃ rest, url = "gs://" +:+ bucket +:+ "/" +:+ object_name +:+ rest ∧
          (rest = "" ∨ ∃ r, rest = String newline r).
Proof. apply bucket_object_inv. Qed.

Lemma lazy_until_slash_some b rest :
  no_newline b = true → is_Some (lazy_until_slash (b +:+ String "/" rest)).
Proof.
  induction b as [|c b IH]; intros Hn; [by eexists|].
  rewrite append_cons. simpl in *.
  apply andb_true_iff in Hn as [Hc Hn]. apply negb_true_iff in Hc.
  destruct (Ascii.eqb c "/"%char); [by eexists|]. rewrite Hc.
  destruct (IH Hn) as [[a b'] ->]. by eexists.
Qed.

(** X25.  [get_bucket_object_name] raises exactly on the URLs that do not start
    with [gs://], a stretch without newline and a slash, and what it
    raises then is the exception with the text "invalid url pattern". *)
Theorem bucket_object_rejects url :
  (∀ e, get_bucket_object_name url = inl e → e = External "invalid url pattern") ∧
  ((∃ e, get_bucket_object_name url = inl e) ↔
   ¬ ∃ b rest, no_newline b = true ∧ url = "gs://" +:+ b +:+ "/" +:+ rest).
Proof.
  split.
  - unfold get_bucket_object_name. intros e H.
    destruct (strip_prefix "gs://" url) as [s|]; [|by injection H].
    destruct (lazy_until_slash s) as [[a b]|]; [discriminate | by injection H].
  - split.
    + intros [e He] (b & rest & Hn & ->). unfold get_bucket_object_name in He.
      rewrite strip_prefix_app in He.
      destruct (lazy_until_slash_some b rest Hn) as [[a b'] Hl].
      change ("/" +:+ rest) with (String "/" rest) in He. by rewrite Hl in He.
    + intros Hno. destruct (get_bucket_object_name url) as [e|[b o]] eqn:H;
        [by exists e|].
      exfalso. apply Hno. apply bucket_object_inv in H as (_ & Hn & _ & rest & -> & _).
      exists b, (o +:+ rest). by split.
Qed.

Lemma split_slash_cons cur s : ∃ x l, split_slash cur s = x :: l.
Proof.
  revert cur. induction s as [|c s IH]; intros cur; simpl; [by eexists _, _|].
  destruct (Ascii.eqb c "/"%char); [by eexists _, _ | apply IH].
Qed.

Lemma join_split cur s : join_slash (split_slash cur s) = cur +:+ s.
Proof.
  revert cur. induction s as [|c s IH]; intros cur; simpl.
  - by rewrite append_nil_r.
  - destruct (Ascii.eqb c "/"%char) eqn:Hc.
    + apply Ascii.eqb_eq in Hc as ->.
      destruct (split_slash_cons "" s) as (x & l & Hl).
      simpl. rewrite Hl, <- Hl, IH. reflexivity.
    + rewrite IH, append_assoc. reflexivity.
Qed.

Lemma split_slash_app cur a s :
  no_slash a = true →
  split_slash cur (a +:+ String "/" s) = (cur +:+ a) :: split_slash "" s.
Proof.
  revert cur. induction a as [|c a IH]; intros cur Ha.
  - rewrite append_nil_l, append_nil_r. reflexivity.
  - simpl in Ha. apply andb_true_iff in Ha as [Hc Ha]. apply negb_true_iff in Hc.
    rewrite append_cons. simpl. rewrite Hc, (IH _ Ha), append_assoc. reflexivity.
Qed.

(** X26.  The blob of a local file keeps the path of the file from its third
    component on, under [dest_blob_name]: the first two components are
    dropped, whatever they are. *)
Theorem remote_path_keeps_from_third dest_blob_name c1 c2 rest :
  no_slash c1 = true → no_slash c2 = true →
  remote_path dest_blob_name (c1 +:+ "/" +:+ c2 +:+ "/" +:+ rest)
  = dest_blob_name +:+ "/" +:+ rest.
Proof.
  intros H1 H2. unfold remote_path.
  change ("/" +:+ c2 +:+ "/" +:+ rest) with (String "/" (c2 +:+ String "/" rest)).
  rewrite (split_slash_app _ _ _ H1), (split_slash_app _ _ _ H2). cbn [drop]. rewrite drop_0.
  by rewrite join_split.
Qed.

(** X27.  Files that sit directly in a directory named by a single component
    all get the same blob, [dest_blob_name/]: with only two components,
    nothing of the path is kept. *)
Theorem remote_path_collides dest_blob_name directory f1 f2 :
  no_slash directory = true → no_slash f1 = true → no_slash f2 = true →
  remote_path dest_blob_name (directory +:+ "/" +:+ f1)
  = remote_path dest_blob_name (directory +:+ "/" +:+ f2) ∧
  remote_path dest_blob_name (directory +:+ "/" +:+ f1) = dest_blob_name +:+ "/".
Proof.
  intros Hd H1 H2. unfold remote_path.
  change ("/" +:+ f1) with (String "/" f1). change ("/" +:+ f2) with (String "/" f2).
  rewrite !(split_slash_app _ _ _ Hd), !split_slash_whole by done.
  done.
Qed.

(** ** The further properties on concrete inputs *)

(** A compile from an old log sets the status to 3. *)
Lemma compile_writes_artifacts_witness :
  field
    (ansor_compile "outputs" (λ _, "") (example_oracle VNone) example_engine
       (VStr "old.json") (example_store (VDict ∅) None)).2
    (mkJSONOutput 1%positive) "status"
  = Some (VInt 3).
Proof.
  eassert (ansor_compile "outputs" (λ _, "") (example_oracle VNone) example_engine
             (VStr "old.json") (example_store (VDict ∅) None) = (inr _, _)) as H
    by run_it.
  by destruct (compile_writes_artifacts _ _ _ _ _ _ _ _ H) as (h & _ & _ & _ & _ & Hst).
Defined.

(** A benchmark on a compiled engine with one input: the timed run, the
    array and its conversion, the reference run, the CSV. *)
Lemma evaluate_writes_csv_witness :
  trace
    (AnsorEngine_evaluate "outputs" "inputs" (example_oracle VNone)
       (mkAnsorEngine "resnet_v1" (VStr "llvm")
          (VDict {["x" := VList [VInt 1; VInt 3]]}) (VDict {["x" := VStr "float32"]})
          (mkJSONOutput 1%positive) None (Some ∅) (Some "llvm"))
       (example_store (VDict ∅) None)).2
  = [(benchmark, None); (np_rand (VList [VInt 1; VInt 3]), None);
     (astype (VStr "float32"), None);
     (reference_run "inputs/model.onnx", None);
     (to_csv "outputs/inference_time.csv", None)].
Proof.
  eassert (AnsorEngine_evaluate "outputs" "inputs" (example_oracle VNone)
             (mkAnsorEngine "resnet_v1" (VStr "llvm")
                (VDict {["x" := VList [VInt 1; VInt 3]]})
                (VDict {["x" := VStr "float32"]})
                (mkJSONOutput 1%positive) None (Some ∅) (Some "llvm"))
             (example_store (VDict ∅) None) = (inr _, _)) as H
    by run_it.
  destruct (evaluate_writes_csv _ _ _ _ _ _ _ H) as (_ & _ & _ & _ & _ & Ht).
  rewrite Ht. vm_compute. reflexivity.
Defined.

(** A benchmark on a compiled engine whose shapes are a list. *)
Lemma evaluate_needs_shape_dictionary_witness :
  AnsorEngine_evaluate "outputs" "inputs" (example_oracle VNone)
    (mkAnsorEngine "resnet_v1" (VStr "llvm") (VList [VInt 1; VInt 3]) (VStr "float32")
       (mkJSONOutput 1%positive) None (Some ∅) (Some "llvm"))
    (example_store (VDict ∅) None)
  = (inl (AttributeError "'list' object has no attribute 'items'"),
     mkWorld {[1%positive := VDict ∅]} None [(benchmark, None)]).
Proof.
  rewrite (evaluate_needs_shape_dictionary "outputs" "inputs" (example_oracle VNone)
             (mkAnsorEngine "resnet_v1" (VStr "llvm") (VList [VInt 1; VInt 3])
                (VStr "float32") (mkJSONOutput 1%positive) None (Some ∅) (Some "llvm"))
             (example_store (VDict ∅) None)).
  - reflexivity.
  - split; [reflexivity | by eexists].
  - intros sd. discriminate.
  - reflexivity.
Defined.

(** When the notification channel is down, [run] raises what the channel
    raises. *)
Lemma run_raises_only_from_notification_witness :
  (run "outputs" "inputs" 1 (λ _, "")
     (failing is_publish "channel down" VNone (∅ : gmap string Z))
     (example_args 0) initial_world).1
  = inl (External "channel down").
Proof.
  apply (proj2 (run_raises_only_from_notification "outputs" "inputs" 1 (λ _, "")
                  (failing is_publish "channel down" VNone (∅ : gmap string Z))
                  (example_args 0) initial_world (External "channel down"))).
  eexists. split; vm_compute; reflexivity.
Defined.

(** The report that the stages save in mode ["autotvm"]: the report they
    were entered with, with the empty message and status -1. *)
Lemma saved_report_is_final_report_witness :
  ∃ d content,
    example_config (VStr "autotvm") (VStr "") false = VDict d ∧
    (json_dump "outputs/output_json.json" content, None)
    ∈ trace (example_stages
               (example_oracle (example_config (VStr "autotvm") (VStr "") false))
               (example_args 0)
               (example_store (example_config (VStr "autotvm") (VStr "") false)
                  None)).2 ∧
    content = VDict (<["status" := VInt (-1)]> (<["error_info" := VStr ""]> d)).
Proof.
  eassert ((json_dump "outputs/output_json.json" _, None)
           ∈ trace (example_stages
                      (example_oracle (example_config (VStr "autotvm") (VStr "") false))
                      (example_args 0)
                      (example_store
                         (example_config (VStr "autotvm") (VStr "") false) None)).2)
    as Hin.
  { apply (list_elem_of_lookup_2 _ 0%nat). vm_compute. reflexivity. }
  destruct (saved_report_is_final_report "outputs" "inputs" 1 (λ _, "")
              (example_oracle (example_config (VStr "autotvm") (VStr "") false))
              (example_args 0) (mkJSONConfig 1%positive) OnnxModel
              (mkJSONOutput 1%positive)
              (example_store (example_config (VStr "autotvm") (VStr "") false) None)
              _ _ _ _ _ (lookup_singleton_eq _ _) eq_refl Hin)
    as (_ & Hcontent).
  eexists _, _. split; [reflexivity|]. split; [exact Hin|].
  rewrite Hcontent. f_equal.
Defined.


(** The phases of the stages in remote mode, with the benchmark. *)
Lemma pipeline_phases_witness :
  ∃ eng d rd evl dlv,
    trace
      (example_stages
         (example_oracle (example_config (VStr "ansor") (VStr "") true))
         (example_args 1)
         (example_store (example_config (VStr "ansor") (VStr "") true) None)).2
    = eng ++ (json_dump "outputs/output_json.json" (VDict d), rd) :: evl ++ dlv ∧
    Forall (λ ev : Event, engine_call ev.1 = true) eng ∧
    Forall (λ ev : Event, evaluate_call ev.1 = true) evl ∧
    Forall (λ ev : Event, delivery_call ev.1 = true) dlv.
Proof.
  edestruct (pipeline_phases "outputs" "inputs" 1 (λ _, "")
               (example_oracle (example_config (VStr "ansor") (VStr "") true))
               (example_args 1) (mkJSONConfig 1%positive) OnnxModel
               (mkJSONOutput 1%positive)
               (example_store (example_config (VStr "ansor") (VStr "") true) None))
    as (eng & d & rd & evl & dlv & Ht & He & Hv & Hd & _).
  - apply lookup_singleton_eq.
  - eexists eng, d, rd, evl, dlv. split; [exact Ht|]. by repeat split.
Defined.

(** An optimizer that made calls had its fields. *)
Lemma optimizer_needs_its_fields_witness :
  ∃ d tgt n lf shape dtype verbose,
    example_config (VStr "ansor") (VStr "old.json") false = VDict d ∧
    config_fields d tgt n (VStr "ansor") lf shape dtype verbose.
Proof.
  edestruct (optimizer_needs_its_fields "outputs" (λ _, "") (example_oracle VNone)
               OnnxModel (mkJSONOutput 1%positive)
               (example_store (example_config (VStr "ansor") (VStr "old.json") false)
                  fresh_optimum))
    as (_ & tgt & n & lf & shape & dtype & verbose & Hf & _).
  - apply lookup_singleton_eq.
  - reflexivity.
  - apply surjective_pairing.
  - intros Heq. apply (f_equal trace) in Heq. vm_compute in Heq. discriminate.
  - eexists _, tgt, n, lf, shape, dtype, verbose. split; [reflexivity|exact Hf].
Defined.

(** The calls of an optimizer that returns, on a fresh search. *)
Lemma optimizer_success_trace_witness :
  ∃ d name tgt n lf shape dtype verbose,
    example_config (VStr "ansor") (VStr "") false = VDict d ∧
    d !! "model_name" = Some (VStr name) ∧
    config_fields d tgt n (VStr "ansor") lf shape dtype verbose.
Proof.
  edestruct (optimizer_success_trace "outputs" (λ _, "") (example_oracle VNone)
               OnnxModel (mkJSONOutput 1%positive)
               (example_store (example_config (VStr "ansor") (VStr "") false) None))
    as (name & tgt & n & lf & shape & dtype & verbose & Hn & Hf & _).
  - apply lookup_singleton_eq.
  - run_it.
  - eexists _, name, tgt, n, lf, shape, dtype, verbose.
    split; [reflexivity|]. by split.
Defined.

(** [get_model] after a run that returned. *)
Lemma get_model_after_run_witness :
  (Optimum_get_model
     (run_optimize "outputs" (λ _, "") (example_oracle VNone) OnnxModel
        (mkJSONOutput 1%positive)
        (example_store (example_config (VStr "ansor") (VStr "") false) None)).2).1
  = inr (mkGraphModuleWrapper ∅).
Proof.
  eassert (run_optimize "outputs" (λ _, "") (example_oracle VNone) OnnxModel
             (mkJSONOutput 1%positive)
             (example_store (example_config (VStr "ansor") (VStr "") false) None)
           = (inr tt, _)) as H
    by run_it.
  pose proof (get_model_after_run "outputs" (λ _, "") (example_oracle VNone)
                OnnxModel (mkJSONOutput 1%positive)
                (example_store (example_config (VStr "ansor") (VStr "") false) None)
                _ _ _ (lookup_singleton_eq _ _) eq_refl H) as Hg.
  simpl in Hg. by rewrite Hg.
Defined.

(** A config whose [tuned_log] is [null]: no search, and an
    [AttributeError]. *)
Lemma falsy_tuned_log_is_not_a_search_witness :
  (Optimum_run "outputs" (λ _, "") (example_oracle VNone) OnnxModel
     (mkJSONOutput 1%positive)
     (example_store (example_config (VStr "ansor") VNone false) fresh_optimum)).1
  = inl (AttributeError "'AnsorEngine' object has no attribute 'log_file'").
Proof.
  erewrite (falsy_tuned_log_is_not_a_search "outputs" (λ _, "") (example_oracle VNone)
              OnnxModel (mkJSONOutput 1%positive)
              (example_store (example_config (VStr "ansor") VNone false) fresh_optimum)).
  - reflexivity.
  - apply lookup_singleton_eq.
  - split; [by vm_compute|]. split; [by vm_compute|].
    split; eexists; (split; [by vm_compute|]); split; by vm_compute.
  - reflexivity.
  - reflexivity.
  - reflexivity.
  - reflexivity.
  - reflexivity.
Defined.

(** A config whose [model_name] is the number 5. *)
Lemma model_name_must_be_a_string_witness :
  field
    (run_inner "outputs" (λ _, "") (example_oracle VNone) OnnxModel
       (mkJSONOutput 1%positive)
       (example_store
          (VDict (<["model_name" := VInt 5]>
                    (match example_config (VStr "ansor") (VStr "") false with
                     | VDict d => d
                     | _ => ∅
                     end)))
          None)).2
    (mkJSONOutput 1%positive) "error_info"
  = Some (VStr "'int' object has no attribute 'replace'").
Proof.
  edestruct (model_name_must_be_a_string "outputs" (λ _, "") (example_oracle VNone)
               OnnxModel (mkJSONOutput 1%positive)
               (example_store
                  (VDict (<["model_name" := VInt 5]>
                            (match example_config (VStr "ansor") (VStr "") false with
                             | VDict d => d
                             | _ => ∅
                             end)))
                  None))
    as (_ & _ & Herr & _).
  - apply lookup_singleton_eq.
  - by vm_compute.
  - intros s. discriminate.
  - split; [by vm_compute|]. split; [by vm_compute|].
    split; eexists; (split; [by vm_compute|]); split; by vm_compute.
  - exact Herr.
Defined.

(** The engine of the model [resnet/v1] is named [resnet_v1]. *)
Lemma engine_name_has_no_slash_witness :
  ∃ ae w',
    AnsorEngine_init (example_oracle VNone) (VStr "resnet/v1") OnnxModel
      (VStr "llvm") VNone VNone (mkJSONOutput 1%positive)
      (example_store (VDict ∅) None)
    = (inr ae, w') ∧
    network_name ae = "resnet_v1" ∧ no_slash (network_name ae) = true.
Proof.
  eassert (AnsorEngine_init (example_oracle VNone) (VStr "resnet/v1") OnnxModel
             (VStr "llvm") VNone VNone (mkJSONOutput 1%positive)
             (example_store (VDict ∅) None) = (inr _, _)) as H
    by run_it.
  destruct (engine_name_has_no_slash _ _ _ _ _ _ _ _ _ _ H)
    as (name & _ & _ & Hns & _).
  eexists _, _. split; [exact H|]. split; [reflexivity | exact Hns].
Defined.

(** The finished record of the example engine. *)
Lemma finished_record_name_witness :
  finished_name (parse_path (tuning_log "outputs" (λ _, "") example_engine))
  = "tuninglog_network_name=resnet_v1--target=llvm_finished.json".
Proof.
  destruct (finished_record_name "outputs" (λ _, "") example_engine)
    as (_ & _ & _ & Hf & _); [reflexivity..|].
  rewrite Hf. reflexivity.
Defined.

(** The log the example engine compiles from is the renamed record. *)
Lemma compiles_from_renamed_record_witness :
  renamed_log "outputs" (λ _, "") example_engine
  = "outputs/tuninglog_network_name=resnet_v1--target=llvm_finished.json" ∧
  rename_call "outputs" (λ _, "") example_engine
  = rename "outputs/tuninglog_network_name=resnet_v1--target=llvm.json"
      "outputs/tuninglog_network_name=resnet_v1--target=llvm_finished.json".
Proof.
  destruct (compiles_from_renamed_record "outputs" (λ _, "") example_engine)
    as [Hlog Hcall].
  - intros Hn. vm_compute in Hn. discriminate.
  - rewrite Hcall, Hlog. split; by vm_compute.
Defined.

(** The status written through the report reads back. *)
Lemma report_setitem_getitem_witness :
  (JSONOutput_getitem (mkJSONOutput 1%positive) "status"
     (JSONOutput_setitem (mkJSONOutput 1%positive) "status" (VInt 1)
        (example_store (VDict ∅) None)).2).1
  = inr (VInt 1).
Proof.
  eassert (JSONOutput_setitem (mkJSONOutput 1%positive) "status" (VInt 1)
             (example_store (VDict ∅) None) = (inr tt, _)) as H
    by run_it.
  destruct (report_setitem_getitem _ _ _ _ _ H) as (Hg & _). by rewrite Hg.
Defined.

(** A module whose second output cannot be read. *)
Abbreviation broken_module :=
  (Build_GraphModule (gmap string Z) Z
     (λ inputs m, inr (inputs ∪ m)) (λ m, inr m) (λ _, 2)
     (λ i _, if bool_decide (i = 0) then inr 10
             else inl (External "device lost"))).

Lemma wrapper_first_failure_witness :
  @GraphModuleWrapper_call _ _ broken_module (mkGraphModuleWrapper ∅) ∅
  = (inl (External "device lost"), mkGraphModuleWrapper ∅).
Proof.
  apply (@wrapper_first_failure _ _ broken_module (mkGraphModuleWrapper ∅) ∅ ∅ ∅ 1).
  - reflexivity.
  - reflexivity.
  - simpl. lia.
  - intros j Hj. assert (j = 0) as -> by lia. by eexists.
  - reflexivity.
Defined.

(** A local job makes no call to cloud storage. *)
Lemma local_job_stays_local_witness :
  count_calls cloud_call
    (trace
       (example_run
          (example_oracle (example_config (VStr "ansor") (VStr "") true))
          (example_args 0)).2)
  = 0%nat.
Proof.
  apply (local_job_stays_local "outputs" "inputs" 1 (λ _, "")
           (example_oracle (example_config (VStr "ansor") (VStr "") true))
           (example_args 0)).
  reflexivity.
Defined.

(** The stages in remote mode, with a fresh search and the benchmark,
    complete. *)
Lemma well_formed_stages_complete_witness :
  (example_stages
     (example_oracle (example_config (VStr "ansor") (VStr "") true))
     (example_args 1)
     (example_store (example_config (VStr "ansor") (VStr "") true) None)).1
  = inr tt ∧
  field
    (example_stages
       (example_oracle (example_config (VStr "ansor") (VStr "") true))
       (example_args 1)
       (example_store (example_config (VStr "ansor") (VStr "") true) None)).2
    (mkJSONOutput 1%positive) "status"
  = Some (VInt 4).
Proof.
  edestruct (well_formed_stages_complete "outputs" "inputs" 1 (λ _, "")
               (example_oracle (example_config (VStr "ansor") (VStr "") true))
               (λ _ _, eq_refl) (example_args 1) (mkJSONConfig 1%positive) OnnxModel
               (mkJSONOutput 1%positive)
               (example_store (example_config (VStr "ansor") (VStr "") true) None))
    as (Hret & _ & Hst).
  - apply lookup_singleton_eq.
  - reflexivity.
  - by vm_compute.
  - by vm_compute.
  - split; [by vm_compute|]. split; [by vm_compute|].
    split; eexists; (split; [by vm_compute|]); split; by vm_compute.
  - intros _. eexists. split; [reflexivity|]. vm_compute.
    constructor; [|constructor]. split; [reflexivity|]. eexists. reflexivity.
  - by split.
Defined.

(** The bucket and the object of a URL. *)
Lemma bucket_object_round_trip_witness :
  get_bucket_object_name "gs://models/resnet/v1.onnx"
  = inr ("models", "resnet/v1.onnx").
Proof. by apply (bucket_object_round_trip "models" "resnet/v1.onnx"). Defined.

Lemma bucket_object_sound_witness :
  no_slash "models" = true ∧ no_newline "models" = true ∧
  no_newline "v1.onnx" = true.
Proof.
  destruct (bucket_object_sound "gs://models/v1.onnx" "models" "v1.onnx" eq_refl)
    as (H1 & H2 & H3 & _).
  by repeat split.
Defined.

(** The blob of an artifact, and two reports that fall on one blob. *)
Lemma remote_path_keeps_from_third_witness :
  remote_path "job_id=7" "./outputs/optimized_model/deploy_lib.tar"
  = "job_id=7/optimized_model/deploy_lib.tar".
Proof.
  by apply (remote_path_keeps_from_third "job_id=7" "." "outputs"
              "optimized_model/deploy_lib.tar").
Defined.

Lemma remote_path_collides_witness :
  remote_path "job_id=7" "outputs/output_json.json"
  = remote_path "job_id=7" "outputs/inference_time.csv".
Proof.
  by apply (remote_path_collides "job_id=7" "outputs" "output_json.json"
              "inference_time.csv").
Defined.
